(** * Weather ETL: extract, transform and load, embedded from the Python source

    The three stages of [weather_etl] are translated function by function:
    [extract.py] ([fetch_weather], [extract_all]), [transform.py]
    ([_parse_single], [transform]) and [load.py] ([load_to_csv],
    [load_to_sqlite]), followed by [utils.py] and the [run_pipeline] of
    [main.py].  Python values are the dynamically typed [pyval]; effects
    (HTTP requests, sleeping, the clock, logging, files, the database) are
    threaded through an explicit state, and a Python exception is the
    [Raise] outcome of a computation.  The libraries the code calls
    ([requests], [time], [pandas], [sqlite3], [pathlib]) are modelled as far
    as the pipeline uses them, their own errors included. *)

From Stdlib Require Import ZArith QArith Qabs List Lia.
From stdpp Require Import base option list gmap strings fin_maps.

Set Warnings "-register-all".
Local Open Scope string_scope.
Local Open Scope list_scope.
Local Open Scope Z_scope.

(** ** Python values *)

(** JSON-like values as the interpreter holds them after [response.json()].
    A [float] is kept as the rational it denotes; no arithmetic is done on
    it by the pipeline. *)
Inductive pyval : Type :=
| VNone
| VBool (b : bool)
| VInt (z : Z)
| VFloat (q : Q)
| VStr (s : string)
| VList (l : list pyval)
| VDict (d : gmap string pyval).

Abbreviation dict := (gmap string pyval).

(** [v is None] *)
Definition is_none (v : pyval) : bool :=
  match v with VNone => true | _ => false end.

(** ** Exceptions *)

(** The exception classes of [requests.exceptions] that the handlers of
    [fetch_weather] tell apart.  [RequestException] stands for the base class
    and every subclass other than the three named ones (among them the
    [JSONDecodeError] of [response.json()]). *)
Inductive requests_exn : Type :=
| Timeout
| HTTPError
| ConnectionError
| RequestException.

(** [SqliteError] stands for [sqlite3.Error] and its subclasses,
    [DatabaseError] for [pandas.errors.DatabaseError], which is not one of
    them. *)
Inductive exn : Type :=
| Requests (e : requests_exn)
| KeyError (key : string)
| AttributeError
| TypeError
| ValueError
| OverflowError
| FileExistsError
| NotADirectoryError
| SqliteError
| DatabaseError.

(** The classes an [except] clause can name. *)
Inductive exn_class : Type :=
| CTimeout | CHTTPError | CConnectionError | CRequestException
| CKeyError | CTypeError | CSqliteError.

(** [isinstance(e, cls)], with [Timeout], [HTTPError] and [ConnectionError]
    below [RequestException]. *)
Definition isinstance (e : exn) (cls : exn_class) : bool :=
  match cls, e with
  | CTimeout, Requests Timeout => true
  | CHTTPError, Requests HTTPError => true
  | CConnectionError, Requests ConnectionError => true
  | CRequestException, Requests _ => true
  | CKeyError, KeyError _ => true
  | CTypeError, TypeError => true
  | CSqliteError, SqliteError => true
  | _, _ => false
  end.

(** ** Computations: state passing with exceptions *)

Inductive result (A : Type) : Type :=
| Ret (a : A)
| Raise (e : exn).
Arguments Ret {A} a.
Arguments Raise {A} e.

Definition M (S A : Type) : Type := S -> result A * S.

Definition ret {S A} (a : A) : M S A := fun s => (Ret a, s).
Definition raise {S A} (e : exn) : M S A := fun s => (Raise e, s).
Definition bind {S A B} (m : M S A) (k : A -> M S B) : M S B :=
  fun s => match m s with
           | (Ret a, s') => k a s'
           | (Raise e, s') => (Raise e, s')
           end.

Notation "x <- m ;; k" := (bind m (fun x => k))
  (at level 100, m at next level, right associativity).
Notation "m ;;; k" := (bind m (fun _ => k))
  (at level 100, right associativity).

(** [try: body except cls1 as exc: h1 except cls2 as exc: h2 ...]: the first clause whose
    class the exception is an instance of handles it; with no such clause
    the exception propagates. *)
Fixpoint dispatch {S A} (e : exn) (handlers : list (exn_class * (exn -> M S A))) : M S A :=
  match handlers with
  | [] => raise e
  | (cls, h) :: rest => if isinstance e cls then h e else dispatch e rest
  end.

Definition try_except {S A} (body : M S A)
    (handlers : list (exn_class * (exn -> M S A))) : M S A :=
  fun s => match body s with
           | (Ret a, s') => (Ret a, s')
           | (Raise e, s') => dispatch e handlers s'
           end.

(** [d[key]] *)
Definition getitem {S} (d : dict) (key : string) : M S pyval :=
  match d !! key with
  | Some v => ret v
  | None => raise (KeyError key)
  end.

(** [d.get(key, default)] on a dict *)
Definition dict_get (d : dict) (key : string) (default : pyval) : pyval :=
  match d !! key with
  | Some v => v
  | None => default
  end.

(** [v.get(key, default)] on an arbitrary value: of the JSON-like values only
    a dict has the method. *)
Definition py_get {S} (v : pyval) (key : string) (default : pyval) : M S pyval :=
  match v with
  | VDict d => ret (dict_get d key default)
  | _ => raise AttributeError
  end.

(** [range(lo, hi)] *)
Definition py_range (lo hi : Z) : list Z :=
  map (fun i => lo + Z.of_nat i) (seq 0%nat (Z.to_nat (hi - lo))).

(** ** Logging *)

Inductive level : Type := INFO | WARNING | ERROR.

Record log_record : Type := LogRecord {
  log_level : level;
  log_msg : string;
  log_args : list pyval
}.

(** [str(exc)] as it is handed to the logger: the message of an exception is
    not modelled beyond its class. *)
Definition exc_str (e : exn) : pyval :=
  VStr match e with
       | Requests Timeout => "Timeout"
       | Requests HTTPError => "HTTPError"
       | Requests ConnectionError => "ConnectionError"
       | Requests RequestException => "RequestException"
       | KeyError k => k
       | AttributeError => "AttributeError"
       | TypeError => "TypeError"
       | ValueError => "ValueError"
       | OverflowError => "OverflowError"
       | FileExistsError => "FileExistsError"
       | NotADirectoryError => "NotADirectoryError"
       | SqliteError => "sqlite3.Error"
       | DatabaseError => "DatabaseError"
       end.

(** * extract.py *)

Module Extract.

(** What [requests.get] is called with. *)
Record Request : Type := {
  req_url : string;
  req_params : dict;
  req_timeout : Z
}.

(** What [requests.get] hands back: the status line and the body, [None]
    when the body is not JSON. *)
Record Response : Type := {
  status_code : Z;
  body : option pyval
}.

(** The observable effects of the module, in the order they happen. *)
Inductive event : Type :=
| EvGet (r : Request)
| EvSleep (secs : Z)
| EvLog (r : log_record).

Definition World : Type := list event.

Definition is_get (e : event) : bool :=
  match e with EvGet _ => true | _ => false end.

(** Number of calls of [requests.get] so far. *)
Definition n_requests (w : World) : nat := length (List.filter is_get w).

(** The durations slept so far, oldest first. *)
Definition sleeps (w : World) : list Z :=
  flat_map (fun e => match e with EvSleep s => [s] | _ => [] end) w.

(** The trace without its log lines. *)
Definition io_events (w : World) : list event :=
  List.filter (fun e => match e with EvLog _ => false | _ => true end) w.

Definition emit (e : event) : M World unit := fun w => (Ret tt, w ++ [e]).

Definition logger_info (msg : string) (args : list pyval) : M World unit :=
  emit (EvLog (LogRecord INFO msg args)).
Definition logger_warning (msg : string) (args : list pyval) : M World unit :=
  emit (EvLog (LogRecord WARNING msg args)).
Definition logger_error (msg : string) (args : list pyval) : M World unit :=
  emit (EvLog (LogRecord ERROR msg args)).

(** The largest whole number of seconds [time.sleep] takes: the duration is
    converted to nanoseconds held in a signed 64-bit integer, and
    [2^63 - 1] nanoseconds are 9223372036 seconds and a fraction. *)
Definition SLEEP_MAX : Z := 9223372036.

(** [time.sleep(secs)] for an [int]: the conversion to nanoseconds comes
    first and is an [OverflowError] beyond [SLEEP_MAX] on either side; a
    negative duration that converts is a [ValueError]. *)
Definition time_sleep (secs : Z) : M World unit :=
  if (secs <? - SLEEP_MAX) || (SLEEP_MAX <? secs) then raise OverflowError
  else if secs <? 0 then raise ValueError
  else emit (EvSleep secs).

(** [response.raise_for_status()]: [HTTPError] on a 4xx or 5xx status. *)
Definition raise_for_status (r : Response) : M World unit :=
  if (400 <=? status_code r) && (status_code r <? 600)
  then raise (Requests HTTPError) else ret tt.

(** [response.json()]: a body that is not JSON raises the library's
    [JSONDecodeError], a [RequestException]. *)
Definition json (r : Response) : M World pyval :=
  match body r with
  | Some v => ret v
  | None => raise (Requests RequestException)
  end.

(** [str(b).lower()] *)
Definition str_lower_bool (b : bool) : string :=
  if b then "true" else "false".

Section Fetcher.

(** What the [n]-th call of [requests.get] (counting from 0) does with a
    request: it raises, an exception of the library or another one, or it
    answers.  [validated] below gives the calls the library makes of a
    network. *)
Variable http : nat -> Request -> exn + Response.

Definition requests_get (url : string) (params : dict) (timeout : Z) : M World Response :=
  fun w =>
    let req := {| req_url := url; req_params := params; req_timeout := timeout |} in
    match http (n_requests w) req with
    | inl e => (Raise e, w ++ [EvGet req])
    | inr r => (Ret r, w ++ [EvGet req])
    end.

(** One pass through the body of the [for] loop.  [Some v] is a [return v]
    executed inside the loop, [None] is reaching the end of the body. *)
Definition attempt_body (city : dict) (base_url : string) (params : dict)
    (timeout max_retries backoff_factor attempt : Z) : M World (option pyval) :=
  returned <- try_except
    (name <- getitem city "name";;
     logger_info "Requesting weather for %s (attempt %d/%d)"
       [name; VInt attempt; VInt max_retries];;;
     response <- requests_get base_url params timeout;;
     raise_for_status response;;;
     data <- json response;;
     name <- getitem city "name";;
     logger_info "Successfully fetched weather for %s" [name];;;
     ret (Some data))
    [ (CTimeout, fun _ =>
         name <- getitem city "name";;
         logger_warning "Timeout fetching %s (attempt %d/%d)"
           [name; VInt attempt; VInt max_retries];;;
         ret None);
      (CHTTPError, fun exc =>
         name <- getitem city "name";;
         logger_warning "HTTP error for %s: %s (attempt %d/%d)"
           [name; exc_str exc; VInt attempt; VInt max_retries];;;
         ret None);
      (CConnectionError, fun exc =>
         name <- getitem city "name";;
         logger_warning "Connection error for %s: %s (attempt %d/%d)"
           [name; exc_str exc; VInt attempt; VInt max_retries];;;
         ret None);
      (CRequestException, fun exc =>
         name <- getitem city "name";;
         logger_error "Unrecoverable request error for %s: %s"
           [name; exc_str exc];;;
         ret (Some VNone)) ];;
  match returned with
  | Some v => ret (Some v)
  | None =>
      (if attempt <? max_retries then
         let wait := backoff_factor ^ attempt in
         logger_info "Retrying in %d seconds …" [VInt wait];;;
         time_sleep wait
       else ret tt);;;
      ret None
  end.

(** [for attempt in attempts: ...] *)
Fixpoint retry_loop (city : dict) (base_url : string) (params : dict)
    (timeout max_retries backoff_factor : Z) (attempts : list Z)
    : M World (option pyval) :=
  match attempts with
  | [] => ret None
  | attempt :: rest =>
      r <- attempt_body city base_url params timeout max_retries backoff_factor attempt;;
      match r with
      | Some v => ret (Some v)
      | None => retry_loop city base_url params timeout max_retries backoff_factor rest
      end
  end.

Definition fetch_weather (city : dict) (base_url : string)
    (timeout max_retries backoff_factor : Z) (current_weather : bool) : M World pyval :=
  latitude <- getitem city "latitude";;
  longitude <- getitem city "longitude";;
  let params : dict :=
    {[ "latitude" := latitude;
       "longitude" := longitude;
       "current_weather" := VStr (str_lower_bool current_weather) ]} in
  r <- retry_loop city base_url params timeout max_retries backoff_factor
         (py_range 1 (max_retries + 1));;
  match r with
  | Some v => ret v
  | None =>
      name <- getitem city "name";;
      logger_error "All %d attempts failed for %s – skipping." [VInt max_retries; name];;;
      ret VNone
  end.

(** [api_config]: the keys [extract_all] reads, each absent or bound to a
    value of the type the signature of [fetch_weather] declares. *)
Record ApiConfig : Type := {
  cfg_base_url : option string;
  cfg_timeout_seconds : option Z;
  cfg_max_retries : option Z;
  cfg_backoff_factor : option Z;
  cfg_current_weather : option bool
}.

(** [for city in cities: ...] with [results] as built so far. *)
Fixpoint extract_loop (cities : list dict) (api_config : ApiConfig)
    (results : list pyval) : M World (list pyval) :=
  match cities with
  | [] => ret results
  | city :: rest =>
      base_url <- match cfg_base_url api_config with
                  | Some u => ret u
                  | None => raise (KeyError "base_url")
                  end;;
      raw <- fetch_weather city base_url
               (default 10 (cfg_timeout_seconds api_config))
               (default 3 (cfg_max_retries api_config))
               (default 2 (cfg_backoff_factor api_config))
               (default true (cfg_current_weather api_config));;
      results' <- (if negb (is_none raw) then
                     name <- getitem city "name";;
                     ret (results ++ [VDict {[ "city" := name; "raw" := raw ]}])
                   else ret results);;
      extract_loop rest api_config results'
  end.

Definition extract_all (cities : list dict) (api_config : ApiConfig) : M World (list pyval) :=
  results <- extract_loop cities api_config [];;
  logger_info "Extraction complete: %d/%d cities succeeded."
    [VInt (Z.of_nat (length results)); VInt (Z.of_nat (length cities))];;;
  ret results.

(** The raw values the successive calls of [fetch_weather] return under
    [extract_all], city by city and in order, with the state each call
    leaves to the next; the run stops at a call that raises. *)
Fixpoint fetch_results (cities : list dict) (base_url : string)
    (api_config : ApiConfig) (w : World) : list pyval * World :=
  match cities with
  | [] => ([], w)
  | city :: rest =>
      match fetch_weather city base_url
              (default 10 (cfg_timeout_seconds api_config))
              (default 3 (cfg_max_retries api_config))
              (default 2 (cfg_backoff_factor api_config))
              (default true (cfg_current_weather api_config)) w with
      | (Ret raw, w1) =>
          let (raws, w2) := fetch_results rest base_url api_config w1 in (raw :: raws, w2)
      | (Raise _, w1) => ([], w1)
      end
  end.

End Fetcher.

(** A network: what it does with the [n]-th request sent, raising one of
    the exceptions of the requests library or answering. *)
Definition network : Type := nat -> Request -> requests_exn + Response.

(** [requests.get] over a network.  The library checks the timeout before
    anything is sent: a timeout that is not positive is a [ValueError],
    whatever the network would do; otherwise the network decides. *)
Definition validated (net : network) (n : nat) (req : Request) : exn + Response :=
  if req_timeout req <=? 0 then inl ValueError
  else match net n req with
       | inl e => inl (Requests e)
       | inr r => inr r
       end.

(** *** Vocabulary of the statements about [fetch_weather] *)

(** An attempt that fails and is retried: a timeout, a connection failure or
    an HTTP error, the latter also as a 4xx or 5xx answer. *)
Definition retryable_failure (o : exn + Response) : bool :=
  match o with
  | inl (Requests Timeout) | inl (Requests HTTPError)
  | inl (Requests ConnectionError) => true
  | inl _ => false
  | inr r => (400 <=? status_code r) && (status_code r <? 600)
  end.

(** An attempt that fails with a request error of none of the three retried
    classes; an answer whose body is not JSON is one. *)
Definition unrecoverable_failure (o : exn + Response) : bool :=
  match o with
  | inl (Requests RequestException) => true
  | inl _ => false
  | inr r => negb ((400 <=? status_code r) && (status_code r <? 600))
             && match body r with None => true | Some _ => false end
  end.

(** A call that raises an exception of the requests library, or answers:
    what the handlers of [fetch_weather] are written for. *)
Definition requests_only (o : exn + Response) : bool :=
  match o with
  | inl (Requests _) => true
  | inl _ => false
  | inr _ => true
  end.

(** Every back-off delay of a call with [max_retries = N] is a duration
    [time.sleep] accepts. *)
Definition delays_ok (N b : Z) : Prop :=
  forall a, 1 <= a < N -> 0 <= b ^ a <= SLEEP_MAX.

(** The request [fetch_weather] sends for a city. *)
Definition city_request (latitude longitude : pyval) (base_url : string)
    (timeout : Z) (current_weather : bool) : Request :=
  {| req_url := base_url;
     req_params := {[ "latitude" := latitude;
                      "longitude" := longitude;
                      "current_weather" := VStr (str_lower_bool current_weather) ]};
     req_timeout := timeout |}.

(** The requests and sleeps of a run of failed attempts: one request per
    attempt, followed by a sleep of [backoff_factor ^ attempt] when the
    attempt is not the last one allowed. *)
Definition retry_schedule (req : Request) (max_retries backoff_factor : Z)
    (attempts : list Z) : list event :=
  flat_map (fun attempt =>
              EvGet req ::
              (if attempt <? max_retries then [EvSleep (backoff_factor ^ attempt)] else []))
           attempts.

(** The city named by an output pair. *)
Definition pair_city (p : pyval) : pyval :=
  match p with VDict d => dict_get d "city" VNone | _ => VNone end.

(** A city dict with the three keys the functions read. *)
Definition city_ok (city : dict) : Prop :=
  is_Some (city !! "name") /\ is_Some (city !! "latitude") /\ is_Some (city !! "longitude").

(** The [{"city": ..., "raw": ...}] pairs of the cities whose fetch returned
    something other than [None], in the order of the cities. *)
Definition successes (cities : list dict) (raws : list pyval) : list pyval :=
  omap (fun cr : dict * pyval =>
          if is_none (snd cr) then None
          else Some (VDict {[ "city" := dict_get (fst cr) "name" VNone; "raw" := snd cr ]}))
       (zip cities raws).

End Extract.

(** * pandas, as far as the pipeline uses it *)

Module pd.

(** A column.  [SObject] holds Python values as they are; the other
    constructors are the numeric dtypes, [None] standing for [NaN] in a
    [float64] column and for [<NA>] in a nullable [Int64] column. *)
Inductive NumSeries : Type :=
| SFloat64 (xs : list (option Q))
| SInt64 (xs : list Z)
| SBool (xs : list bool)
| SInt64NA (xs : list (option Z)).

Inductive Series : Type :=
| SObject (xs : list pyval)
| SNum (s : NumSeries).

Definition num_len (s : NumSeries) : nat :=
  match s with
  | SFloat64 xs => length xs
  | SInt64 xs => length xs
  | SBool xs => length xs
  | SInt64NA xs => length xs
  end.

Definition series_len (s : Series) : nat :=
  match s with
  | SObject xs => length xs
  | SNum n => num_len n
  end.

(** A frame: its columns in order, each with its name. *)
Definition DataFrame : Type := list (string * Series).

(** [df.columns] *)
Definition columns (df : DataFrame) : list string := map fst df.

(** [len(df)] *)
Definition len (df : DataFrame) : nat :=
  match df with
  | [] => 0%nat
  | (_, s) :: _ => series_len s
  end.

(** [df.empty]: no column or no row. *)
Definition empty (df : DataFrame) : bool :=
  (length df =? 0)%nat || (len df =? 0)%nat.

(** [pd.DataFrame()] *)
Definition DataFrame_noargs : DataFrame := [].

(** [pd.DataFrame(columns=cols)] *)
Definition DataFrame_columns (cols : list string) : DataFrame :=
  map (fun c => (c, SObject [])) cols.

(** [pd.DataFrame(rows, columns=cols)] for a list of dicts: one column per
    name, holding that key of every row.  The dtype pandas infers for such a
    column when it builds the frame is not modelled: [to_numeric] below
    gives the same column from the values as from the inferred column. *)
Definition DataFrame_rows (rows : list dict) (cols : list string) : DataFrame :=
  map (fun c => (c, SObject (map (fun row : dict => dict_get row c VNone) rows))) cols.

(** [df[name]] *)
Fixpoint get_column (df : DataFrame) (name : string) : option Series :=
  match df with
  | [] => None
  | (c, s) :: rest => if String.eqb c name then Some s else get_column rest name
  end.

Definition getitem {S} (df : DataFrame) (name : string) : M S Series :=
  match get_column df name with
  | Some s => ret s
  | None => raise (KeyError name)
  end.

(** [df[name] = s]: an existing column is replaced in place, a new one is
    added at the end. *)
Fixpoint setitem (df : DataFrame) (name : string) (s : Series) : DataFrame :=
  match df with
  | [] => [(name, s)]
  | (c, old) :: rest =>
      if String.eqb c name then (c, s) :: rest else (c, old) :: setitem rest name s
  end.

(** What one value converts to under [errors="coerce"]. *)
Inductive numeric : Type :=
| NInt (z : Z)
| NFloat (q : Q)
| NBool (b : bool)
| NNull.

Section ToNumeric.

(** The parser [to_numeric] applies to a string: an integer, a decimal
    number, or nothing when the string is not a number. *)
Variable parse_number : string -> option (Z + Q).

Definition scalar_to_numeric (v : pyval) : numeric :=
  match v with
  | VNone => NNull
  | VBool b => NBool b
  | VInt z => NInt z
  | VFloat q => NFloat q
  | VStr s =>
      match parse_number s with
      | Some (inl z) => NInt z
      | Some (inr q) => NFloat q
      | None => NNull
      end
  | VList _ | VDict _ => NNull
  end.

Definition is_floating (n : numeric) : bool :=
  match n with NFloat _ | NNull => true | _ => false end.
Definition is_integer (n : numeric) : bool :=
  match n with NInt _ => true | _ => false end.

Definition as_float (n : numeric) : option Q :=
  match n with
  | NInt z => Some (inject_Z z)
  | NFloat q => Some q
  | NBool b => Some (inject_Z (Z.b2z b))
  | NNull => None
  end.
Definition as_int (n : numeric) : Z :=
  match n with
  | NInt z => z
  | NBool b => Z.b2z b
  | _ => 0
  end.
Definition as_bool (n : numeric) : bool :=
  match n with NBool b => b | _ => false end.

(** [pd.to_numeric(s, errors="coerce")]: a numeric column is returned as it
    is; the values of an object column are converted one by one, what is
    not a number becoming [NaN], and the column is [float64] as soon as it
    holds a float or a [NaN], else [int64] when it holds an integer, else
    [bool].  Numbers are held as the rationals and integers they are: this
    is what pandas computes on numbers of magnitude at most [2^53], which
    [float64] and [int64] both hold as they are.  Beyond, pandas rounds an
    integer that enters a [float64] column and tells the ranges of [int64]
    and [uint64] apart, which is not followed here. *)
Definition to_numeric_coerce (s : Series) : NumSeries :=
  match s with
  | SNum n => n
  | SObject xs =>
      let ns := map scalar_to_numeric xs in
      if existsb is_floating ns then SFloat64 (map as_float ns)
      else if existsb is_integer ns then SInt64 (map as_int ns)
      else match ns with
           | [] => SInt64 []
           | _ => SBool (map as_bool ns)
           end
  end.

End ToNumeric.

(** A float equal to an integer. *)
Definition is_integral (q : Q) : bool :=
  (Z.rem (Qnum q) (Zpos (Qden q)) =? 0).

Definition Q_to_Z (q : Q) : Z := Z.quot (Qnum q) (Zpos (Qden q)).

(** [s.astype("Int64")] on a numeric column: [NaN] becomes [<NA>], and a
    [float64] column is cast only when each of its numbers is integral;
    otherwise the cast of the whole column is a [TypeError] (cannot safely
    cast non-equivalent float64 to int64).  As for [to_numeric], this is the
    cast of pandas on numbers of magnitude at most [2^53]; the range of
    [int64] is not followed. *)
Definition astype_Int64 {S} (s : NumSeries) : M S NumSeries :=
  match s with
  | SFloat64 xs =>
      if forallb (fun x => match x with None => true | Some q => is_integral q end) xs
      then ret (SInt64NA (map (option_map Q_to_Z) xs))
      else raise TypeError
  | SInt64 xs => ret (SInt64NA (map Some xs))
  | SBool xs => ret (SInt64NA (map (fun b => Some (Z.b2z b)) xs))
  | SInt64NA xs => ret (SInt64NA xs)
  end.

Definition is_missing {A} (x : option A) : bool :=
  match x with None => true | Some _ => false end.

(** Whether row [i] of a column is null ([None], [NaN] or [<NA>]). *)
Definition cell_isna (s : Series) (i : nat) : option bool :=
  match s with
  | SObject xs => is_none <$> xs !! i
  | SNum (SFloat64 xs) => is_missing <$> xs !! i
  | SNum (SInt64 xs) => (fun _ => false) <$> xs !! i
  | SNum (SBool xs) => (fun _ => false) <$> xs !! i
  | SNum (SInt64NA xs) => is_missing <$> xs !! i
  end.

End pd.

(** * transform.py *)

Module Transform.

(** The state of the module: how often the clock has been read, and the
    lines logged, oldest first. *)
Record World : Type := {
  clock_reads : nat;
  log : list log_record
}.

Definition emit (r : log_record) : M World unit :=
  fun w => (Ret tt, {| clock_reads := clock_reads w; log := log w ++ [r] |}).

Definition logger_info (msg : string) (args : list pyval) : M World unit :=
  emit (LogRecord INFO msg args).
Definition logger_warning (msg : string) (args : list pyval) : M World unit :=
  emit (LogRecord WARNING msg args).
Definition logger_error (msg : string) (args : list pyval) : M World unit :=
  emit (LogRecord ERROR msg args).

Definition EXPECTED_COLUMNS : list string :=
  [ "city";
    "timestamp";
    "temperature_c";
    "windspeed_kmh";
    "winddirection_deg";
    "weathercode";
    "is_day";
    "retrieval_timestamp" ].

Section Normalizer.

(** The clock: [now_iso n] is what
    [datetime.now(timezone.utc).isoformat()] gives at its [n]-th reading. *)
Variable now_iso : nat -> string.

Variable parse_number : string -> option (Z + Q).

Definition datetime_now_isoformat : M World string :=
  fun w => (Ret (now_iso (clock_reads w)),
            {| clock_reads := S (clock_reads w); log := log w |}).

Definition _parse_single (record : dict) : M World (option dict) :=
  let city_name := dict_get record "city" (VStr "unknown") in
  let raw := dict_get record "raw" (VDict ∅) in
  current <- py_get raw "current_weather" VNone;;
  if is_none current then
    logger_warning "No 'current_weather' block for %s – skipping." [city_name];;;
    ret None
  else
    try_except
      (timestamp <- py_get current "time" VNone;;
       temperature_c <- py_get current "temperature" VNone;;
       windspeed_kmh <- py_get current "windspeed" VNone;;
       winddirection_deg <- py_get current "winddirection" VNone;;
       weathercode <- py_get current "weathercode" VNone;;
       is_day <- py_get current "is_day" VNone;;
       retrieval_timestamp <- datetime_now_isoformat;;
       let parsed : dict :=
         {[ "city" := city_name;
            "timestamp" := timestamp;
            "temperature_c" := temperature_c;
            "windspeed_kmh" := windspeed_kmh;
            "winddirection_deg" := winddirection_deg;
            "weathercode" := weathercode;
            "is_day" := is_day;
            "retrieval_timestamp" := VStr retrieval_timestamp ]} in
       ret (Some parsed))
      (let handler := fun exc =>
         logger_error "Error parsing data for %s: %s" [city_name; exc_str exc];;;
         ret None in
       [ (CKeyError, handler); (CTypeError, handler) ]).

(** [for record in raw_records: ...] with [rows] as built so far. *)
Fixpoint parse_loop (raw_records : list dict) (rows : list dict) : M World (list dict) :=
  match raw_records with
  | [] => ret rows
  | record :: rest =>
      parsed <- _parse_single record;;
      match parsed with
      | Some p => parse_loop rest (rows ++ [p])
      | None => parse_loop rest rows
      end
  end.

(** [df[name] = pd.to_numeric(df[name], errors="coerce")] *)
Definition coerce_column (df : pd.DataFrame) (name : string) : M World pd.DataFrame :=
  s <- pd.getitem df name;;
  ret (pd.setitem df name (pd.SNum (pd.to_numeric_coerce parse_number s))).

(** [df[name] = pd.to_numeric(df[name], errors="coerce").astype("Int64")] *)
Definition coerce_column_Int64 (df : pd.DataFrame) (name : string) : M World pd.DataFrame :=
  s <- pd.getitem df name;;
  s' <- pd.astype_Int64 (pd.to_numeric_coerce parse_number s);;
  ret (pd.setitem df name (pd.SNum s')).

Definition transform (raw_records : list dict) : M World pd.DataFrame :=
  rows <- parse_loop raw_records [];;
  match rows with
  | [] =>
      logger_warning "Transform produced an empty DataFrame." [];;;
      ret (pd.DataFrame_columns EXPECTED_COLUMNS)
  | _ =>
      let df := pd.DataFrame_rows rows EXPECTED_COLUMNS in
      df <- coerce_column df "temperature_c";;
      df <- coerce_column df "windspeed_kmh";;
      df <- coerce_column df "winddirection_deg";;
      df <- coerce_column_Int64 df "weathercode";;
      df <- coerce_column_Int64 df "is_day";;
      logger_info "Transform complete: %d rows produced." [VInt (Z.of_nat (pd.len df))];;;
      ret df
  end.

(** *** Vocabulary of the statements about [_parse_single] and [transform] *)

(** The state after one reading of the clock, and after one log line. *)
Definition tick (w : World) : World :=
  {| clock_reads := S (clock_reads w); log := log w |}.

Definition logged (r : log_record) (w : World) : World :=
  {| clock_reads := clock_reads w; log := log w ++ [r] |}.

(** The dict literal of [_parse_single], for a sub-block that is a dict. *)
Definition row_of (city_name : pyval) (current : dict) (stamp : string) : dict :=
  {[ "city" := city_name;
     "timestamp" := dict_get current "time" VNone;
     "temperature_c" := dict_get current "temperature" VNone;
     "windspeed_kmh" := dict_get current "windspeed" VNone;
     "winddirection_deg" := dict_get current "winddirection" VNone;
     "weathercode" := dict_get current "weathercode" VNone;
     "is_day" := dict_get current "is_day" VNone;
     "retrieval_timestamp" := VStr stamp ]}.

(** The named sub-fields of the payload and the output field each goes to. *)
Definition SUBFIELDS : list (string * string) :=
  [ ("time", "timestamp");
    ("temperature", "temperature_c");
    ("windspeed", "windspeed_kmh");
    ("winddirection", "winddirection_deg");
    ("weathercode", "weathercode");
    ("is_day", "is_day") ].

Definition skip_line (record : dict) : log_record :=
  LogRecord WARNING "No 'current_weather' block for %s – skipping."
    [dict_get record "city" (VStr "unknown")].

Definition empty_line : log_record :=
  LogRecord WARNING "Transform produced an empty DataFrame." [].

Definition is_mapping (v : pyval) : bool :=
  match v with VDict _ => true | _ => false end.

(** A record [_parse_single] answers [None] for. *)
Definition skipped (record : dict) : Prop :=
  forall w, fst (_parse_single record w) = Ret None.

(** One column of the frame built from the parsed rows. *)
Definition column (rows : list dict) (name : string) : list pyval :=
  map (fun row : dict => dict_get row name VNone) rows.

Definition numeric_column (rows : list dict) (name : string) : pd.NumSeries :=
  pd.to_numeric_coerce parse_number (pd.SObject (column rows name)).

(** The frame [transform] returns for the parsed rows, given the two
    integer columns after their cast. *)
Definition typed_frame (rows : list dict) (wc day : pd.NumSeries) : pd.DataFrame :=
  [ ("city", pd.SObject (column rows "city"));
    ("timestamp", pd.SObject (column rows "timestamp"));
    ("temperature_c", pd.SNum (numeric_column rows "temperature_c"));
    ("windspeed_kmh", pd.SNum (numeric_column rows "windspeed_kmh"));
    ("winddirection_deg", pd.SNum (numeric_column rows "winddirection_deg"));
    ("weathercode", pd.SNum wc);
    ("is_day", pd.SNum day);
    ("retrieval_timestamp", pd.SObject (column rows "retrieval_timestamp")) ].

(** The cast of a column, apart from the state it is run in. *)
Definition cast_Int64 (s : pd.NumSeries) : result pd.NumSeries :=
  fst (pd.astype_Int64 s tt).

(** What [transform] makes of the parsed rows. *)
Definition frame_of (rows : list dict) : result pd.DataFrame :=
  match rows with
  | [] => Ret (pd.DataFrame_columns EXPECTED_COLUMNS)
  | _ =>
      match cast_Int64 (numeric_column rows "weathercode") with
      | Raise e => Raise e
      | Ret wc =>
          match cast_Int64 (numeric_column rows "is_day") with
          | Raise e => Raise e
          | Ret day => Ret (typed_frame rows wc day)
          end
      end
  end.

(** The line [transform] logs before it returns. *)
Definition closing_line (rows : list dict) : log_record :=
  match rows with
  | [] => empty_line
  | _ => LogRecord INFO "Transform complete: %d rows produced."
           [VInt (Z.of_nat (length rows))]
  end.

End Normalizer.

End Transform.

(** * load.py *)

Module Load.

(** A path, as its components. *)
Definition Path : Type := list string.

(** The state of the module: the clock, the log, the directories and files
    on disk (a file with its text), and the databases on disk, each with the
    rows of its [weather_current] table ([None] while the table does not
    exist). *)
Record World : Type := {
  clock_reads : nat;
  log : list log_record;
  dirs : gset (list string);
  files : gmap (list string) string;
  dbs : gmap (list string) (option (list dict))
}.

Definition emit (r : log_record) : M World unit :=
  fun w => (Ret tt,
            {| clock_reads := clock_reads w; log := log w ++ [r];
               dirs := dirs w; files := files w; dbs := dbs w |}).

Definition logger_info (msg : string) (args : list pyval) : M World unit :=
  emit (LogRecord INFO msg args).
Definition logger_warning (msg : string) (args : list pyval) : M World unit :=
  emit (LogRecord WARNING msg args).
Definition logger_error (msg : string) (args : list pyval) : M World unit :=
  emit (LogRecord ERROR msg args).

(** [str(path)] *)
Definition path_str (p : Path) : string :=
  String.concat "/" p.

(** [path.parent] *)
Definition parent (p : Path) : Path := removelast p.

(** The path itself and the directories above it. *)
Fixpoint ancestors (p : Path) (n : nat) : list Path :=
  match n with
  | O => []
  | S n' => firstn (S n') p :: ancestors p n'
  end.

(** [path.mkdir(parents=True, exist_ok=True)]: the directory and the missing
    ones above it are created.  A file where the directory should be is a
    [FileExistsError], a file where one of the directories above it should
    be a [NotADirectoryError]. *)
Definition mkdir_parents (p : Path) : M World unit :=
  fun w =>
    let ps := ancestors p (length p) in
    let is_file := fun q => bool_decide (is_Some (files w !! q)) in
    if existsb is_file (firstn 1 ps) then (Raise FileExistsError, w)
    else if existsb is_file ps then (Raise NotADirectoryError, w)
    else (Ret tt,
          {| clock_reads := clock_reads w; log := log w;
             dirs := dirs w ∪ list_to_set ps; files := files w; dbs := dbs w |}).

Section Loader.

(** [now_stamp n] is what
    [datetime.now(timezone.utc).strftime("%Y%m%d_%H%M%S")] gives at the
    [n]-th reading of the clock. *)
Variable now_stamp : nat -> string.

(** The text [df.to_csv(..., index=False, encoding="utf-8")] writes. *)
Variable csv_text : pd.DataFrame -> string.

(** [df.to_sql("weather_current", conn, if_exists="append", index=False)]
    on a table holding the given rows: the rows of the table afterwards, or
    the exception the call raises when the insert is refused.  Which
    exception that is depends on the library: pandas hands on the
    [sqlite3.Error] of the engine or wraps it in its own [DatabaseError]. *)
Variable to_sql_append : pd.DataFrame -> list dict -> exn + list dict.

Definition datetime_now_strftime : M World string :=
  fun w => (Ret (now_stamp (clock_reads w)),
            {| clock_reads := S (clock_reads w); log := log w;
               dirs := dirs w; files := files w; dbs := dbs w |}).

(** [df.to_csv(filepath, index=False, encoding="utf-8")] *)
Definition to_csv (df : pd.DataFrame) (filepath : Path) : M World unit :=
  fun w => (Ret tt,
            {| clock_reads := clock_reads w; log := log w; dirs := dirs w;
               files := <[filepath := csv_text df]> (files w); dbs := dbs w |}).

Definition load_to_csv (df : pd.DataFrame) (data_dir : Path) : M World (option Path) :=
  if pd.empty df then
    logger_warning "Empty DataFrame – CSV not written." [];;;
    ret None
  else
    mkdir_parents data_dir;;;
    ts <- datetime_now_strftime;;
    let filepath := data_dir ++ [("weather_data_" +:+ ts +:+ ".csv")%string] in
    to_csv df filepath;;;
    logger_info "CSV saved: %s (%d rows)"
      [VStr (path_str filepath); VInt (Z.of_nat (pd.len df))];;;
    ret (Some filepath).

(** [sqlite3.connect(str(db_path))]: the database file is created when it
    does not exist. *)
Definition sqlite3_connect (db_path : Path) : M World unit :=
  fun w =>
    match dbs w !! db_path with
    | Some _ => (Ret tt, w)
    | None => (Ret tt,
               {| clock_reads := clock_reads w; log := log w; dirs := dirs w;
                  files := files w; dbs := <[db_path := None]> (dbs w) |})
    end.

(** The table of a connected database, read or written. *)
Definition get_table (db_path : Path) : M World (option (list dict)) :=
  fun w => (Ret (default None (dbs w !! db_path)), w).
Definition set_table (db_path : Path) (rows : list dict) : M World unit :=
  fun w => (Ret tt,
            {| clock_reads := clock_reads w; log := log w; dirs := dirs w;
               files := files w; dbs := <[db_path := Some rows]> (dbs w) |}).

(** [conn.execute(_CREATE_TABLE_SQL)]: [CREATE TABLE IF NOT EXISTS]. *)
Definition create_table_if_not_exists (db_path : Path) : M World unit :=
  t <- get_table db_path;;
  match t with
  | Some _ => ret tt
  | None => set_table db_path []
  end.

(** [conn.execute("SELECT COUNT( * ) FROM weather_current").fetchone()[0]] *)
Definition select_count (db_path : Path) : M World Z :=
  t <- get_table db_path;;
  match t with
  | Some rows => ret (Z.of_nat (length rows))
  | None => raise SqliteError
  end.

Definition to_sql (df : pd.DataFrame) (db_path : Path) : M World unit :=
  t <- get_table db_path;;
  match t with
  | Some rows =>
      match to_sql_append df rows with
      | inr rows' => set_table db_path rows'
      | inl e => raise e
      end
  | None => raise SqliteError
  end.

Definition load_to_sqlite (df : pd.DataFrame) (db_path : Path) : M World Z :=
  if pd.empty df then
    logger_warning "Empty DataFrame – nothing to insert into SQLite." [];;;
    ret 0
  else
    mkdir_parents (parent db_path);;;
    try_except
      (sqlite3_connect db_path;;;
       create_table_if_not_exists db_path;;;
       rows_before <- select_count db_path;;
       to_sql df db_path;;;
       rows_after <- select_count db_path;;
       let inserted := rows_after - rows_before in
       logger_info "SQLite: inserted %d rows into weather_current (total: %d)"
         [VInt inserted; VInt rows_after];;;
       ret inserted)
      [ (CSqliteError, fun exc =>
           logger_error "SQLite error: %s" [exc_str exc];;;
           raise exc) ].

End Loader.

End Load.

(** * Fixtures: the values the test suite of the repository runs on *)

Module Fixtures.

Definition PARIS : dict :=
  {[ "name" := VStr "Paris";
     "latitude" := VFloat (488566 # 10000);
     "longitude" := VFloat (23522 # 10000) ]}.

Definition BAD : dict :=
  {[ "name" := VStr "Bad"; "latitude" := VInt 0; "longitude" := VInt 0 ]}.

Definition API_CONFIG : Extract.ApiConfig :=
  {| Extract.cfg_base_url := Some "https://api.open-meteo.com/v1/forecast";
     Extract.cfg_timeout_seconds := Some 5;
     Extract.cfg_max_retries := Some 2;
     Extract.cfg_backoff_factor := Some 1;
     Extract.cfg_current_weather := Some true |}.

Definition CURRENT_WEATHER : dict :=
  {[ "time" := VStr "2026-02-18T22:00";
     "temperature" := VFloat (72 # 10);
     "windspeed" := VFloat (125 # 10);
     "winddirection" := VInt 210;
     "weathercode" := VInt 3;
     "is_day" := VInt 0 ]}.

Definition SAMPLE_RESPONSE : pyval :=
  VDict {[ "latitude" := VFloat (4886 # 100);
           "longitude" := VFloat (235 # 100);
           "current_weather" := VDict CURRENT_WEATHER ]}.

Definition VALID_RECORD : dict :=
  {[ "city" := VStr "Paris";
     "raw" := VDict {[ "current_weather" := VDict CURRENT_WEATHER ]} ]}.

Definition RECORD_MISSING_CW : dict :=
  {[ "city" := VStr "Broken"; "raw" := VDict ∅ ]}.

(** A record whose sub-block lacks two of its sub-fields. *)
Definition RECORD_PARTIAL : dict :=
  {[ "city" := VStr "Paris";
     "raw" := VDict {[ "current_weather" :=
       VDict {[ "time" := VStr "2026-02-18T22:00";
                "temperature" := VFloat (72 # 10);
                "windspeed" := VFloat (125 # 10);
                "winddirection" := VInt 210 ]} ]} ]}.

(** A record whose [current_weather] entry is a number. *)
Definition RECORD_NON_MAPPING : dict :=
  {[ "city" := VStr "Odd"; "raw" := VDict {[ "current_weather" := VInt 5 ]} ]}.

(** The valid record with [weathercode] 3.5. *)
Definition RECORD_FRACTIONAL_CODE : dict :=
  {[ "city" := VStr "Paris";
     "raw" := VDict {[ "current_weather" :=
       VDict (<[ "weathercode" := VFloat (7 # 2) ]> CURRENT_WEATHER) ]} ]}.

(** Calls of [requests.get]: every one times out; every one fails beyond
    retry; the first one is answered with the sample and the later ones
    time out. *)
Definition always_timeout (n : nat) (req : Extract.Request)
    : exn + Extract.Response := inl (Requests Timeout).

Definition always_fatal (n : nat) (req : Extract.Request)
    : exn + Extract.Response := inl (Requests RequestException).

Definition first_answers (n : nat) (req : Extract.Request)
    : exn + Extract.Response :=
  match n with
  | O => inr {| Extract.status_code := 200; Extract.body := Some SAMPLE_RESPONSE |}
  | _ => inl (Requests Timeout)
  end.

(** The first call times out, every later one fails beyond retry. *)
Definition timeout_then_fatal (n : nat) (req : Extract.Request)
    : exn + Extract.Response :=
  match n with
  | O => inl (Requests Timeout)
  | _ => inl (Requests RequestException)
  end.

(** Networks under [requests.get]: one never answers in time; one answers
    the first request with the sample and no other in time. *)
Definition net_down : Extract.network := fun n req => inl Timeout.

Definition net_first : Extract.network :=
  fun n req =>
    match n with
    | O => inr {| Extract.status_code := 200; Extract.body := Some SAMPLE_RESPONSE |}
    | _ => inl Timeout
    end.

(** A clock that has stopped, a parser that knows no number, a serializer
    that writes nothing and an engine that accepts every insert. *)
Definition fixed_clock (n : nat) : string := "2026-02-18T22:01:00+00:00".
Definition fixed_stamp (n : nat) : string := "20260218_220100".
Definition parse_nothing (s : string) : option (Z + Q) := None.
Definition csv_blank (df : pd.DataFrame) : string := "".

Definition transform_start : Transform.World :=
  {| Transform.clock_reads := 0; Transform.log := [] |}.

Definition load_start : Load.World :=
  {| Load.clock_reads := 0; Load.log := []; Load.dirs := ∅;
     Load.files := ∅; Load.dbs := ∅ |}.

End Fixtures.

(** * Further vocabulary for extract.py *)

Module ExtractMore.
Import Extract.

(** The first of the keys [fetch_weather] reads that a city dict lacks, in
    the order the function reads them. *)
Definition first_missing_key (city : dict) : option string :=
  match city !! "latitude", city !! "longitude", city !! "name" with
  | None, _, _ => Some "latitude"
  | Some _, None, _ => Some "longitude"
  | Some _, Some _, None => Some "name"
  | Some _, Some _, Some _ => None
  end.

(** The request [fetch_weather] sends for a city under a configuration. *)
Definition request_of (city : dict) (base_url : string) (api_config : ApiConfig) : Request :=
  city_request (dict_get city "latitude" VNone) (dict_get city "longitude" VNone)
    base_url
    (default 10 (cfg_timeout_seconds api_config))
    (default true (cfg_current_weather api_config)).

(** What [time.sleep] raises for a duration it does not accept. *)
Definition sleep_refusal (secs : Z) : exn :=
  if (secs <? - SLEEP_MAX) || (SLEEP_MAX <? secs) then OverflowError else ValueError.

(** The pair [extract_all] records for a city and its payload. *)
Definition city_pair (city : dict) (raw : pyval) : pyval :=
  VDict {[ "city" := dict_get city "name" VNone; "raw" := raw ]}.

End ExtractMore.

(** * Further vocabulary for transform.py *)

Module TransformMore.
Import Transform.

(** [record.get("city", "unknown")] *)
Definition city_of (record : dict) : pyval := dict_get record "city" (VStr "unknown").

(** The [current_weather] sub-block of a record, when the payload is a
    mapping and the sub-block is one. *)
Definition block_of (record : dict) : option dict :=
  match dict_get record "raw" (VDict ∅) with
  | VDict raw =>
      match dict_get raw "current_weather" VNone with
      | VDict current => Some current
      | _ => None
      end
  | _ => None
  end.

(** A record [_parse_single] can read: its payload is a mapping and its
    sub-block is absent, [None] or a mapping. *)
Definition well_shaped (record : dict) : bool :=
  match dict_get record "raw" (VDict ∅) with
  | VDict raw =>
      match dict_get raw "current_weather" VNone with
      | VNone | VDict _ => true
      | _ => false
      end
  | _ => false
  end.

(** The rows of a batch: one per record with a sub-block, in order, each
    stamped with the next reading of the clock. *)
Fixpoint expected_rows (now_iso : nat -> string) (n : nat) (records : list dict)
    : list dict :=
  match records with
  | [] => []
  | record :: rest =>
      match block_of record with
      | Some current =>
          row_of (city_of record) current (now_iso n) :: expected_rows now_iso (S n) rest
      | None => expected_rows now_iso n rest
      end
  end.

(** The records that give a row. *)
Definition with_block (records : list dict) : list (dict * dict) :=
  omap (fun record => (fun current => (record, current)) <$> block_of record) records.

(** A value the cast to [Int64] accepts once converted: anything but a
    number that is not an integer. *)
Definition numeric_ok (n : pd.numeric) : bool :=
  match n with pd.NFloat q => pd.is_integral q | _ => true end.

Definition code_ok (parse_number : string -> option (Z + Q)) (v : pyval) : bool :=
  numeric_ok (pd.scalar_to_numeric parse_number v).

(** The integer a converted value is stored as after the cast. *)
Definition numeric_to_Int64 (n : pd.numeric) : option Z :=
  match n with
  | pd.NInt z => Some z
  | pd.NFloat q => Some (pd.Q_to_Z q)
  | pd.NBool b => Some (Z.b2z b)
  | pd.NNull => None
  end.

Definition codes_ok (parse_number : string -> option (Z + Q)) (record : dict) : bool :=
  match block_of record with
  | Some current =>
      code_ok parse_number (dict_get current "weathercode" VNone)
      && code_ok parse_number (dict_get current "is_day" VNone)
  | None => true
  end.

(** The five sub-fields [transform] converts to numbers. *)
Definition NUMERIC_SUBFIELDS : list string :=
  [ "temperature"; "windspeed"; "winddirection"; "weathercode"; "is_day" ].

(** A value [float64] and [int64] both hold as it is: [None], a boolean, or
    a number of magnitude at most [2^53]. *)
Definition plain_number (v : pyval) : bool :=
  match v with
  | VNone | VBool _ => true
  | VInt z => Z.abs z <=? 2 ^ 53
  | VFloat q => Qle_bool (Qabs q) (inject_Z (2 ^ 53))
  | VStr _ | VList _ | VDict _ => false
  end.

(** Each of the five sub-fields of a record is such a value, or absent. *)
Definition numbers_exact (record : dict) : bool :=
  match block_of record with
  | Some current =>
      forallb (fun key => plain_number (dict_get current key VNone)) NUMERIC_SUBFIELDS
  | None => true
  end.

(** The value held by row [i] of a column, as a Python value: a null is
    [None]. *)
Definition series_cell (s : pd.Series) (i : nat) : option pyval :=
  match s with
  | pd.SObject xs => xs !! i
  | pd.SNum (pd.SFloat64 xs) =>
      (fun x : option Q => match x with Some q => VFloat q | None => VNone end) <$> xs !! i
  | pd.SNum (pd.SInt64 xs) => VInt <$> xs !! i
  | pd.SNum (pd.SBool xs) => VBool <$> xs !! i
  | pd.SNum (pd.SInt64NA xs) =>
      (fun x : option Z => match x with Some z => VInt z | None => VNone end) <$> xs !! i
  end.

(** [df[name].iloc[i]] *)
Definition cell (df : pd.DataFrame) (name : string) (i : nat) : option pyval :=
  s ← pd.get_column df name; series_cell s i.

(** The sub-fields stored as floats and those stored as integers, each with
    its output field. *)
Definition FLOAT_FIELDS : list (string * string) :=
  [ ("temperature", "temperature_c");
    ("windspeed", "windspeed_kmh");
    ("winddirection", "winddirection_deg") ].

Definition INT_FIELDS : list (string * string) :=
  [ ("weathercode", "weathercode"); ("is_day", "is_day") ].

End TransformMore.

(** * Further vocabulary for load.py *)

Module LoadMore.
Import Load.

(** The rows of the [weather_current] table of a database, none while the
    database or the table does not exist. *)
Definition table_rows (w : World) (db_path : Path) : list dict :=
  match dbs w !! db_path with
  | Some (Some rows) => rows
  | _ => []
  end.

(** The rows of the table after [df.to_sql]: what the engine answered, or
    the rows it held when the insert is refused. *)
Definition rows_after (rows0 : list dict) (o : exn + list dict) : list dict :=
  match o with
  | inr rows' => rows'
  | inl _ => rows0
  end.

(** Nothing on disk keeps the directory from being created. *)
Definition mkdir_free (w : World) (p : Path) : Prop :=
  forall q, In q (ancestors p (length p)) -> files w !! q = None.

(** The file [load_to_csv] writes when the clock reads [stamp]. *)
Definition csv_path (data_dir : Path) (stamp : string) : Path :=
  data_dir ++ [("weather_data_" +:+ stamp +:+ ".csv")%string].

(** Nothing at [q] keeps the directory [p] from being created. *)
Definition clear_of (q p : Path) : Prop :=
  ~ In q (ancestors p (length p)).

(** The lines [load_to_sqlite] logs. *)
Definition sqlite_line (inserted total : Z) : log_record :=
  LogRecord INFO "SQLite: inserted %d rows into weather_current (total: %d)"
    [VInt inserted; VInt total].

Definition sqlite_error_line : log_record :=
  LogRecord ERROR "SQLite error: %s" [exc_str SqliteError].

(** What the handler of [load_to_sqlite] logs for an exception: its ERROR
    line for an [sqlite3.Error], nothing for any other exception, which the
    handler does not receive. *)
Definition handler_lines (e : exn) : list log_record :=
  if isinstance e CSqliteError then [sqlite_error_line] else [].

End LoadMore.

(** * utils.py *)

Module Utils.

(** The exceptions of the application: those of the three stages, and the
    ones reading the configuration raises. *)
Inductive app_exn : Type :=
| Stage (e : exn)
| FileNotFoundError (p : Load.Path)
| IsADirectoryError (p : Load.Path)
| YAMLError.

Inductive xresult (A : Type) : Type :=
| XRet (a : A)
| XRaise (e : app_exn).
Arguments XRet {A} a.
Arguments XRaise {A} e.

Definition XM (S A : Type) : Type := S -> xresult A * S.

Definition xret {S A} (a : A) : XM S A := fun s => (XRet a, s).
Definition xraise {S A} (e : app_exn) : XM S A := fun s => (XRaise e, s).
Definition xbind {S A B} (m : XM S A) (k : A -> XM S B) : XM S B :=
  fun s => match m s with
           | (XRet a, s') => k a s'
           | (XRaise e, s') => (XRaise e, s')
           end.

Notation "x <-- m ;; k" := (xbind m (fun x => k))
  (at level 100, m at next level, right associativity).

(** A computation of a stage, run on the part [get] of a larger state. *)
Definition lift {S T A} (get : T -> S) (set : S -> T -> T) (m : M S A) : XM T A :=
  fun t => match m (get t) with
           | (Ret a, s') => (XRet a, set s' t)
           | (Raise e, s') => (XRaise (Stage e), set s' t)
           end.

(** A handler of the [logging] library, as [setup_logging] builds it. *)
Inductive handler_kind : Type :=
| RotatingFileHandler (filename : Load.Path) (maxBytes backupCount : Z)
| StreamHandler_stdout.

Record Handler : Type := {
  h_kind : handler_kind;
  h_level : Z;
  h_fmt : string;
  h_datefmt : string
}.

(** [logging.getLogger("weather_etl")]: its level and its handlers. *)
Record Logger : Type := {
  lg_level : Z;
  lg_handlers : list Handler
}.

(** The state of the module: the disk (as [load.py] sees it), the
    application logger, and the path the environment variable
    [WEATHER_ETL_CONFIG] spells, when it is set. *)
Record World : Type := {
  disk : Load.World;
  weather_etl_logger : Logger;
  environ_config : option Load.Path
}.

Definition set_disk (d : Load.World) (w : World) : World :=
  {| disk := d; weather_etl_logger := weather_etl_logger w;
     environ_config := environ_config w |}.

Definition set_logger (l : Logger) (w : World) : World :=
  {| disk := disk w; weather_etl_logger := l; environ_config := environ_config w |}.

(** [logging.INFO] *)
Definition logging_INFO : Z := 20.

(** [path.exists()] *)
Definition path_exists (d : Load.World) (p : Load.Path) : bool :=
  bool_decide (is_Some (Load.files d !! p)) || bool_decide (p ∈ Load.dirs d).

Section Config.

(** The type of what the YAML parser gives. *)
Variable Config : Type.

(** [yaml.safe_load] on the text of a file: [None] stands for a
    [yaml.YAMLError]. *)
Variable yaml_safe_load : string -> option Config.

(** [Path(__file__).resolve().parent.parent / "config" / "cities.yaml"] *)
Variable default_config_path : Load.Path.

Definition load_config (config_path : option Load.Path) : XM World Config :=
  fun w =>
    let config_path :=
      match config_path with
      | Some p => p
      | None => default default_config_path (environ_config w)
      end in
    if negb (path_exists (disk w) config_path)
    then (XRaise (FileNotFoundError config_path), w)
    else
      match Load.files (disk w) !! config_path with
      | None => (XRaise (IsADirectoryError config_path), w)
      | Some text =>
          match yaml_safe_load text with
          | Some config => (XRet config, w)
          | None => (XRaise YAMLError, w)
          end
      end.

End Config.

(** Opening the log file of a [RotatingFileHandler]: the file is created
    when missing; a directory at its place is an [IsADirectoryError].  The
    text later written to the file is not modelled. *)
Definition open_log_file (filename : Load.Path) : XM World unit :=
  fun w =>
    let d := disk w in
    if bool_decide (filename ∈ Load.dirs d)
    then (XRaise (IsADirectoryError filename), w)
    else
      match Load.files d !! filename with
      | Some _ => (XRet tt, w)
      | None =>
          (XRet tt,
           set_disk {| Load.clock_reads := Load.clock_reads d; Load.log := Load.log d;
                       Load.dirs := Load.dirs d;
                       Load.files := <[filename := ""]> (Load.files d);
                       Load.dbs := Load.dbs d |} w)
      end.

Definition LOG_FMT : string := "%(asctime)s | %(levelname)-8s | %(name)s | %(message)s".
Definition LOG_DATEFMT : string := "%Y-%m-%d %H:%M:%S".

(** [logger.setLevel(level)] and [logger.addHandler(h)] on the application
    logger. *)
Definition logger_setLevel (level : Z) : XM World unit :=
  fun w => (XRet tt,
            set_logger {| lg_level := level;
                          lg_handlers := lg_handlers (weather_etl_logger w) |} w).

Definition logger_addHandler (h : Handler) : XM World unit :=
  fun w => (XRet tt,
            set_logger {| lg_level := lg_level (weather_etl_logger w);
                          lg_handlers := lg_handlers (weather_etl_logger w) ++ [h] |} w).

(** [logging.getLogger("weather_etl")], as it stands. *)
Definition getLogger : XM World Logger :=
  fun w => (XRet (weather_etl_logger w), w).

(** The logger is one shared object: the value [setup_logging] returns is
    read off the state after [setLevel], so that it carries the level just
    set, as the reference the source obtains before [setLevel] does. *)
Definition setup_logging (log_dir : Load.Path) (log_level max_bytes backup_count : Z)
    : XM World Logger :=
  _ <-- lift disk set_disk (Load.mkdir_parents log_dir);;
  _ <-- logger_setLevel log_level;;
  logger <-- getLogger;;
  match lg_handlers logger with
  | _ :: _ => xret logger
  | [] =>
      let filename := log_dir ++ ["weather_etl.log"] in
      _ <-- open_log_file filename;;
      let file_handler :=
        {| h_kind := RotatingFileHandler filename max_bytes backup_count;
           h_level := log_level; h_fmt := LOG_FMT; h_datefmt := LOG_DATEFMT |} in
      let console_handler :=
        {| h_kind := StreamHandler_stdout;
           h_level := log_level; h_fmt := LOG_FMT; h_datefmt := LOG_DATEFMT |} in
      _ <-- logger_addHandler file_handler;;
      _ <-- logger_addHandler console_handler;;
      getLogger
  end.

(** The defaults of [setup_logging]. *)
Definition DEFAULT_MAX_BYTES : Z := 5 * 1024 * 1024.
Definition DEFAULT_BACKUP_COUNT : Z := 5.

Definition ensure_directory (path : Load.Path) : XM World Load.Path :=
  _ <-- lift disk set_disk (Load.mkdir_parents path);;
  xret path.

End Utils.

(** * main.py *)

Module Main.
Import Utils.

(** The [paths] section of the configuration, each key absent or a path. *)
Record Paths : Type := {
  log_dir : option Load.Path;
  data_dir : option Load.Path;
  database : option Load.Path
}.

(** The configuration as [run_pipeline] reads it: a mapping whose sections
    [cities], [api] and [paths] are absent or hold values of the types the
    stages declare. *)
Record Config : Type := {
  cities : option (list dict);
  api : option Extract.ApiConfig;
  paths : option Paths
}.

(** [{}] for the two sections read with [config.get(..., {})]. *)
Definition no_paths : Paths :=
  {| log_dir := None; data_dir := None; database := None |}.

Definition no_api : Extract.ApiConfig :=
  {| Extract.cfg_base_url := None; Extract.cfg_timeout_seconds := None;
     Extract.cfg_max_retries := None; Extract.cfg_backoff_factor := None;
     Extract.cfg_current_weather := None |}.

(** The state of a run: the network as [extract.py] sees it, the state of
    [transform.py], the system state of [utils.py] (with the disk of
    [load.py]), and the lines logged through the application logger. *)
Record World : Type := {
  net : Extract.World;
  norm : Transform.World;
  sys : Utils.World;
  app_log : list log_record
}.

Definition set_net (n : Extract.World) (w : World) : World :=
  {| net := n; norm := norm w; sys := sys w; app_log := app_log w |}.
Definition set_norm (n : Transform.World) (w : World) : World :=
  {| net := net w; norm := n; sys := sys w; app_log := app_log w |}.
Definition set_sys (s : Utils.World) (w : World) : World :=
  {| net := net w; norm := norm w; sys := s; app_log := app_log w |}.
Definition set_load (d : Load.World) (w : World) : World :=
  set_sys (Utils.set_disk d (sys w)) w.

(** A computation of [utils.py] run on the system part of the state. *)
Definition on_sys {A} (m : XM Utils.World A) : XM World A :=
  fun w => match m (sys w) with
           | (r, s') => (r, set_sys s' w)
           end.

Definition emit (r : log_record) : XM World unit :=
  fun w => (XRet tt,
            {| net := net w; norm := norm w; sys := sys w; app_log := app_log w ++ [r] |}).

Definition logger_info (msg : string) (args : list pyval) : XM World unit :=
  emit (LogRecord INFO msg args).
Definition logger_warning (msg : string) (args : list pyval) : XM World unit :=
  emit (LogRecord WARNING msg args).
Definition logger_error (msg : string) (args : list pyval) : XM World unit :=
  emit (LogRecord ERROR msg args).

(** ["=" * 60] *)
Definition RULE : string :=
  "============================================================".

(** The records of [extract_all] as [transform] takes them: [extract_all]
    returns dicts only. *)
Definition as_records (raw_records : list pyval) : list dict :=
  omap (fun v => match v with VDict d => Some d | _ => None end) raw_records.

(** [str(csv_path)] for the closing line, [None] printing as such. *)
Definition path_arg (p : option Load.Path) : pyval :=
  match p with
  | Some q => VStr (Load.path_str q)
  | None => VNone
  end.

Section Pipeline.

Variable http : nat -> Extract.Request -> exn + Extract.Response.
Variable now_iso : nat -> string.
Variable parse_number : string -> option (Z + Q).
Variable now_stamp : nat -> string.
Variable csv_text : pd.DataFrame -> string.
Variable to_sql_append : pd.DataFrame -> list dict -> exn + list dict.
Variable yaml_safe_load : string -> option Config.
Variable default_config_path : Load.Path.

Definition run_pipeline (config_path : option Load.Path) : XM World unit :=
  config <-- on_sys (load_config Config yaml_safe_load default_config_path config_path);;
  let log_dir := default ["logs"] (log_dir (default no_paths (paths config))) in
  _ <-- on_sys (setup_logging log_dir logging_INFO DEFAULT_MAX_BYTES DEFAULT_BACKUP_COUNT);;
  _ <-- logger_info RULE [];;
  _ <-- logger_info "Weather ETL pipeline – run started" [];;
  _ <-- logger_info RULE [];;
  let cities := default [] (cities config) in
  let api_config := default no_api (api config) in
  let data_dir := default ["data"] (data_dir (default no_paths (paths config))) in
  let db_path := default ["data"; "weather.db"] (database (default no_paths (paths config))) in
  match cities with
  | [] => logger_error "No cities defined in configuration – aborting." []
  | _ =>
      _ <-- logger_info "PHASE 1 / 3 — Extract" [];;
      raw_records <-- lift net set_net (Extract.extract_all http cities api_config);;
      match raw_records with
      | [] => logger_warning "No data extracted – pipeline ending early." []
      | _ =>
          _ <-- logger_info "PHASE 2 / 3 — Transform" [];;
          df <-- lift norm set_norm
                   (Transform.transform now_iso parse_number (as_records raw_records));;
          if pd.empty df then
            logger_warning "Transformation resulted in empty data – skipping load." []
          else
            _ <-- logger_info "PHASE 3 / 3 — Load" [];;
            csv_path <-- lift (fun w => disk (sys w)) set_load
                           (Load.load_to_csv now_stamp csv_text df data_dir);;
            rows_inserted <-- lift (fun w => disk (sys w)) set_load
                                (Load.load_to_sqlite to_sql_append df db_path);;
            _ <-- logger_info
                    "Pipeline run complete.  CSV → %s | SQLite rows inserted → %d"
                    [path_arg csv_path; VInt rows_inserted];;
            logger_info RULE []
      end
  end.

End Pipeline.

End Main.

(** * Further vocabulary for utils.py and main.py *)

Module UtilsMore.
Import Utils.

(** The log file and the two handlers [setup_logging] builds. *)
Definition log_file (log_dir : Load.Path) : Load.Path := log_dir ++ ["weather_etl.log"].

Definition file_handler (log_dir : Load.Path) (log_level max_bytes backup_count : Z)
    : Handler :=
  {| h_kind := RotatingFileHandler (log_file log_dir) max_bytes backup_count;
     h_level := log_level; h_fmt := LOG_FMT; h_datefmt := LOG_DATEFMT |}.

Definition console_handler (log_level : Z) : Handler :=
  {| h_kind := StreamHandler_stdout;
     h_level := log_level; h_fmt := LOG_FMT; h_datefmt := LOG_DATEFMT |}.

(** The path [load_config] reads. *)
Definition resolved_path (default_config_path : Load.Path) (config_path : option Load.Path)
    (w : World) : Load.Path :=
  match config_path with
  | Some p => p
  | None => default default_config_path (environ_config w)
  end.

End UtilsMore.

Module MainMore.
Import Utils Main.

(** The settings [run_pipeline] reads from a configuration, defaults
    applied. *)
Definition log_dir_of (config : Config) : Load.Path :=
  default ["logs"] (log_dir (default no_paths (paths config))).
Definition data_dir_of (config : Config) : Load.Path :=
  default ["data"] (data_dir (default no_paths (paths config))).
Definition db_path_of (config : Config) : Load.Path :=
  default ["data"; "weather.db"] (database (default no_paths (paths config))).
Definition cities_of (config : Config) : list dict := default [] (cities config).
Definition api_of (config : Config) : Extract.ApiConfig := default no_api (api config).

(** The three lines that open a run. *)
Definition opening_lines : list log_record :=
  [ LogRecord INFO RULE [];
    LogRecord INFO "Weather ETL pipeline – run started" [];
    LogRecord INFO RULE [] ].

(** A state in which a run gets past its prologue with [config]: the
    configuration file is there and parses to [config], the log directory
    can be created, and the application logger either has its handlers or
    can open its log file. *)
Definition starts_with (yaml_safe_load : string -> option Config)
    (default_config_path : Load.Path) (config_path : option Load.Path)
    (config : Config) (w : World) : Prop :=
  (exists text,
     Load.files (disk (sys w))
       !! UtilsMore.resolved_path default_config_path config_path (sys w) = Some text
     /\ yaml_safe_load text = Some config)
  /\ LoadMore.mkdir_free (disk (sys w)) (log_dir_of config)
  /\ (lg_handlers (weather_etl_logger (sys w)) <> []
      \/ UtilsMore.log_file (log_dir_of config) ∉ Load.dirs (disk (sys w))).

Section Stages.

Variable http : nat -> Extract.Request -> exn + Extract.Response.
Variable now_iso : nat -> string.
Variable parse_number : string -> option (Z + Q).
Variable now_stamp : nat -> string.
Variable csv_text : pd.DataFrame -> string.
Variable to_sql_append : pd.DataFrame -> list dict -> exn + list dict.

(** The load phase of [run_pipeline], from its "PHASE 3 / 3" line on. *)
Definition load_phase (config : Config) (df : pd.DataFrame) : XM World unit :=
  _ <-- logger_info "PHASE 3 / 3 — Load" [];;
  csv_path <-- lift (fun w => disk (sys w)) set_load
                 (Load.load_to_csv now_stamp csv_text df (data_dir_of config));;
  rows_inserted <-- lift (fun w => disk (sys w)) set_load
                      (Load.load_to_sqlite to_sql_append df (db_path_of config));;
  _ <-- logger_info
          "Pipeline run complete.  CSV → %s | SQLite rows inserted → %d"
          [path_arg csv_path; VInt rows_inserted];;
  logger_info RULE [].

(** [run_pipeline] after its prologue: its body from the test on the cities
    on. *)
Definition stages (config : Config) : XM World unit :=
  match cities_of config with
  | [] => logger_error "No cities defined in configuration – aborting." []
  | _ =>
      _ <-- logger_info "PHASE 1 / 3 — Extract" [];;
      raw_records <-- lift net set_net
                        (Extract.extract_all http (cities_of config) (api_of config));;
      match raw_records with
      | [] => logger_warning "No data extracted – pipeline ending early." []
      | _ =>
          _ <-- logger_info "PHASE 2 / 3 — Transform" [];;
          df <-- lift norm set_norm
                   (Transform.transform now_iso parse_number (as_records raw_records));;
          if pd.empty df then
            logger_warning "Transformation resulted in empty data – skipping load." []
          else load_phase config df
      end
  end.

End Stages.

(** The lines a run logs once its three phases are through. *)
Definition closing_lines (csv : Load.Path) (rows_inserted : Z) : list log_record :=
  [LogRecord INFO "Pipeline run complete.  CSV → %s | SQLite rows inserted → %d"
     [VStr (Load.path_str csv); VInt rows_inserted];
   LogRecord INFO RULE []].

(** The data on disk is the same in two states: the databases, and every
    file but the log file. *)
Definition same_data (log_file : Load.Path) (w w' : World) : Prop :=
  Load.dbs (disk (sys w')) = Load.dbs (disk (sys w))
  /\ forall q, q <> log_file ->
       Load.files (disk (sys w')) !! q = Load.files (disk (sys w)) !! q.

End MainMore.

(** * Further fixtures *)

Module FixturesMore.
Import Fixtures.

(** A city without its [name]. *)
Definition NO_NAME : dict := {[ "latitude" := VInt 0; "longitude" := VInt 0 ]}.

(** Networks: the second request is the first one answered; every request is
    answered with the sample; every request is answered with a payload whose
    [current_weather] entry is a number. *)
Definition second_answers (n : nat) (req : Extract.Request)
    : exn + Extract.Response :=
  match n with
  | 1%nat => inr {| Extract.status_code := 200; Extract.body := Some SAMPLE_RESPONSE |}
  | _ => inl (Requests Timeout)
  end.

Definition always_answers (n : nat) (req : Extract.Request)
    : exn + Extract.Response :=
  inr {| Extract.status_code := 200; Extract.body := Some SAMPLE_RESPONSE |}.

Definition ODD_RESPONSE : pyval := VDict {[ "current_weather" := VInt 5 ]}.

Definition odd_answers (n : nat) (req : Extract.Request)
    : exn + Extract.Response :=
  inr {| Extract.status_code := 200; Extract.body := Some ODD_RESPONSE |}.

(** A frame of one row. *)
Definition ONE_ROW : pd.DataFrame := [("city", pd.SObject [VStr "Paris"])].

Definition PARIS_ROW : dict := {[ "city" := VStr "Paris" ]}.

(** Engines: one appends a row per insert; one refuses every insert, the
    refusal wrapped by pandas in its [DatabaseError]; one refuses every
    insert with an [sqlite3.Error] handed on as it is. *)
Definition engine_appends (df : pd.DataFrame) (rows : list dict) : exn + list dict :=
  inr (rows ++ [PARIS_ROW]).

Definition engine_refuses (df : pd.DataFrame) (rows : list dict) : exn + list dict :=
  inl DatabaseError.

Definition engine_refuses_raw (df : pd.DataFrame) (rows : list dict) : exn + list dict :=
  inl SqliteError.


(** Configurations, the file they are read from and a parser that reads
    them by name. *)
Definition CONFIG_PATH : Load.Path := ["config"; "cities.yaml"].

Definition CONFIG : Main.Config :=
  {| Main.cities := Some [PARIS]; Main.api := Some API_CONFIG; Main.paths := None |}.

Definition CONFIG_NO_CITIES : Main.Config :=
  {| Main.cities := None; Main.api := Some API_CONFIG; Main.paths := None |}.

Definition yaml_fixture (text : string) : option Main.Config :=
  if String.eqb text "paris" then Some CONFIG
  else if String.eqb text "nowhere" then Some CONFIG_NO_CITIES
  else None.

Definition disk_with (text : string) : Load.World :=
  {| Load.clock_reads := 0; Load.log := []; Load.dirs := ∅;
     Load.files := {[ CONFIG_PATH := text ]}; Load.dbs := ∅ |}.

Definition no_logger : Utils.Logger :=
  {| Utils.lg_level := 0; Utils.lg_handlers := [] |}.

Definition sys_start (text : string) : Utils.World :=
  {| Utils.disk := disk_with text; Utils.weather_etl_logger := no_logger;
     Utils.environ_config := None |}.

(** A system with nothing on disk. *)
Definition sys_blank : Utils.World :=
  {| Utils.disk := load_start; Utils.weather_etl_logger := no_logger;
     Utils.environ_config := None |}.

Definition main_start (text : string) : Main.World :=
  {| Main.net := []; Main.norm := transform_start; Main.sys := sys_start text;
     Main.app_log := [] |}.

Definition main_blank : Main.World :=
  {| Main.net := []; Main.norm := transform_start; Main.sys := sys_blank;
     Main.app_log := [] |}.

(** A disk on which a file stands at [data]. *)
Definition disk_blocked : Load.World :=
  {| Load.clock_reads := 0; Load.log := []; Load.dirs := ∅;
     Load.files := {[ ["data"] := "not a directory" ]}; Load.dbs := ∅ |}.

End FixturesMore.

(** * Properties of extract.py *)

Section ExtractFacts.
Import Extract.

Lemma io_events_app w1 w2 : io_events (w1 ++ w2) = io_events w1 ++ io_events w2.
Proof. unfold io_events. apply List.filter_app. Qed.

Lemma n_requests_app w1 w2 : n_requests (w1 ++ w2) = (n_requests w1 + n_requests w2)%nat.
Proof. unfold n_requests. rewrite List.filter_app, length_app. reflexivity. Qed.

Lemma sleeps_app w1 w2 : sleeps (w1 ++ w2) = sleeps w1 ++ sleeps w2.
Proof. unfold sleeps. apply flat_map_app. Qed.

Lemma n_requests_io w : n_requests (io_events w) = n_requests w.
Proof.
  unfold n_requests, io_events. induction w as [|e w IH]; [reflexivity|].
  destruct e; simpl; rewrite ?IH; reflexivity.
Qed.

Lemma sleeps_io w : sleeps (io_events w) = sleeps w.
Proof.
  unfold sleeps, io_events. induction w as [|e w IH]; [reflexivity|].
  destruct e; simpl; rewrite ?IH; reflexivity.
Qed.

Lemma py_range_nil lo hi : hi <= lo -> py_range lo hi = [].
Proof. intros H. unfold py_range. replace (Z.to_nat (hi - lo)) with 0%nat by lia. reflexivity. Qed.

Lemma py_range_cons lo hi : lo < hi -> py_range lo hi = lo :: py_range (lo + 1) hi.
Proof.
  intros H. unfold py_range.
  replace (Z.to_nat (hi - lo)) with (S (Z.to_nat (hi - (lo + 1)))) by lia.
  cbn [seq map]. f_equal; [lia|].
  rewrite <- seq_shift, map_map. apply map_ext. intros i. lia.
Qed.

Lemma py_range_length lo hi : length (py_range lo hi) = Z.to_nat (hi - lo).
Proof. unfold py_range. rewrite length_map, length_seq. reflexivity. Qed.

Lemma py_range_split lo mid hi :
  lo <= mid <= hi -> py_range lo hi = py_range lo mid ++ py_range mid hi.
Proof.
  intros H. remember (Z.to_nat (mid - lo)) as n eqn:En.
  revert lo H En. induction n as [|n IH]; intros lo H En.
  - assert (mid = lo) by lia. subst mid. rewrite (py_range_nil lo lo) by lia. reflexivity.
  - rewrite (py_range_cons lo hi), (py_range_cons lo mid) by lia.
    cbn [app]. f_equal. apply IH; lia.
Qed.

Lemma py_range_In lo hi a : In a (py_range lo hi) -> lo <= a < hi.
Proof.
  unfold py_range. rewrite in_map_iff. intros (i & <- & Hi).
  apply in_seq in Hi. lia.
Qed.

(** A duration [time.sleep] accepts is slept. *)
Lemma time_sleep_accepts secs w :
  0 <= secs <= SLEEP_MAX -> time_sleep secs w = (Ret tt, w ++ [EvSleep secs]).
Proof.
  intros [Hlo Hhi]. unfold time_sleep, SLEEP_MAX in *.
  destruct (Z.ltb_spec secs (Z.opp 9223372036)) as [H|_]; [lia|].
  destruct (Z.ltb_spec 9223372036 secs) as [H|_]; [lia|].
  destruct (Z.ltb_spec secs 0) as [H|_]; [lia|].
  reflexivity.
Qed.

Section OneCity.
Variable http : nat -> Request -> exn + Response.
Variables (city : dict) (base_url : string) (params : dict) (timeout N b : Z).
Variable name : pyval.
Hypothesis Hname : city !! "name" = Some name.
Let req := {| req_url := base_url; req_params := params; req_timeout := timeout |}.

Ltac step_attempt w :=
  unfold attempt_body, try_except, bind, getitem, requests_get,
    logger_info, logger_warning, logger_error, emit, ret, raise;
  rewrite Hname, n_requests_app;
  cbn [n_requests List.filter is_get length]; rewrite Nat.add_0_r;
  fold req.

Ltac close_events :=
  rewrite ?io_events_app; cbn [io_events List.filter app];
  rewrite <- ?app_assoc, ?app_nil_r; reflexivity.

(** A retried attempt: one request, then the back-off sleep unless the
    attempt is the last one. *)
Lemma attempt_body_retryable a w :
  retryable_failure (http (n_requests w) req) = true ->
  (a < N -> 0 <= b ^ a <= SLEEP_MAX) ->
  exists w', attempt_body http city base_url params timeout N b a w = (Ret None, w')
    /\ io_events w' = io_events w ++ EvGet req :: (if a <? N then [EvSleep (b ^ a)] else []).
Proof.
  intros Hr Hb. step_attempt w.
  destruct (http (n_requests w) req) as [[[]| | | | | | | | |]|r] eqn:E;
    cbn in Hr; try discriminate.
  4: unfold raise_for_status; rewrite Hr.
  all: cbn [dispatch isinstance raise].
  all: destruct (Z.ltb_spec a N) as [Hlt|Hge].
  all: try rewrite (time_sleep_accepts _ _ (Hb Hlt)).
  all: eexists; split; [reflexivity|close_events].
Qed.

(** An attempt that fails beyond retry: one request, [return None]. *)
Lemma attempt_body_unrecoverable a w :
  unrecoverable_failure (http (n_requests w) req) = true ->
  exists w', attempt_body http city base_url params timeout N b a w = (Ret (Some VNone), w')
    /\ io_events w' = io_events w ++ [EvGet req].
Proof.
  intros Hu. step_attempt w.
  destruct (http (n_requests w) req) as [[[]| | | | | | | | |]|r] eqn:E;
    cbn in Hu; try discriminate.
  - cbn [dispatch isinstance raise].
    eexists; split; [reflexivity|close_events].
  - apply andb_prop in Hu as [Hs Hb]. apply negb_true_iff in Hs.
    unfold raise_for_status, json. rewrite Hs.
    destruct (body r) as [v|] eqn:Eb.
    + discriminate.
    + cbn [dispatch isinstance raise].
      eexists; split; [reflexivity|close_events].
Qed.

(** An attempt that succeeds: one request, [return data]. *)
Lemma attempt_body_success a w r data :
  http (n_requests w) req = inr r ->
  (400 <=? status_code r) && (status_code r <? 600) = false ->
  body r = Some data ->
  exists w', attempt_body http city base_url params timeout N b a w = (Ret (Some data), w')
    /\ io_events w' = io_events w ++ [EvGet req].
Proof.
  intros E Hs Hb. step_attempt w. rewrite E.
  unfold raise_for_status, json. rewrite Hs, Hb. cbn [ret].
  eexists; split; [reflexivity|close_events].
Qed.

(** A call that raises nothing but an exception of the library is an
    attempt retried, given up or successful. *)
Lemma outcome_cases (o : exn + Response) :
  requests_only o = true ->
  retryable_failure o = true \/ unrecoverable_failure o = true \/
  exists r data, o = inr r
    /\ (400 <=? status_code r) && (status_code r <? 600) = false
    /\ body r = Some data.
Proof.
  intros Hlib. destruct o as [[[]| | | | | | | | |]|r]; cbn in *; auto; try discriminate.
  destruct ((400 <=? status_code r) && (status_code r <? 600)) eqn:Hs; auto.
  destruct (body r) as [v|] eqn:Eb.
  - right; right. exists r, v. rewrite Hs. auto.
  - right; left. reflexivity.
Qed.

Lemma attempt_body_total a w :
  requests_only (http (n_requests w) req) = true ->
  (a < N -> 0 <= b ^ a <= SLEEP_MAX) ->
  exists r w', attempt_body http city base_url params timeout N b a w = (Ret r, w').
Proof.
  intros Hlib Hb.
  destruct (outcome_cases _ Hlib) as [H|[H|(r & data & E & Hs & Hd)]].
  - destruct (attempt_body_retryable a w H Hb) as (w' & Hw & _). eauto.
  - destruct (attempt_body_unrecoverable a w H) as (w' & Hw & _). eauto.
  - destruct (attempt_body_success a w r data E Hs Hd) as (w' & Hw & _). eauto.
Qed.

Lemma n_requests_step w w' (tail : list event) :
  io_events w' = io_events w ++ tail ->
  n_requests w' = (n_requests w + n_requests tail)%nat.
Proof.
  intros H. rewrite <- (n_requests_io w'), H, n_requests_app, n_requests_io. reflexivity.
Qed.

Lemma retry_loop_retryable attempts : forall w,
  (forall i, (i < length attempts)%nat ->
             retryable_failure (http (n_requests w + i) req) = true) ->
  (forall a, In a attempts -> a < N -> 0 <= b ^ a <= SLEEP_MAX) ->
  exists w', retry_loop http city base_url params timeout N b attempts w = (Ret None, w')
    /\ io_events w' = io_events w ++ retry_schedule req N b attempts.
Proof.
  induction attempts as [|a rest IH]; intros w Hfail Hb.
  - exists w. split; [reflexivity|]. cbn. rewrite app_nil_r. reflexivity.
  - destruct (attempt_body_retryable a w) as (w1 & H1 & E1).
    { specialize (Hfail 0%nat). rewrite Nat.add_0_r in Hfail. apply Hfail. cbn. lia. }
    { apply Hb. left. reflexivity. }
    assert (Hn : n_requests w1 = S (n_requests w)).
    { rewrite (n_requests_step _ _ _ E1). destruct (a <? N); cbn; lia. }
    destruct (IH w1) as (w2 & H2 & E2).
    { intros i Hi. rewrite Hn. replace (S (n_requests w) + i)%nat with (n_requests w + S i)%nat by lia.
      apply Hfail. cbn. lia. }
    { intros a' Ha'. apply Hb. right. exact Ha'. }
    exists w2. split.
    + cbn [retry_loop]. unfold bind at 1. rewrite H1. exact H2.
    + rewrite E2, E1. unfold retry_schedule. cbn [flat_map].
      rewrite <- !app_assoc. reflexivity.
Qed.

Lemma retry_loop_app l1 l2 : forall w w1,
  retry_loop http city base_url params timeout N b l1 w = (Ret None, w1) ->
  retry_loop http city base_url params timeout N b (l1 ++ l2) w =
  retry_loop http city base_url params timeout N b l2 w1.
Proof.
  induction l1 as [|a l1 IH]; intros w w1 H.
  - cbn in H. unfold ret in H. injection H as <-. reflexivity.
  - cbn [retry_loop app] in *. unfold bind in *.
    destruct (attempt_body http city base_url params timeout N b a w) as [[[v|]|e] w0];
      try discriminate.
    apply IH. exact H.
Qed.

Lemma retry_loop_total attempts : forall w,
  (forall n, requests_only (http n req) = true) ->
  (forall a, In a attempts -> a < N -> 0 <= b ^ a <= SLEEP_MAX) ->
  exists r w', retry_loop http city base_url params timeout N b attempts w = (Ret r, w').
Proof.
  induction attempts as [|a rest IH]; intros w Hlib Hb.
  - exists None, w. reflexivity.
  - destruct (attempt_body_total a w) as (r & w1 & H1).
    { apply Hlib. }
    { apply Hb. left. reflexivity. }
    cbn [retry_loop]. unfold bind at 1. rewrite H1. destruct r as [v|].
    + eauto.
    + apply IH; [exact Hlib|]. intros a' Ha'. apply Hb. right. exact Ha'.
Qed.

End OneCity.

Lemma n_requests_schedule req N b attempts :
  n_requests (retry_schedule req N b attempts) = length attempts.
Proof.
  induction attempts as [|a rest IH]; [reflexivity|].
  unfold retry_schedule in *. cbn [flat_map length].
  change (?x :: ?l ++ ?r) with ((x :: l) ++ r).
  rewrite n_requests_app, IH. destruct (a <? N); reflexivity.
Qed.

Lemma sleeps_schedule_below req N b attempts :
  (forall a, In a attempts -> a < N) ->
  sleeps (retry_schedule req N b attempts) = map (Z.pow b) attempts.
Proof.
  induction attempts as [|a rest IH]; intros H; [reflexivity|].
  unfold retry_schedule in *. cbn [flat_map map].
  change (?x :: ?l ++ ?r) with ((x :: l) ++ r).
  rewrite sleeps_app, IH by (intros; apply H; right; assumption).
  destruct (Z.ltb_spec a N) as [_|Hge]; [reflexivity|].
  specialize (H a (or_introl eq_refl)). lia.
Qed.

Lemma sleeps_schedule_full req N b :
  sleeps (retry_schedule req N b (py_range 1 (N + 1))) = map (Z.pow b) (py_range 1 N).
Proof.
  destruct (Z.le_gt_cases 1 N) as [HN|HN].
  - rewrite (py_range_split 1 N (N + 1)) by lia.
    rewrite (py_range_cons N (N + 1)), (py_range_nil (N + 1) (N + 1)) by lia.
    unfold retry_schedule. rewrite flat_map_app, sleeps_app.
    fold (retry_schedule req N b (py_range 1 N)).
    rewrite sleeps_schedule_below by (intros a Ha; apply py_range_In in Ha; lia).
    cbn [flat_map]. rewrite Z.ltb_irrefl. cbn. rewrite app_nil_r. reflexivity.
  - rewrite !py_range_nil by lia. reflexivity.
Qed.

Section FetchWeather.
Variable http : nat -> Request -> exn + Response.
Variables (city : dict) (base_url : string) (timeout N b : Z) (cw : bool).
Variables name lat lon : pyval.
Hypothesis Hname : city !! "name" = Some name.
Hypothesis Hlat : city !! "latitude" = Some lat.
Hypothesis Hlon : city !! "longitude" = Some lon.
Let req := city_request lat lon base_url timeout cw.

(** [fetch_weather] is the retry loop over [1 .. N], with the exhaustion
    line logged when the loop runs to its end. *)
Lemma fetch_weather_unfold w :
  fetch_weather http city base_url timeout N b cw w =
  match retry_loop http city base_url (req_params req) timeout N b (py_range 1 (N + 1)) w with
  | (Ret (Some v), w') => (Ret v, w')
  | (Ret None, w') =>
      (Ret VNone,
       w' ++ [EvLog (LogRecord ERROR "All %d attempts failed for %s – skipping." [VInt N; name])])
  | (Raise e, w') => (Raise e, w')
  end.
Proof.
  unfold fetch_weather, bind, getitem. rewrite Hlat, Hlon, Hname. cbn [ret].
  change ({[ "latitude" := lat; "longitude" := lon;
             "current_weather" := VStr (str_lower_bool cw) ]} : dict)
    with (req_params req).
  destruct (retry_loop _ _ _ _ _ _ _ _ _) as [[[v|]|e] w']; reflexivity.
Qed.

End FetchWeather.

(** C1.  With [max_retries = N >= 1] and every attempt failing with a
    retried error (timeout, connection failure, HTTP error status),
    [fetch_weather] issues exactly [N] requests, sleeps
    [backoff_factor ^ attempt] after each of the attempts [1 .. N-1] and not
    after attempt [N], and returns [None] without raising.  The city carries
    its three keys and every delay is a duration [time.sleep] accepts: not
    negative and at most [SLEEP_MAX] seconds, beyond which the call raises
    [OverflowError]. *)
Theorem fetch_weather_exhausts_retries
    (http : nat -> Request -> exn + Response)
    (city : dict) (name lat lon : pyval) (base_url : string)
    (timeout N b : Z) (cw : bool) (w : World) :
  city !! "name" = Some name ->
  city !! "latitude" = Some lat ->
  city !! "longitude" = Some lon ->
  1 <= N ->
  delays_ok N b ->
  (forall i req, (i < Z.to_nat N)%nat ->
                 retryable_failure (http (n_requests w + i)%nat req) = true) ->
  exists w',
    fetch_weather http city base_url timeout N b cw w = (Ret VNone, w')
    /\ io_events w' =
       io_events w ++
       retry_schedule (city_request lat lon base_url timeout cw) N b (py_range 1 (N + 1))
    /\ n_requests w' = (n_requests w + Z.to_nat N)%nat
    /\ sleeps w' = sleeps w ++ map (Z.pow b) (py_range 1 N).
Proof.
  intros Hname Hlat Hlon HN Hb Hfail.
  set (req := city_request lat lon base_url timeout cw).
  destruct (retry_loop_retryable http city base_url (req_params req) timeout N b name Hname
              (py_range 1 (N + 1)) w) as (w1 & Hloop & Ev).
  { intros i Hi. rewrite py_range_length in Hi. apply Hfail. lia. }
  { intros a Ha Hlt. apply py_range_In in Ha. apply Hb. lia. }
  exists (w1 ++ [EvLog (LogRecord ERROR "All %d attempts failed for %s – skipping." [VInt N; name])]).
  assert (Eio : io_events (w1 ++ [EvLog (LogRecord ERROR "All %d attempts failed for %s – skipping." [VInt N; name])])
                = io_events w ++ retry_schedule req N b (py_range 1 (N + 1))).
  { rewrite io_events_app. cbn [io_events List.filter]. rewrite app_nil_r. exact Ev. }
  split; [|split; [|split]].
  - rewrite (fetch_weather_unfold http city base_url timeout N b cw name lat lon Hname Hlat Hlon).
    fold req. rewrite Hloop. reflexivity.
  - exact Eio.
  - rewrite (n_requests_step _ _ _ Eio), n_requests_schedule, py_range_length.
    f_equal. lia.
  - rewrite <- sleeps_io, Eio, sleeps_app, sleeps_io, sleeps_schedule_full. reflexivity.
Qed.

(** C10.  With [max_retries <= 0] the loop body never runs: no request, no
    sleep, the exhaustion line is logged and [None] is returned. *)
Theorem fetch_weather_no_attempts
    (http : nat -> Request -> exn + Response)
    (city : dict) (name lat lon : pyval) (base_url : string)
    (timeout N b : Z) (cw : bool) (w : World) :
  city !! "name" = Some name ->
  city !! "latitude" = Some lat ->
  city !! "longitude" = Some lon ->
  N <= 0 ->
  exists w',
    fetch_weather http city base_url timeout N b cw w = (Ret VNone, w')
    /\ w' = w ++ [EvLog (LogRecord ERROR "All %d attempts failed for %s – skipping." [VInt N; name])]
    /\ n_requests w' = n_requests w
    /\ sleeps w' = sleeps w.
Proof.
  intros Hname Hlat Hlon HN.
  eexists. split; [|split; [reflexivity|]].
  - rewrite (fetch_weather_unfold http city base_url timeout N b cw name lat lon Hname Hlat Hlon).
    rewrite py_range_nil by lia. reflexivity.
  - rewrite n_requests_app, sleeps_app. cbn. rewrite Nat.add_0_r, app_nil_r. split; reflexivity.
Qed.

(** C5.  When attempt [k] fails with a request error outside the three
    retried classes (the attempts before it, if any, having been retried),
    [fetch_weather] returns [None] right after that attempt: [k] requests in
    all, no sleep after attempt [k], none of the attempts [k+1 .. N] made.
    For [k = 1] this is exactly one request and no sleep at all.  The
    delays slept after the attempts before [k] are durations [time.sleep]
    accepts. *)
Theorem fetch_weather_unrecoverable_aborts
    (http : nat -> Request -> exn + Response)
    (city : dict) (name lat lon : pyval) (base_url : string)
    (timeout N b k : Z) (cw : bool) (w : World) :
  city !! "name" = Some name ->
  city !! "latitude" = Some lat ->
  city !! "longitude" = Some lon ->
  1 <= k <= N ->
  delays_ok k b ->
  (forall i req, (i < Z.to_nat (k - 1))%nat ->
                 retryable_failure (http (n_requests w + i)%nat req) = true) ->
  (forall req, unrecoverable_failure (http (n_requests w + Z.to_nat (k - 1))%nat req) = true) ->
  exists w',
    fetch_weather http city base_url timeout N b cw w = (Ret VNone, w')
    /\ io_events w' =
       io_events w ++
       retry_schedule (city_request lat lon base_url timeout cw) N b (py_range 1 k) ++
       [EvGet (city_request lat lon base_url timeout cw)]
    /\ n_requests w' = (n_requests w + Z.to_nat k)%nat
    /\ sleeps w' = sleeps w ++ map (Z.pow b) (py_range 1 k)
    /\ (k = 1 -> io_events w' =
                 io_events w ++ [EvGet (city_request lat lon base_url timeout cw)]).
Proof.
  intros Hname Hlat Hlon Hk Hb Hfail Hfatal.
  set (req := city_request lat lon base_url timeout cw).
  destruct (retry_loop_retryable http city base_url (req_params req) timeout N b name Hname
              (py_range 1 k) w) as (w1 & Hloop & Ev).
  { intros i Hi. rewrite py_range_length in Hi. apply Hfail. lia. }
  { intros a Ha Hlt. apply py_range_In in Ha. apply Hb. lia. }
  assert (Hn1 : n_requests w1 = (n_requests w + Z.to_nat (k - 1))%nat).
  { rewrite (n_requests_step _ _ _ Ev), n_requests_schedule, py_range_length. reflexivity. }
  destruct (attempt_body_unrecoverable http city base_url (req_params req) timeout N b name Hname
              k w1) as (w2 & Hbody & Ev2).
  { rewrite Hn1. apply Hfatal. }
  assert (Eio : io_events w2 = io_events w ++ retry_schedule req N b (py_range 1 k) ++ [EvGet req]).
  { rewrite Ev2, Ev, <- app_assoc. reflexivity. }
  exists w2. split; [|split; [|split; [|split]]].
  - rewrite (fetch_weather_unfold http city base_url timeout N b cw name lat lon Hname Hlat Hlon).
    fold req. rewrite (py_range_split 1 k (N + 1)) by lia.
    rewrite (retry_loop_app _ _ _ _ _ _ _ _ _ _ _ Hloop).
    rewrite (py_range_cons k (N + 1)) by lia.
    cbn [retry_loop]. unfold bind. rewrite Hbody. reflexivity.
  - exact Eio.
  - rewrite (n_requests_step _ _ _ Eio), n_requests_app, n_requests_schedule, py_range_length.
    cbn. lia.
  - rewrite <- sleeps_io, Eio, !sleeps_app, sleeps_io.
    rewrite sleeps_schedule_below by (intros a Ha; apply py_range_In in Ha; lia).
    cbn. rewrite app_nil_r. reflexivity.
  - intros ->. rewrite Eio. rewrite (py_range_nil 1 1) by lia. reflexivity.
Qed.

(** When the calls of [requests.get] raise nothing but exceptions of the
    library, [fetch_weather] returns: every such exception is handled
    inside the loop. *)
Lemma fetch_weather_total
    (http : nat -> Request -> exn + Response)
    (city : dict) (base_url : string) (timeout N b : Z) (cw : bool) (w : World) :
  city_ok city ->
  (forall n req, req_timeout req = timeout -> requests_only (http n req) = true) ->
  delays_ok N b ->
  exists raw w', fetch_weather http city base_url timeout N b cw w = (Ret raw, w').
Proof.
  intros ([name Hname] & [lat Hlat] & [lon Hlon]) Hlib Hb.
  rewrite (fetch_weather_unfold http city base_url timeout N b cw name lat lon Hname Hlat Hlon).
  destruct (retry_loop_total http city base_url
              (req_params (city_request lat lon base_url timeout cw)) timeout N b name Hname
              (py_range 1 (N + 1)) w) as (r & w' & H).
  { intros n. apply Hlib. reflexivity. }
  { intros a Ha Hlt. apply py_range_In in Ha. apply Hb. lia. }
  rewrite H. destruct r; eauto.
Qed.

Lemma successes_cons city raw cities raws :
  successes (city :: cities) (raw :: raws) =
  (if is_none raw then []
   else [VDict {[ "city" := dict_get city "name" VNone; "raw" := raw ]}])
  ++ successes cities raws.
Proof. unfold successes. cbn. destruct (is_none raw); reflexivity. Qed.

Lemma successes_length cities : forall raws,
  (length (successes cities raws) <= length cities)%nat.
Proof.
  induction cities as [|c cs IH]; intros [|r rs]; try (cbn; lia).
  rewrite successes_cons, length_app. specialize (IH rs).
  destruct (is_none r); cbn [length app]; lia.
Qed.

Lemma successes_length_failed cities : forall raws,
  length raws = length cities ->
  In VNone raws ->
  (length (successes cities raws) < length cities)%nat.
Proof.
  induction cities as [|c cs IH]; intros [|r rs] Hlen Hin;
    try contradiction; try discriminate.
  rewrite successes_cons, length_app. cbn [length] in *.
  destruct Hin as [->|Hin].
  - pose proof (successes_length cs rs). cbn [is_none length]. lia.
  - specialize (IH rs ltac:(lia) Hin). destruct (is_none r); cbn [length]; lia.
Qed.

Lemma successes_sublist cities : forall raws,
  sublist (map pair_city (successes cities raws))
          (map (fun c : dict => dict_get c "name" VNone) cities).
Proof.
  induction cities as [|c cs IH]; intros [|r rs]; try apply sublist_nil_l.
  - cbn [map]. rewrite successes_cons. destruct (is_none r); cbn [app map].
    + apply sublist_cons. apply IH.
    + replace (pair_city _) with (dict_get c "name" VNone) by reflexivity.
      apply sublist_skip. apply IH.
Qed.

Section ExtractAll.
Variable http : nat -> Request -> exn + Response.
Variables (api_config : ApiConfig) (u : string).
Hypothesis Hurl : cfg_base_url api_config = Some u.

(** When none of the calls of [fetch_weather] raises, the loop of
    [extract_all] returns the pairs of the calls that returned a result. *)
Lemma extract_loop_fetch cities : forall results w raws w',
  Forall city_ok cities ->
  fetch_results http cities u api_config w = (raws, w') ->
  length raws = length cities ->
  extract_loop http cities api_config results w
  = (Ret (results ++ successes cities raws), w').
Proof.
  induction cities as [|city rest IH]; intros results w raws w' Hok Hres Hlen.
  - cbn in Hres. injection Hres as <- <-. cbn. rewrite app_nil_r. reflexivity.
  - inversion Hok as [|? ? Hcity Hrest]; subst.
    cbn [fetch_results] in Hres.
    destruct (fetch_weather http city u _ _ _ _ w) as [[raw|e] w1] eqn:Hfetch.
    2: { injection Hres as <- <-. discriminate Hlen. }
    destruct (fetch_results http rest u api_config w1) as [raws1 w2] eqn:Hrest1.
    injection Hres as <- <-. cbn [length] in Hlen.
    destruct Hcity as ([name Hname] & _).
    set (results' := results ++
           (if is_none raw then []
            else [VDict {[ "city" := dict_get city "name" VNone; "raw" := raw ]}])).
    pose proof (IH results' w1 raws1 w2 Hrest Hrest1 ltac:(lia)) as Hloop.
    cbn [extract_loop]. rewrite Hurl. unfold bind at 1. cbn [ret].
    unfold bind at 1. rewrite Hfetch.
    rewrite successes_cons, app_assoc. fold results'.
    rewrite <- Hloop. unfold bind, getitem, results', dict_get. rewrite Hname.
    destruct (is_none raw); cbn [negb ret]; rewrite ?app_nil_r; reflexivity.
Qed.

Hypothesis Hlib : forall n req,
  req_timeout req = default 10 (cfg_timeout_seconds api_config) ->
  requests_only (http n req) = true.
Hypothesis Hdelays :
  delays_ok (default 3 (cfg_max_retries api_config))
            (default 2 (cfg_backoff_factor api_config)).

Lemma fetch_results_total cities : forall w,
  Forall city_ok cities ->
  exists raws w',
    fetch_results http cities u api_config w = (raws, w')
    /\ length raws = length cities.
Proof.
  induction cities as [|city rest IH]; intros w Hok.
  - exists [], w. split; reflexivity.
  - inversion Hok as [|? ? Hcity Hrest]; subst.
    destruct (fetch_weather_total http city u
                (default 10 (cfg_timeout_seconds api_config))
                (default 3 (cfg_max_retries api_config))
                (default 2 (cfg_backoff_factor api_config))
                (default true (cfg_current_weather api_config)) w Hcity Hlib Hdelays)
      as (raw & w1 & Hfetch).
    destruct (IH w1 Hrest) as (raws & w2 & Hres & Hlen).
    exists (raw :: raws), w2. split.
    + cbn [fetch_results]. rewrite Hfetch, Hres. reflexivity.
    + cbn. lia.
Qed.

Lemma extract_loop_spec cities : forall results w,
  Forall city_ok cities ->
  exists raws w',
    fetch_results http cities u api_config w = (raws, w')
    /\ length raws = length cities
    /\ extract_loop http cities api_config results w
       = (Ret (results ++ successes cities raws), w').
Proof.
  intros results w Hok.
  destruct (fetch_results_total cities w Hok) as (raws & w' & Hres & Hlen).
  exists raws, w'. split; [exact Hres|]. split; [exact Hlen|].
  apply extract_loop_fetch; assumption.
Qed.

End ExtractAll.

(** With a positive timeout, [requests.get] over a network raises nothing
    but what the network does. *)
Lemma validated_requests_only (net : network) (timeout : Z) :
  0 < timeout ->
  forall n req, req_timeout req = timeout -> requests_only (validated net n req) = true.
Proof.
  intros Hpos n req Hreq. unfold validated. rewrite Hreq.
  replace (timeout <=? 0) with false by (symmetry; apply Z.leb_gt; exact Hpos).
  destruct (net n req) as [e|r]; reflexivity.
Qed.


End ExtractFacts.

(** * Properties of transform.py *)

Section TransformFacts.
Import Transform.

Variable now_iso : nat -> string.
Variable parse_number : string -> option (Z + Q).

Local Abbreviation skipped := (Transform.skipped now_iso).
Local Abbreviation numeric_column := (Transform.numeric_column parse_number).
Local Abbreviation typed_frame := (Transform.typed_frame parse_number).
Local Abbreviation frame_of := (Transform.frame_of parse_number).

(** The three ways through [_parse_single], by the shape of the payload. *)
Lemma parse_single_skip record raw w :
  dict_get record "raw" (VDict ∅) = VDict raw ->
  dict_get raw "current_weather" VNone = VNone ->
  _parse_single now_iso record w = (Ret None, logged (skip_line record) w).
Proof.
  intros Hraw Hcur. unfold _parse_single, bind, py_get. rewrite Hraw. cbn [ret].
  rewrite Hcur. reflexivity.
Qed.

Lemma parse_single_mapping record raw current w :
  dict_get record "raw" (VDict ∅) = VDict raw ->
  dict_get raw "current_weather" VNone = VDict current ->
  _parse_single now_iso record w =
  (Ret (Some (row_of (dict_get record "city" (VStr "unknown")) current
                     (now_iso (clock_reads w)))),
   tick w).
Proof.
  intros Hraw Hcur. unfold _parse_single, bind, py_get. rewrite Hraw. cbn [ret].
  rewrite Hcur. reflexivity.
Qed.

Lemma parse_single_non_mapping record raw v w :
  dict_get record "raw" (VDict ∅) = VDict raw ->
  dict_get raw "current_weather" VNone = v ->
  is_none v = false -> is_mapping v = false ->
  _parse_single now_iso record w = (Raise AttributeError, w).
Proof.
  intros Hraw Hcur Hn Hm. unfold _parse_single, bind, py_get. rewrite Hraw. cbn [ret].
  rewrite Hcur. destruct v; try discriminate; reflexivity.
Qed.

Lemma parse_single_raw_non_mapping record w :
  is_mapping (dict_get record "raw" (VDict ∅)) = false ->
  _parse_single now_iso record w = (Raise AttributeError, w).
Proof.
  intros Hm. unfold _parse_single, bind, py_get.
  destruct (dict_get record "raw" (VDict ∅)); try discriminate; reflexivity.
Qed.

(** Every record takes one of those, whatever the state. *)
Lemma parse_single_cases record :
  (exists raw, dict_get record "raw" (VDict ∅) = VDict raw
     /\ dict_get raw "current_weather" VNone = VNone
     /\ forall w, _parse_single now_iso record w = (Ret None, logged (skip_line record) w))
  \/ (exists raw current, dict_get record "raw" (VDict ∅) = VDict raw
     /\ dict_get raw "current_weather" VNone = VDict current
     /\ forall w, _parse_single now_iso record w =
        (Ret (Some (row_of (dict_get record "city" (VStr "unknown")) current
                           (now_iso (clock_reads w)))), tick w))
  \/ (forall w, _parse_single now_iso record w = (Raise AttributeError, w)).
Proof.
  destruct (dict_get record "raw" (VDict ∅)) as [| | | | | |raw] eqn:Hraw;
    try (right; right; intros w; apply parse_single_raw_non_mapping; rewrite Hraw; reflexivity).
  destruct (dict_get raw "current_weather" VNone) as [| | | | | |current] eqn:Hcur.
  - left. exists raw. split; [reflexivity|split; [exact Hcur|]].
    intros w. apply (parse_single_skip record raw); [exact Hraw|exact Hcur].
  - right; right; intros w; eapply parse_single_non_mapping; eauto.
  - right; right; intros w; eapply parse_single_non_mapping; eauto.
  - right; right; intros w; eapply parse_single_non_mapping; eauto.
  - right; right; intros w; eapply parse_single_non_mapping; eauto.
  - right; right; intros w; eapply parse_single_non_mapping; eauto.
  - right; left. exists raw, current. split; [reflexivity|split; [exact Hcur|]].
    intros w. apply (parse_single_mapping record raw); [exact Hraw|exact Hcur].
Qed.

(** The rows [parse_loop] adds carry the successive readings of the clock. *)
Lemma parse_loop_rows records : forall rows w rows' w',
  parse_loop now_iso records rows w = (Ret rows', w') ->
  exists new,
    rows' = rows ++ new
    /\ (length new <= length records)%nat
    /\ clock_reads w' = (clock_reads w + length new)%nat
    /\ map (fun row : dict => dict_get row "retrieval_timestamp" VNone) new
       = map (fun k => VStr (now_iso k)) (seq (clock_reads w) (length new)).
Proof.
  induction records as [|record rest IH]; intros rows w rows' w' H.
  - cbn in H. injection H as <- <-. exists []. rewrite app_nil_r, Nat.add_0_r. auto.
  - cbn [parse_loop] in H. unfold bind in H.
    destruct (parse_single_cases record)
      as [(raw & _ & _ & Hs)|[(raw & current & _ & _ & Hs)|Hs]]; rewrite Hs in H.
    + apply IH in H as (new & -> & Hlen & Hclk & Hts).
      exists new. cbn [length]. split; [reflexivity|]. split; [lia|]. split; assumption.
    + apply IH in H as (new & -> & Hlen & Hclk & Hts).
      exists (row_of (dict_get record "city" (VStr "unknown")) current
                (now_iso (clock_reads w)) :: new).
      cbn [length tick clock_reads] in *. split; [rewrite <- app_assoc; reflexivity|].
      split; [lia|]. split; [lia|].
      cbn [map seq]. rewrite <- Hts. reflexivity.
    + discriminate.
Qed.

Lemma astype_Int64_pure {S} (s : pd.NumSeries) (w : S) :
  pd.astype_Int64 s w = (cast_Int64 s, w).
Proof.
  unfold cast_Int64. destruct s as [xs|xs|xs|xs]; cbn; try reflexivity.
  destruct (forallb _ xs); reflexivity.
Qed.

Lemma cast_Int64_cases (s : pd.NumSeries) :
  cast_Int64 s = Raise TypeError \/ exists xs, cast_Int64 s = Ret (pd.SInt64NA xs).
Proof.
  unfold cast_Int64. destruct s as [xs|xs|xs|xs]; cbn; eauto.
  destruct (forallb _ xs); cbn; eauto.
Qed.

Lemma transform_unfold records w :
  transform now_iso parse_number records w =
  match parse_loop now_iso records [] w with
  | (Raise e, w1) => (Raise e, w1)
  | (Ret rows, w1) =>
      match frame_of rows with
      | Ret df => (Ret df, logged (closing_line rows) w1)
      | Raise e => (Raise e, w1)
      end
  end.
Proof.
  unfold transform, bind at 1.
  destruct (parse_loop now_iso records [] w) as [[rows|e] w1]; [|reflexivity].
  destruct rows as [|r rs]; [reflexivity|].
  unfold Transform.frame_of, closing_line.
  generalize (r :: rs) as rows. clear r rs. intros rows.
  unfold coerce_column, coerce_column_Int64, bind, Transform.numeric_column, column.
  cbn -[pd.to_numeric_coerce pd.astype_Int64 cast_Int64].
  rewrite astype_Int64_pure.
  destruct (cast_Int64 _) as [wc|e]; [|reflexivity].
  cbn -[pd.to_numeric_coerce pd.astype_Int64 cast_Int64].
  rewrite astype_Int64_pure.
  destruct (cast_Int64 _) as [day|e]; [|reflexivity].
  cbn -[pd.to_numeric_coerce]. rewrite length_map. reflexivity.
Qed.

Lemma frame_of_columns rows df :
  frame_of rows = Ret df -> pd.columns df = EXPECTED_COLUMNS.
Proof.
  unfold Transform.frame_of. destruct rows as [|r rs].
  - intros [= <-]. reflexivity.
  - destruct (cast_Int64 _) as [wc|e]; [|discriminate].
    destruct (cast_Int64 _) as [day|e]; [|discriminate].
    intros [= <-]. reflexivity.
Qed.

Lemma frame_of_len rows df :
  frame_of rows = Ret df -> pd.len df = length rows.
Proof.
  unfold Transform.frame_of. destruct rows as [|r rs].
  - intros [= <-]. reflexivity.
  - destruct (cast_Int64 _) as [wc|e]; [|discriminate].
    destruct (cast_Int64 _) as [day|e]; [|discriminate].
    intros [= <-]. unfold Transform.typed_frame, pd.len, pd.series_len, column.
    rewrite length_map. reflexivity.
Qed.

Lemma frame_of_retrieval_timestamp rows df :
  frame_of rows = Ret df ->
  pd.get_column df "retrieval_timestamp"
  = Some (pd.SObject (column rows "retrieval_timestamp")).
Proof.
  unfold Transform.frame_of. destruct rows as [|r rs].
  - intros [= <-]. reflexivity.
  - destruct (cast_Int64 _) as [wc|e]; [|discriminate].
    destruct (cast_Int64 _) as [day|e]; [|discriminate].
    intros [= <-]. reflexivity.
Qed.

(** Inverting a run of [transform] that returned. *)
Lemma transform_returns records w df w' :
  transform now_iso parse_number records w = (Ret df, w') ->
  exists rows w1,
    parse_loop now_iso records [] w = (Ret rows, w1)
    /\ frame_of rows = Ret df
    /\ w' = logged (closing_line rows) w1.
Proof.
  rewrite transform_unfold.
  destruct (parse_loop now_iso records [] w) as [[rows|e] w1]; [|discriminate].
  destruct (frame_of rows) as [df0|e] eqn:Hf; [|discriminate].
  intros [= <- <-]. eauto.
Qed.

Lemma row_of_field city_name current stamp src dst :
  In (src, dst) SUBFIELDS ->
  row_of city_name current stamp !! dst = Some (dict_get current src VNone).
Proof.
  unfold SUBFIELDS. cbn [In].
  intros [H|[H|[H|[H|[H|[H|[]]]]]]]; injection H as <- <-; reflexivity.
Qed.

Lemma parse_loop_app l1 l2 : forall rows w,
  parse_loop now_iso (l1 ++ l2) rows w =
  match parse_loop now_iso l1 rows w with
  | (Ret rows1, w1) => parse_loop now_iso l2 rows1 w1
  | (Raise e, w1) => (Raise e, w1)
  end.
Proof.
  induction l1 as [|r l1 IH]; intros rows w; [reflexivity|].
  cbn [app parse_loop]. unfold bind.
  destruct (_parse_single now_iso r w) as [[[p|]|e] w0]; try apply IH. reflexivity.
Qed.

(** The log has no influence on what [parse_loop] computes. *)
Lemma parse_loop_log_irrelevant records : forall rows w1 w2,
  clock_reads w1 = clock_reads w2 ->
  fst (parse_loop now_iso records rows w1) = fst (parse_loop now_iso records rows w2).
Proof.
  induction records as [|record rest IH]; intros rows w1 w2 Hc; [reflexivity|].
  cbn [parse_loop]. unfold bind.
  destruct (parse_single_cases record)
    as [(raw & _ & _ & Hs)|[(raw & current & _ & _ & Hs)|Hs]]; rewrite !Hs.
  - apply IH. exact Hc.
  - rewrite Hc. apply IH. cbn. rewrite Hc. reflexivity.
  - reflexivity.
Qed.

Lemma transform_fst records w :
  fst (transform now_iso parse_number records w) =
  match fst (parse_loop now_iso records [] w) with
  | Ret rows => frame_of rows
  | Raise e => Raise e
  end.
Proof.
  rewrite transform_unfold.
  destruct (parse_loop now_iso records [] w) as [[rows|e] w1]; [|reflexivity].
  cbn [fst]. destruct (frame_of rows); reflexivity.
Qed.

(** A record without the sub-block leaves no trace in the result, wherever
    it stands in the batch. *)
Lemma transform_drops_skipped before record raw after w :
  dict_get record "raw" (VDict ∅) = VDict raw ->
  dict_get raw "current_weather" VNone = VNone ->
  fst (transform now_iso parse_number (before ++ record :: after) w)
  = fst (transform now_iso parse_number (before ++ after) w).
Proof.
  intros Hraw Hcur. rewrite !transform_fst, !parse_loop_app.
  destruct (parse_loop now_iso before [] w) as [[rows1|e] w1]; [|reflexivity].
  cbn [parse_loop]. unfold bind. rewrite (parse_single_skip record raw w1 Hraw Hcur).
  rewrite (parse_loop_log_irrelevant after rows1 (logged (skip_line record) w1) w1)
    by reflexivity.
  reflexivity.
Qed.

Lemma lookup_map {A B} (f : A -> B) (l : list A) : forall i,
  map f l !! i = f <$> l !! i.
Proof. induction l as [|a l IH]; intros [|i]; cbn; auto. Qed.

(** A [None] in an object column is a null of the converted column, and
    stays one through the cast. *)
Lemma to_numeric_null_at xs i :
  xs !! i = Some VNone ->
  pd.cell_isna (pd.SNum (pd.to_numeric_coerce parse_number (pd.SObject xs))) i = Some true.
Proof.
  intros Hi. unfold pd.to_numeric_coerce.
  assert (Hn : map (pd.scalar_to_numeric parse_number) xs !! i = Some pd.NNull).
  { rewrite lookup_map, Hi. reflexivity. }
  assert (He : existsb pd.is_floating (map (pd.scalar_to_numeric parse_number) xs) = true).
  { apply existsb_exists. exists pd.NNull. split; [|reflexivity].
    apply list_elem_of_In. eapply list_elem_of_lookup_2. exact Hn. }
  rewrite He. cbn [pd.cell_isna]. rewrite lookup_map, Hn. reflexivity.
Qed.

Lemma cast_null_at s s' i :
  pd.cell_isna (pd.SNum s) i = Some true ->
  cast_Int64 s = Ret s' ->
  pd.cell_isna (pd.SNum s') i = Some true.
Proof.
  unfold cast_Int64. destruct s as [xs|xs|xs|xs]; cbn.
  - destruct (forallb _ xs); [|discriminate].
    intros Hi [= <-]. cbn. rewrite lookup_map.
    destruct (xs !! i) as [[q|]|]; cbn in *; congruence.
  - destruct (xs !! i); cbn; discriminate.
  - destruct (xs !! i); cbn; discriminate.
  - intros Hi [= <-]. exact Hi.
Qed.

Lemma frame_of_null_cell rows df i row src dst :
  frame_of rows = Ret df ->
  rows !! i = Some row ->
  In (src, dst) SUBFIELDS ->
  row !! dst = Some VNone ->
  exists s, pd.get_column df dst = Some s /\ pd.cell_isna s i = Some true.
Proof.
  intros Hf Hi Hin Hrow.
  assert (Hcol : column rows dst !! i = Some VNone).
  { unfold column. rewrite lookup_map, Hi. cbn. unfold dict_get. rewrite Hrow. reflexivity. }
  unfold Transform.frame_of in Hf. destruct rows as [|r rs]; [discriminate|].
  destruct (cast_Int64 (numeric_column (r :: rs) "weathercode")) as [wc|e] eqn:Hwc;
    [|discriminate].
  destruct (cast_Int64 (numeric_column (r :: rs) "is_day")) as [day|e] eqn:Hday;
    [|discriminate].
  injection Hf as <-.
  unfold SUBFIELDS in Hin. cbn [In] in Hin.
  destruct Hin as [H|[H|[H|[H|[H|[H|[]]]]]]]; injection H as <- <-;
    eexists; (split; [reflexivity|]).
  - cbn [pd.cell_isna]. rewrite Hcol. reflexivity.
  - apply to_numeric_null_at. exact Hcol.
  - apply to_numeric_null_at. exact Hcol.
  - apply to_numeric_null_at. exact Hcol.
  - eapply cast_null_at; [|exact Hwc]. apply to_numeric_null_at. exact Hcol.
  - eapply cast_null_at; [|exact Hday]. apply to_numeric_null_at. exact Hcol.
Qed.

(** C6.  A record whose payload (a mapping) has no [current_weather]
    sub-block gives no row: [_parse_single] logs the warning and answers
    [None], the record alone gives the empty frame, and anywhere in a batch
    it changes nothing to what [transform] returns.  A record whose
    sub-block is a mapping always gives a row: each output field holds the
    sub-field of its name, [None] when the sub-field is missing, and the
    frame [transform] returns has a null in that field of the row. *)
Theorem parse_single_subblock_and_subfields (record raw : dict) (w : World) :
  dict_get record "raw" (VDict ∅) = VDict raw ->
  (raw !! "current_weather" = None ->
     _parse_single now_iso record w = (Ret None, logged (skip_line record) w)
     /\ transform now_iso parse_number [record] w
        = (Ret (pd.DataFrame_columns EXPECTED_COLUMNS),
           logged empty_line (logged (skip_line record) w))
     /\ pd.len (pd.DataFrame_columns EXPECTED_COLUMNS) = 0%nat
     /\ forall before after w0,
          fst (transform now_iso parse_number (before ++ record :: after) w0)
          = fst (transform now_iso parse_number (before ++ after) w0))
  /\ (forall current, raw !! "current_weather" = Some (VDict current) ->
     exists row,
       _parse_single now_iso record w = (Ret (Some row), tick w)
       /\ (forall src dst, In (src, dst) SUBFIELDS ->
             row !! dst = Some (dict_get current src VNone))
       /\ (forall src dst, In (src, dst) SUBFIELDS -> current !! src = None ->
             row !! dst = Some VNone)
       /\ (forall rest df w', transform now_iso parse_number (record :: rest) w = (Ret df, w') ->
             (1 <= pd.len df)%nat
             /\ forall src dst, In (src, dst) SUBFIELDS -> current !! src = None ->
                  exists s, pd.get_column df dst = Some s /\ pd.cell_isna s 0 = Some true)).
Proof.
  intros Hraw. split.
  - intros Hcw.
    assert (Hcur : dict_get raw "current_weather" VNone = VNone).
    { unfold dict_get. rewrite Hcw. reflexivity. }
    pose proof (parse_single_skip record raw w Hraw Hcur) as Hs.
    split; [exact Hs|]. split; [|split; [reflexivity|]].
    + rewrite transform_unfold. cbn [parse_loop]. unfold bind. rewrite Hs. reflexivity.
    + intros before after w0. apply (transform_drops_skipped before record raw after w0 Hraw Hcur).
  - intros current Hcw.
    assert (Hcur : dict_get raw "current_weather" VNone = VDict current).
    { unfold dict_get. rewrite Hcw. reflexivity. }
    pose proof (parse_single_mapping record raw current w Hraw Hcur) as Hs.
    set (row := row_of (dict_get record "city" (VStr "unknown")) current
                  (now_iso (clock_reads w))) in *.
    assert (Hfield : forall src dst, In (src, dst) SUBFIELDS -> current !! src = None ->
                                     row !! dst = Some VNone).
    { intros src dst Hin Hmiss. unfold row. rewrite (row_of_field _ _ _ src dst Hin).
      unfold dict_get. rewrite Hmiss. reflexivity. }
    exists row. split; [exact Hs|]. split; [|split; [exact Hfield|]].
    + intros src dst Hin. apply row_of_field. exact Hin.
    + intros rest df w' Ht.
      apply transform_returns in Ht as (rows & w1 & Hloop & Hf & _).
      cbn [parse_loop] in Hloop. unfold bind in Hloop. rewrite Hs in Hloop.
      apply parse_loop_rows in Hloop as (new & -> & _).
      split.
      * rewrite (frame_of_len _ _ Hf). cbn. lia.
      * intros src dst Hin Hmiss.
        apply (frame_of_null_cell _ df 0%nat row src dst Hf);
          [reflexivity|exact Hin|apply (Hfield src dst Hin Hmiss)].
Qed.

(** C7.  Whenever [_parse_single] gives a row, its [retrieval_timestamp] is
    the reading of the clock at that moment, a string and never [None],
    whatever the payload holds (its own [time] field included).  In the
    frame [transform] returns, the [retrieval_timestamp] column is the
    successive readings of the clock during the run, one per row. *)
Theorem retrieval_timestamp_is_clock_reading (record row : dict) (w w' : World) :
  _parse_single now_iso record w = (Ret (Some row), w') ->
  row !! "retrieval_timestamp" = Some (VStr (now_iso (clock_reads w)))
  /\ is_none (dict_get row "retrieval_timestamp" VNone) = false
  /\ w' = tick w
  /\ (forall records w0 df w1,
        transform now_iso parse_number records w0 = (Ret df, w1) ->
        pd.get_column df "retrieval_timestamp"
        = Some (pd.SObject (map (fun k => VStr (now_iso k))
                               (seq (clock_reads w0) (pd.len df))))).
Proof.
  intros H.
  destruct (parse_single_cases record)
    as [(raw & _ & _ & Hs)|[(raw & current & _ & _ & Hs)|Hs]];
    rewrite Hs in H; try discriminate.
  injection H as <- <-.
  split; [reflexivity|]. split; [reflexivity|]. split; [reflexivity|].
  intros records w0 df w1 Ht.
  apply transform_returns in Ht as (rows & w2 & Hloop & Hf & _).
  apply parse_loop_rows in Hloop as (new & -> & _ & _ & Hts).
  rewrite (frame_of_retrieval_timestamp _ _ Hf), (frame_of_len _ _ Hf).
  cbn [app]. unfold column. rewrite Hts. reflexivity.
Qed.

Lemma parse_loop_all_skipped records : forall rows w,
  Forall skipped records ->
  exists w', parse_loop now_iso records rows w = (Ret rows, w').
Proof.
  induction records as [|record rest IH]; intros rows w Hall.
  - exists w. reflexivity.
  - inversion Hall as [|? ? Hskip Hrest]; subst.
    specialize (Hskip w). cbn [parse_loop]. unfold bind.
    destruct (_parse_single now_iso record w) as [r w1]. cbn in Hskip. subst r.
    apply IH. exact Hrest.
Qed.

(** C8.  On the empty input, and on any input all of whose records are
    skipped, [transform] returns the frame with no row and the eight
    [EXPECTED_COLUMNS]; and every frame [transform] returns, on any input,
    has exactly these columns in this order. *)
Theorem transform_schema_is_fixed (records : list dict) (w : World) :
  Forall skipped records ->
  (exists w', transform now_iso parse_number records w
              = (Ret (pd.DataFrame_columns EXPECTED_COLUMNS), w'))
  /\ transform now_iso parse_number [] w
     = (Ret (pd.DataFrame_columns EXPECTED_COLUMNS), logged empty_line w)
  /\ pd.len (pd.DataFrame_columns EXPECTED_COLUMNS) = 0%nat
  /\ pd.columns (pd.DataFrame_columns EXPECTED_COLUMNS) = EXPECTED_COLUMNS
  /\ EXPECTED_COLUMNS
     = ["city"; "timestamp"; "temperature_c"; "windspeed_kmh"; "winddirection_deg";
        "weathercode"; "is_day"; "retrieval_timestamp"]
  /\ (forall records0 w0 df w1,
        transform now_iso parse_number records0 w0 = (Ret df, w1) ->
        pd.columns df = pd.columns (pd.DataFrame_columns EXPECTED_COLUMNS)).
Proof.
  intros Hall. split; [|split; [|split; [|split; [|split]]]]; try reflexivity.
  - destruct (parse_loop_all_skipped records [] w Hall) as (w1 & Hloop).
    rewrite transform_unfold, Hloop. cbn. eauto.
  - intros records0 w0 df w1 Ht.
    apply transform_returns in Ht as (rows & w2 & _ & Hf & _).
    apply (frame_of_columns _ _ Hf).
Qed.

(** C3 on the code.  A [current_weather] entry that is neither [None] nor
    a mapping (a number, a string, a list) makes [current.get] raise
    [AttributeError], which the handler for [KeyError] and [TypeError] does
    not catch: [_parse_single] raises and logs nothing, and [transform]
    raises on every batch that holds such a record, instead of skipping
    it. *)
Theorem transform_non_mapping_block_raises (record raw : dict) (v : pyval) (w : World) :
  dict_get record "raw" (VDict ∅) = VDict raw ->
  raw !! "current_weather" = Some v ->
  is_none v = false ->
  is_mapping v = false ->
  _parse_single now_iso record w = (Raise AttributeError, w)
  /\ (forall after w0,
        transform now_iso parse_number (record :: after) w0 = (Raise AttributeError, w0))
  /\ (forall before after w0, exists e w1,
        transform now_iso parse_number (before ++ record :: after) w0 = (Raise e, w1)).
Proof.
  intros Hraw Hcw Hn Hm.
  assert (Hcur : dict_get raw "current_weather" VNone = v).
  { unfold dict_get. rewrite Hcw. reflexivity. }
  assert (H : forall w0, _parse_single now_iso record w0 = (Raise AttributeError, w0)).
  { intros w0. apply (parse_single_non_mapping record raw v w0 Hraw Hcur Hn Hm). }
  split; [apply H|]. split.
  - intros after w0. rewrite transform_unfold. cbn [parse_loop]. unfold bind.
    rewrite H. reflexivity.
  - intros before after w0. rewrite transform_unfold, parse_loop_app.
    destruct (parse_loop now_iso before [] w0) as [[rows1|e] w1].
    + cbn [parse_loop]. unfold bind. rewrite H. eauto.
    + eauto.
Qed.

(** A number that is not an integer makes the cast of its column fail. *)
Lemma cast_fractional xs q :
  In (VFloat q) xs ->
  pd.is_integral q = false ->
  cast_Int64 (pd.to_numeric_coerce parse_number (pd.SObject xs)) = Raise TypeError.
Proof.
  intros Hin Hq. unfold pd.to_numeric_coerce.
  assert (Hn : In (pd.NFloat q) (map (pd.scalar_to_numeric parse_number) xs)).
  { apply in_map_iff. exists (VFloat q). split; [reflexivity|exact Hin]. }
  assert (He : existsb pd.is_floating (map (pd.scalar_to_numeric parse_number) xs) = true).
  { apply existsb_exists. exists (pd.NFloat q). split; [exact Hn|reflexivity]. }
  rewrite He. unfold cast_Int64. cbn [pd.astype_Int64].
  destruct (forallb _ _) eqn:Hall; [|reflexivity].
  rewrite forallb_forall in Hall.
  specialize (Hall (Some q)). cbn in Hall. rewrite Hq in Hall.
  discriminate Hall. apply in_map_iff. exists (pd.NFloat q). split; [reflexivity|exact Hn].
Qed.

(** C4 on the code.  When a parsed row holds a number that is not an
    integer in [weathercode] or in [is_day], the cast of that column to
    [Int64] raises [TypeError] and [transform] raises with it: the value
    does not become a null of its row, and no frame is returned for the
    batch. *)
Theorem transform_fractional_code_raises
    (records rows : list dict) (row : dict) (field : string) (q : Q) (w w1 : World) :
  parse_loop now_iso records [] w = (Ret rows, w1) ->
  In row rows ->
  field = "weathercode" \/ field = "is_day" ->
  row !! field = Some (VFloat q) ->
  pd.is_integral q = false ->
  transform now_iso parse_number records w = (Raise TypeError, w1).
Proof.
  intros Hloop Hin Hfield Hrow Hq.
  rewrite transform_unfold, Hloop.
  assert (Hcast : cast_Int64 (numeric_column rows field) = Raise TypeError).
  { apply (cast_fractional _ q); [|exact Hq].
    apply in_map_iff. exists row. split; [|exact Hin].
    unfold dict_get. rewrite Hrow. reflexivity. }
  unfold Transform.frame_of. destruct rows as [|r rs]; [contradiction|].
  destruct Hfield as [-> | ->].
  - rewrite Hcast. reflexivity.
  - destruct (cast_Int64_cases (numeric_column (r :: rs) "weathercode")) as [Hwc|[xs Hwc]];
      rewrite Hwc; [reflexivity|]. rewrite Hcast. reflexivity.
Qed.

End TransformFacts.

(** * Properties of load.py *)

Section LoadFacts.
Import Load.

Variable now_stamp : nat -> string.
Variable csv_text : pd.DataFrame -> string.
Variable to_sql_append : pd.DataFrame -> list dict -> exn + list dict.

(** C9.  For a frame with no row (or no column), [load_to_csv] writes no
    file and returns [None], and [load_to_sqlite] returns 0 and leaves the
    databases as they are: either call only logs its warning.  The frame
    [transform] returns on the empty input is such a frame. *)
Theorem load_skips_empty_frame (df : pd.DataFrame) (data_dir db_path : Path) (w : World) :
  pd.empty df = true ->
  load_to_csv now_stamp csv_text df data_dir w
  = (Ret None,
     {| clock_reads := clock_reads w;
        log := log w ++ [LogRecord WARNING "Empty DataFrame – CSV not written." []];
        dirs := dirs w; files := files w; dbs := dbs w |})
  /\ load_to_sqlite to_sql_append df db_path w
     = (Ret 0,
        {| clock_reads := clock_reads w;
           log := log w ++ [LogRecord WARNING "Empty DataFrame – nothing to insert into SQLite." []];
           dirs := dirs w; files := files w; dbs := dbs w |})
  /\ pd.empty (pd.DataFrame_columns Transform.EXPECTED_COLUMNS) = true.
Proof.
  intros Hempty. unfold load_to_csv, load_to_sqlite. rewrite Hempty.
  split; [reflexivity|]. split; reflexivity.
Qed.

End LoadFacts.

(** * The statements at the fixtures of the test suite *)

Lemma fetch_weather_exhausts_retries_witness :
  Extract.delays_ok 2 1
  /\ exists w',
      Extract.fetch_weather Fixtures.always_timeout Fixtures.PARIS
        "https://api.open-meteo.com/v1/forecast" 10 2 1 true [] = (Ret VNone, w')
      /\ Extract.n_requests w' = 2%nat
      /\ Extract.sleeps w' = [1].
Proof.
  assert (Hb : Extract.delays_ok 2 1).
  { intros a Ha. rewrite Z.pow_1_l by lia. unfold Extract.SLEEP_MAX. lia. }
  split; [exact Hb|].
  destruct (fetch_weather_exhausts_retries Fixtures.always_timeout Fixtures.PARIS
              (VStr "Paris") (VFloat (488566 # 10000)) (VFloat (23522 # 10000))
              "https://api.open-meteo.com/v1/forecast" 10 2 1 true [])
    as (w' & Hrun & _ & Hn & Hs).
  - reflexivity.
  - reflexivity.
  - reflexivity.
  - lia.
  - exact Hb.
  - intros i req Hi. reflexivity.
  - exists w'. split; [exact Hrun|]. split; [exact Hn|exact Hs].
Defined.

Lemma fetch_weather_unrecoverable_aborts_witness :
  (exists w',
     Extract.fetch_weather Fixtures.always_fatal Fixtures.PARIS
       "https://api.open-meteo.com/v1/forecast" 10 3 1 true [] = (Ret VNone, w')
     /\ Extract.n_requests w' = 1%nat
     /\ Extract.sleeps w' = [])
  /\ Extract.delays_ok 2 2
  /\ (exists w',
        Extract.fetch_weather Fixtures.timeout_then_fatal Fixtures.PARIS
          "https://api.open-meteo.com/v1/forecast" 10 3 2 true [] = (Ret VNone, w')
        /\ Extract.n_requests w' = 2%nat
        /\ Extract.sleeps w' = [2]).
Proof.
  assert (Hb : Extract.delays_ok 2 2).
  { intros a Ha. assert (a = 1) as -> by lia. vm_compute. split; discriminate. }
  split; [|split; [exact Hb|]].
  - destruct (fetch_weather_unrecoverable_aborts Fixtures.always_fatal Fixtures.PARIS
                (VStr "Paris") (VFloat (488566 # 10000)) (VFloat (23522 # 10000))
                "https://api.open-meteo.com/v1/forecast" 10 3 1 1 true [])
      as (w' & Hrun & _ & Hn & Hs & _).
    + reflexivity.
    + reflexivity.
    + reflexivity.
    + lia.
    + intros a Ha. lia.
    + intros i req Hi. cbn in Hi. lia.
    + intros req. reflexivity.
    + exists w'. split; [exact Hrun|]. split; [exact Hn|exact Hs].
  - destruct (fetch_weather_unrecoverable_aborts Fixtures.timeout_then_fatal Fixtures.PARIS
                (VStr "Paris") (VFloat (488566 # 10000)) (VFloat (23522 # 10000))
                "https://api.open-meteo.com/v1/forecast" 10 3 2 2 true [])
      as (w' & Hrun & _ & Hn & Hs & _).
    + reflexivity.
    + reflexivity.
    + reflexivity.
    + lia.
    + exact Hb.
    + intros i req Hi. cbn in Hi. replace i with 0%nat by lia. reflexivity.
    + intros req. reflexivity.
    + exists w'. split; [exact Hrun|]. split; [exact Hn|exact Hs].
Defined.

Lemma fetch_weather_no_attempts_witness :
  exists w',
    Extract.fetch_weather Fixtures.first_answers Fixtures.PARIS
      "https://api.open-meteo.com/v1/forecast" 10 0 2 true [] = (Ret VNone, w')
    /\ Extract.n_requests w' = 0%nat
    /\ Extract.sleeps w' = [].
Proof.
  destruct (fetch_weather_no_attempts Fixtures.first_answers Fixtures.PARIS
              (VStr "Paris") (VFloat (488566 # 10000)) (VFloat (23522 # 10000))
              "https://api.open-meteo.com/v1/forecast" 10 0 2 true [])
    as (w' & Hrun & _ & Hn & Hs).
  - reflexivity.
  - reflexivity.
  - reflexivity.
  - lia.
  - exists w'. split; [exact Hrun|]. split; [exact Hn|exact Hs].
Defined.


Lemma parse_single_subblock_and_subfields_witness :
  Transform._parse_single Fixtures.fixed_clock Fixtures.RECORD_MISSING_CW
    Fixtures.transform_start
  = (Ret None,
     Transform.logged (Transform.skip_line Fixtures.RECORD_MISSING_CW) Fixtures.transform_start)
  /\ exists row,
      Transform._parse_single Fixtures.fixed_clock Fixtures.RECORD_PARTIAL
        Fixtures.transform_start
      = (Ret (Some row), Transform.tick Fixtures.transform_start)
      /\ row !! "weathercode" = Some VNone
      /\ row !! "is_day" = Some VNone.
Proof.
  split.
  - destruct (parse_single_subblock_and_subfields Fixtures.fixed_clock Fixtures.parse_nothing
                Fixtures.RECORD_MISSING_CW ∅ Fixtures.transform_start) as [Hskip _].
    + reflexivity.
    + destruct Hskip as [H _]; [reflexivity|exact H].
  - destruct (parse_single_subblock_and_subfields Fixtures.fixed_clock Fixtures.parse_nothing
                Fixtures.RECORD_PARTIAL
                {[ "current_weather" :=
                   VDict {[ "time" := VStr "2026-02-18T22:00";
                            "temperature" := VFloat (72 # 10);
                            "windspeed" := VFloat (125 # 10);
                            "winddirection" := VInt 210 ]} ]}
                Fixtures.transform_start) as [_ Hrow].
    + reflexivity.
    + destruct (Hrow _ eq_refl) as (row & Hrun & _ & Hmiss & _).
      exists row. split; [exact Hrun|]. split.
      * apply (Hmiss "weathercode" "weathercode"); [cbn; tauto|reflexivity].
      * apply (Hmiss "is_day" "is_day"); [cbn; tauto|reflexivity].
Defined.

Lemma retrieval_timestamp_is_clock_reading_witness :
  Transform._parse_single Fixtures.fixed_clock Fixtures.VALID_RECORD Fixtures.transform_start
  = (Ret (Some (Transform.row_of (VStr "Paris") Fixtures.CURRENT_WEATHER
                  "2026-02-18T22:01:00+00:00")),
     Transform.tick Fixtures.transform_start)
  /\ Transform.row_of (VStr "Paris") Fixtures.CURRENT_WEATHER "2026-02-18T22:01:00+00:00"
       !! "retrieval_timestamp"
     = Some (VStr "2026-02-18T22:01:00+00:00").
Proof.
  assert (H : Transform._parse_single Fixtures.fixed_clock Fixtures.VALID_RECORD
                Fixtures.transform_start
              = (Ret (Some (Transform.row_of (VStr "Paris") Fixtures.CURRENT_WEATHER
                              "2026-02-18T22:01:00+00:00")),
                 Transform.tick Fixtures.transform_start)) by reflexivity.
  split; [exact H|].
  apply (retrieval_timestamp_is_clock_reading Fixtures.fixed_clock Fixtures.parse_nothing
           _ _ _ _ H).
Defined.

Lemma transform_schema_is_fixed_witness :
  Forall (Transform.skipped Fixtures.fixed_clock) [Fixtures.RECORD_MISSING_CW]
  /\ exists w',
      Transform.transform Fixtures.fixed_clock Fixtures.parse_nothing
        [Fixtures.RECORD_MISSING_CW] Fixtures.transform_start
      = (Ret (pd.DataFrame_columns Transform.EXPECTED_COLUMNS), w').
Proof.
  assert (Hs : Forall (Transform.skipped Fixtures.fixed_clock) [Fixtures.RECORD_MISSING_CW]).
  { constructor; [|constructor]. intros w. reflexivity. }
  split; [exact Hs|].
  apply (transform_schema_is_fixed Fixtures.fixed_clock Fixtures.parse_nothing
           [Fixtures.RECORD_MISSING_CW] Fixtures.transform_start Hs).
Defined.

Lemma load_skips_empty_frame_witness :
  pd.empty (pd.DataFrame_columns Transform.EXPECTED_COLUMNS) = true
  /\ fst (Load.load_to_csv Fixtures.fixed_stamp Fixtures.csv_blank
            (pd.DataFrame_columns Transform.EXPECTED_COLUMNS) ["data"] Fixtures.load_start)
     = Ret None
  /\ fst (Load.load_to_sqlite (fun _ rows => inr rows)
            (pd.DataFrame_columns Transform.EXPECTED_COLUMNS) ["data"; "weather.db"]
            Fixtures.load_start)
     = Ret 0.
Proof.
  assert (He : pd.empty (pd.DataFrame_columns Transform.EXPECTED_COLUMNS) = true)
    by reflexivity.
  split; [exact He|].
  destruct (load_skips_empty_frame Fixtures.fixed_stamp Fixtures.csv_blank
              (fun _ rows => inr rows)
              (pd.DataFrame_columns Transform.EXPECTED_COLUMNS)
              ["data"] ["data"; "weather.db"] Fixtures.load_start He)
    as (Hcsv & Hsql & _).
  rewrite Hcsv, Hsql. split; reflexivity.
Defined.

Lemma transform_non_mapping_block_raises_witness :
  Transform._parse_single Fixtures.fixed_clock Fixtures.RECORD_NON_MAPPING
    Fixtures.transform_start
  = (Raise AttributeError, Fixtures.transform_start)
  /\ Transform.transform Fixtures.fixed_clock Fixtures.parse_nothing
       [Fixtures.RECORD_NON_MAPPING; Fixtures.VALID_RECORD] Fixtures.transform_start
     = (Raise AttributeError, Fixtures.transform_start).
Proof.
  destruct (transform_non_mapping_block_raises Fixtures.fixed_clock Fixtures.parse_nothing
              Fixtures.RECORD_NON_MAPPING {[ "current_weather" := VInt 5 ]} (VInt 5)
              Fixtures.transform_start) as (Hparse & Hhead & _).
  - reflexivity.
  - reflexivity.
  - reflexivity.
  - reflexivity.
  - split; [exact Hparse|apply Hhead].
Defined.

Lemma transform_fractional_code_raises_witness :
  pd.is_integral (7 # 2) = false
  /\ Transform.transform Fixtures.fixed_clock Fixtures.parse_nothing
       [Fixtures.VALID_RECORD; Fixtures.RECORD_FRACTIONAL_CODE] Fixtures.transform_start
     = (Raise TypeError, Transform.tick (Transform.tick Fixtures.transform_start)).
Proof.
  split; [reflexivity|].
  apply (transform_fractional_code_raises Fixtures.fixed_clock Fixtures.parse_nothing
           [Fixtures.VALID_RECORD; Fixtures.RECORD_FRACTIONAL_CODE]
           [Transform.row_of (VStr "Paris") Fixtures.CURRENT_WEATHER
              "2026-02-18T22:01:00+00:00";
            Transform.row_of (VStr "Paris")
              (<[ "weathercode" := VFloat (7 # 2) ]> Fixtures.CURRENT_WEATHER)
              "2026-02-18T22:01:00+00:00"]
           (Transform.row_of (VStr "Paris")
              (<[ "weathercode" := VFloat (7 # 2) ]> Fixtures.CURRENT_WEATHER)
              "2026-02-18T22:01:00+00:00")
           "weathercode" (7 # 2)).
  - reflexivity.
  - right. left. reflexivity.
  - left. reflexivity.
  - reflexivity.
  - reflexivity.
Defined.

(** * Further properties of extract.py *)

Section ExtractMoreFacts.
Import Extract ExtractMore.

Variable http : nat -> Request -> exn + Response.

(** X1. [fetch_weather] returns at its first success.  When the first
    [k - 1] requests of a call fail in a way the function retries (timeout,
    HTTP error, connection error), the delays after them are durations
    [time.sleep] accepts, and request [k], with [k <= max_retries], is
    answered with a status outside 400..599 and a JSON body, the call
    returns that body after exactly [k] requests; it has slept
    [backoff_factor ^ 1], ..., [backoff_factor ^ (k - 1)] seconds in between
    and does not sleep after the answer. *)
Theorem fetch_weather_returns_first_success
    (city : dict) (name lat lon : pyval) (base_url : string)
    (timeout N b k : Z) (cw : bool) (w : World) (r : Response) (data : pyval) :
  city !! "name" = Some name ->
  city !! "latitude" = Some lat ->
  city !! "longitude" = Some lon ->
  1 <= k <= N ->
  delays_ok k b ->
  (forall i req, (i < Z.to_nat (k - 1))%nat ->
                 retryable_failure (http (n_requests w + i)%nat req) = true) ->
  http (n_requests w + Z.to_nat (k - 1))%nat (city_request lat lon base_url timeout cw) = inr r ->
  (400 <=? status_code r) && (status_code r <? 600) = false ->
  body r = Some data ->
  exists w',
    fetch_weather http city base_url timeout N b cw w = (Ret data, w')
    /\ io_events w' =
       io_events w ++
       retry_schedule (city_request lat lon base_url timeout cw) N b (py_range 1 k) ++
       [EvGet (city_request lat lon base_url timeout cw)]
    /\ n_requests w' = (n_requests w + Z.to_nat k)%nat
    /\ sleeps w' = sleeps w ++ map (Z.pow b) (py_range 1 k).
Proof.
  intros Hname Hlat Hlon Hk Hb Hfail Hans Hs Hbody.
  set (req := city_request lat lon base_url timeout cw) in *.
  destruct (retry_loop_retryable http city base_url (req_params req) timeout N b name Hname
              (py_range 1 k) w) as (w1 & Hloop & Ev).
  { intros i Hi. rewrite py_range_length in Hi. apply Hfail. lia. }
  { intros a Ha Hlt. apply py_range_In in Ha. apply Hb. lia. }
  assert (Hn1 : n_requests w1 = (n_requests w + Z.to_nat (k - 1))%nat).
  { rewrite (n_requests_step _ _ _ Ev), n_requests_schedule, py_range_length. reflexivity. }
  destruct (attempt_body_success http city base_url (req_params req) timeout N b name Hname
              k w1 r data) as (w2 & Hbody2 & Ev2).
  { rewrite Hn1. exact Hans. }
  { exact Hs. }
  { exact Hbody. }
  assert (Eio : io_events w2 = io_events w ++ retry_schedule req N b (py_range 1 k) ++ [EvGet req]).
  { rewrite Ev2, Ev, <- app_assoc. reflexivity. }
  exists w2. split; [|split; [|split]].
  - rewrite (fetch_weather_unfold http city base_url timeout N b cw name lat lon Hname Hlat Hlon).
    fold req. rewrite (py_range_split 1 k (N + 1)) by lia.
    rewrite (retry_loop_app _ _ _ _ _ _ _ _ _ _ _ Hloop).
    rewrite (py_range_cons k (N + 1)) by lia.
    cbn [retry_loop]. unfold bind. rewrite Hbody2. reflexivity.
  - exact Eio.
  - rewrite (n_requests_step _ _ _ Eio), n_requests_app, n_requests_schedule, py_range_length.
    cbn. lia.
  - rewrite <- sleeps_io, Eio, !sleeps_app, sleeps_io.
    rewrite sleeps_schedule_below by (intros a Ha; apply py_range_In in Ha; lia).
    cbn. rewrite app_nil_r. reflexivity.
Qed.

Lemma retry_schedule_app req N b l1 l2 :
  retry_schedule req N b (l1 ++ l2) = retry_schedule req N b l1 ++ retry_schedule req N b l2.
Proof. unfold retry_schedule. apply flat_map_app. Qed.

Lemma retry_schedule_last req N b :
  1 <= N ->
  retry_schedule req N b (py_range 1 (N + 1)) =
  retry_schedule req N b (py_range 1 N) ++ [EvGet req].
Proof.
  intros HN. rewrite (py_range_split 1 N (N + 1)) by lia.
  rewrite retry_schedule_app. f_equal.
  rewrite (py_range_cons N (N + 1)), (py_range_nil (N + 1) (N + 1)) by lia.
  unfold retry_schedule. cbn [flat_map]. rewrite Z.ltb_irrefl. reflexivity.
Qed.

(** When the calls raise nothing but exceptions of the library, the loop
    ends either at its end, every attempt retried, or at an attempt [k]
    that returned. *)
Lemma retry_loop_shape (city : dict) (name : pyval) (base_url : string) (params : dict)
    (timeout N b : Z) (n : nat) : forall (a : Z) (w : World),
  let req := {| req_url := base_url; req_params := params; req_timeout := timeout |} in
  city !! "name" = Some name ->
  Z.to_nat (N + 1 - a) = n ->
  1 <= a ->
  (forall i, requests_only (http i req) = true) ->
  delays_ok N b ->
  exists r w',
    retry_loop http city base_url params timeout N b (py_range a (N + 1)) w = (Ret r, w')
    /\ ((r = None
         /\ io_events w' = io_events w ++ retry_schedule req N b (py_range a (N + 1)))
        \/ (exists k v, a <= k <= N /\ r = Some v
             /\ io_events w' =
                io_events w ++ retry_schedule req N b (py_range a k) ++ [EvGet req])).
Proof.
  induction n as [|n IH]; intros a w req Hname Hn Ha Hlib Hb.
  - rewrite py_range_nil by lia. exists None, w. split; [reflexivity|].
    left. split; [reflexivity|]. cbn. rewrite app_nil_r. reflexivity.
  - rewrite (py_range_cons a (N + 1)) by lia. cbn [retry_loop]. unfold bind at 1.
    destruct (outcome_cases _ (Hlib (n_requests w))) as [H|[H|(r & data & E & Hs & Hd)]].
    + destruct (attempt_body_retryable http city base_url params timeout N b name Hname a w H)
        as (w1 & H1 & E1).
      { intros Hlt. apply Hb. lia. }
      rewrite H1.
      destruct (IH (a + 1) w1 Hname ltac:(lia) ltac:(lia) Hlib Hb) as (r & w2 & H2 & Hshape).
      exists r, w2. split; [exact H2|].
      destruct Hshape as [[-> E2]|(k & v & Hk & -> & E2)].
      * left. split; [reflexivity|]. rewrite E2, E1.
        unfold retry_schedule. cbn [flat_map]. rewrite <- !app_assoc. reflexivity.
      * right. exists k, v. split; [lia|]. split; [reflexivity|].
        rewrite E2, E1. rewrite (py_range_cons a k) by lia.
        unfold retry_schedule. cbn [flat_map]. rewrite <- !app_assoc. reflexivity.
    + destruct (attempt_body_unrecoverable http city base_url params timeout N b name Hname a w H)
        as (w1 & H1 & E1).
      rewrite H1. exists (Some VNone), w1. split; [reflexivity|].
      right. exists a, VNone. split; [lia|]. split; [reflexivity|].
      rewrite (py_range_nil a a) by lia. exact E1.
    + destruct (attempt_body_success http city base_url params timeout N b name Hname a w r data
                  E Hs Hd) as (w1 & H1 & E1).
      rewrite H1. exists (Some data), w1. split; [reflexivity|].
      right. exists a, data. split; [lia|]. split; [reflexivity|].
      rewrite (py_range_nil a a) by lia. exact E1.
Qed.

Lemma fetch_weather_run_shape
    (city : dict) (name lat lon : pyval) (base_url : string)
    (timeout N b : Z) (cw : bool) (w : World) :
  city !! "name" = Some name ->
  city !! "latitude" = Some lat ->
  city !! "longitude" = Some lon ->
  (forall n req, req_timeout req = timeout -> requests_only (http n req) = true) ->
  delays_ok N b ->
  exists raw w' k,
    fetch_weather http city base_url timeout N b cw w = (Ret raw, w')
    /\ 0 <= k <= Z.max N 0
    /\ io_events w' =
       io_events w ++
       (if 0 <? k
        then retry_schedule (city_request lat lon base_url timeout cw) N b (py_range 1 k)
             ++ [EvGet (city_request lat lon base_url timeout cw)]
        else [])
    /\ n_requests w' = (n_requests w + Z.to_nat k)%nat
    /\ sleeps w' = sleeps w ++ map (Z.pow b) (py_range 1 k).
Proof.
  intros Hname Hlat Hlon Hlib Hb.
  set (req := city_request lat lon base_url timeout cw).
  rewrite (fetch_weather_unfold http city base_url timeout N b cw name lat lon Hname Hlat Hlon).
  fold req.
  destruct (retry_loop_shape city name base_url (req_params req) timeout N b
              (Z.to_nat (N + 1 - 1)) 1 w Hname eq_refl ltac:(lia)
              (fun i => Hlib i {| req_url := base_url; req_params := req_params req;
                                  req_timeout := timeout |} eq_refl) Hb)
    as (r & w1 & Hloop & Hshape).
  change {| req_url := base_url; req_params := req_params req; req_timeout := timeout |}
    with req in Hshape.
  rewrite Hloop.
  assert (Hfin : forall (raw : pyval) (w' : World) (k : Z),
            1 <= k <= N ->
            io_events w' = io_events w ++ retry_schedule req N b (py_range 1 k) ++ [EvGet req] ->
            0 <= k <= Z.max N 0
            /\ io_events w' =
               io_events w ++
               (if 0 <? k then retry_schedule req N b (py_range 1 k) ++ [EvGet req] else [])
            /\ n_requests w' = (n_requests w + Z.to_nat k)%nat
            /\ sleeps w' = sleeps w ++ map (Z.pow b) (py_range 1 k)).
  { intros raw w' k Hk Eio. split; [lia|].
    replace (0 <? k) with true by (symmetry; apply Z.ltb_lt; lia).
    split; [exact Eio|]. split.
    - rewrite (n_requests_step _ _ _ Eio), n_requests_app, n_requests_schedule, py_range_length.
      cbn. lia.
    - rewrite <- sleeps_io, Eio, !sleeps_app, sleeps_io.
      rewrite sleeps_schedule_below by (intros a Ha; apply py_range_In in Ha; lia).
      cbn. rewrite app_nil_r. reflexivity. }
  destruct Hshape as [[-> E1]|(k & v & Hk & -> & E1)].
  - destruct (Z.le_gt_cases 1 N) as [HN|HN].
    + eexists VNone, _, N. split; [reflexivity|].
      apply (Hfin VNone); [lia|].
      rewrite io_events_app. cbn [io_events List.filter]. rewrite app_nil_r.
      rewrite E1, retry_schedule_last by lia. reflexivity.
    + eexists VNone, _, 0. split; [reflexivity|].
      split; [lia|]. cbn [Z.ltb Z.compare].
      rewrite (py_range_nil 1 (N + 1)) in E1 by lia. cbn in E1. rewrite app_nil_r in E1.
      assert (Eio : io_events (w1 ++ [EvLog (LogRecord ERROR
                       "All %d attempts failed for %s – skipping." [VInt N; name])])
                    = io_events w ++ []).
      { rewrite io_events_app. cbn [io_events List.filter]. rewrite !app_nil_r. exact E1. }
      split; [exact Eio|]. split.
      * rewrite (n_requests_step _ _ _ Eio). cbn. lia.
      * rewrite <- sleeps_io, Eio, app_nil_r, sleeps_io. cbn. rewrite app_nil_r. reflexivity.
  - exists v, w1, k. split; [reflexivity|]. apply (Hfin v); [lia|exact E1].
Qed.


(** X3. A city dict that lacks one of the keys [fetch_weather] reads
    makes the call raise [KeyError] for the first missing key, in the order
    [latitude], [longitude], [name], whatever [max_retries] is; nothing is
    requested, slept or logged before. *)
Theorem fetch_weather_missing_key
    (city : dict) (key : string) (base_url : string)
    (timeout N b : Z) (cw : bool) (w : World) :
  first_missing_key city = Some key ->
  fetch_weather http city base_url timeout N b cw w = (Raise (KeyError key), w).
Proof.
  unfold first_missing_key, fetch_weather, bind, getitem.
  destruct (city !! "latitude") as [lat|]; [|intros [= <-]; reflexivity].
  destruct (city !! "longitude") as [lon|]; [|intros [= <-]; reflexivity].
  destruct (city !! "name") as [name|] eqn:Hname; [discriminate|]. intros [= <-].
  cbn [ret].
  destruct (Z.le_gt_cases 1 N) as [HN|HN].
  - rewrite (py_range_cons 1 (N + 1)) by lia. cbn [retry_loop].
    unfold bind, attempt_body, try_except, bind, getitem. rewrite ?Hname. reflexivity.
  - rewrite py_range_nil by lia. cbn [retry_loop ret]. rewrite ?Hname. reflexivity.
Qed.

(** A duration [time.sleep] does not accept is not slept. *)
Lemma time_sleep_refuses secs w :
  ~ (0 <= secs <= SLEEP_MAX) -> time_sleep secs w = (Raise (sleep_refusal secs), w).
Proof.
  intros Hbad. unfold time_sleep, sleep_refusal, SLEEP_MAX in *.
  destruct (Z.ltb_spec secs (Z.opp 9223372036)) as [H1|H1]; [reflexivity|].
  destruct (Z.ltb_spec 9223372036 secs) as [H2|H2]; [reflexivity|].
  destruct (Z.ltb_spec secs 0) as [H3|H3]; [reflexivity|].
  exfalso. apply Hbad. lia.
Qed.

(** A retried attempt whose back-off delay [time.sleep] does not accept:
    the request is made, then [time.sleep] raises. *)
Lemma attempt_body_refused_delay (city : dict) (name : pyval) (base_url : string)
    (params : dict) (timeout N b a : Z) (w : World) :
  city !! "name" = Some name ->
  let req := {| req_url := base_url; req_params := params; req_timeout := timeout |} in
  retryable_failure (http (n_requests w) req) = true ->
  a < N ->
  ~ (0 <= b ^ a <= SLEEP_MAX) ->
  exists w',
    attempt_body http city base_url params timeout N b a w
    = (Raise (sleep_refusal (b ^ a)), w')
    /\ io_events w' = io_events w ++ [EvGet req].
Proof.
  intros Hname req Hr Hlt Hbad.
  unfold attempt_body, try_except, bind, getitem, requests_get,
    logger_info, logger_warning, logger_error, emit, ret, raise.
  rewrite Hname, n_requests_app.
  cbn [n_requests List.filter is_get length]. rewrite Nat.add_0_r.
  fold req.
  destruct (http (n_requests w) req) as [[[]| | | | | | | | |]|r] eqn:E;
    cbn in Hr; try discriminate.
  4: unfold raise_for_status; rewrite Hr.
  all: cbn [dispatch isinstance raise].
  all: replace (a <? N) with true by (symmetry; apply Z.ltb_lt; exact Hlt).
  all: rewrite (time_sleep_refuses _ _ Hbad).
  all: eexists; split; [reflexivity|].
  all: rewrite ?io_events_app; cbn [io_events List.filter app];
       rewrite <- ?app_assoc, ?app_nil_r; reflexivity.
Qed.

(** The first attempt retried with a delay [time.sleep] does not accept. *)
Lemma fetch_weather_refused_delay
    (city : dict) (name lat lon : pyval) (base_url : string)
    (timeout N b : Z) (cw : bool) (w : World) :
  city !! "name" = Some name ->
  city !! "latitude" = Some lat ->
  city !! "longitude" = Some lon ->
  2 <= N ->
  ~ (0 <= b <= SLEEP_MAX) ->
  retryable_failure
    (http (n_requests w) (city_request lat lon base_url timeout cw)) = true ->
  exists w',
    fetch_weather http city base_url timeout N b cw w = (Raise (sleep_refusal b), w')
    /\ io_events w' = io_events w ++ [EvGet (city_request lat lon base_url timeout cw)]
    /\ n_requests w' = S (n_requests w)
    /\ sleeps w' = sleeps w.
Proof.
  intros Hname Hlat Hlon HN Hb Hfail.
  set (req := city_request lat lon base_url timeout cw) in *.
  destruct (attempt_body_refused_delay city name base_url (req_params req) timeout N b 1 w
              Hname Hfail ltac:(lia) ltac:(rewrite Z.pow_1_r; exact Hb)) as (w1 & H1 & E1).
  rewrite Z.pow_1_r in H1.
  change {| req_url := base_url; req_params := req_params req; req_timeout := timeout |}
    with req in E1.
  exists w1. split; [|split; [exact E1|split]].
  - rewrite (fetch_weather_unfold http city base_url timeout N b cw name lat lon Hname Hlat Hlon).
    fold req. rewrite (py_range_cons 1 (N + 1)) by lia.
    cbn [retry_loop]. unfold bind. rewrite H1. reflexivity.
  - rewrite (n_requests_step _ _ _ E1). cbn. lia.
  - rewrite <- sleeps_io, E1, sleeps_app, sleeps_io. cbn. rewrite app_nil_r. reflexivity.
Qed.

(** X4. With [max_retries >= 2] and a negative [backoff_factor], a
    first request that fails in a way the function retries is followed by
    [time.sleep] of a negative delay, and the call raises after that one
    request instead of retrying or returning [None]: [ValueError] when the
    delay is one [time.sleep] converts, [OverflowError] when it is below
    [- SLEEP_MAX]. *)
Theorem fetch_weather_negative_backoff_raises
    (city : dict) (name lat lon : pyval) (base_url : string)
    (timeout N b : Z) (cw : bool) (w : World) :
  city !! "name" = Some name ->
  city !! "latitude" = Some lat ->
  city !! "longitude" = Some lon ->
  2 <= N ->
  b < 0 ->
  retryable_failure
    (http (n_requests w) (city_request lat lon base_url timeout cw)) = true ->
  exists w',
    fetch_weather http city base_url timeout N b cw w
    = (Raise (if b <? - SLEEP_MAX then OverflowError else ValueError), w')
    /\ io_events w' = io_events w ++ [EvGet (city_request lat lon base_url timeout cw)]
    /\ n_requests w' = S (n_requests w)
    /\ sleeps w' = sleeps w.
Proof.
  intros Hname Hlat Hlon HN Hb Hfail.
  destruct (fetch_weather_refused_delay city name lat lon base_url timeout N b cw w
              Hname Hlat Hlon HN ltac:(lia) Hfail) as (w' & Hrun & Hrest).
  exists w'. split; [|exact Hrest].
  rewrite Hrun. unfold sleep_refusal, SLEEP_MAX.
  replace (9223372036 <? b) with false by (symmetry; apply Z.ltb_ge; lia).
  rewrite orb_false_r. reflexivity.
Qed.

(** X27. With [max_retries >= 2] and a [backoff_factor] above
    [SLEEP_MAX], the first delay is more than [time.sleep] can convert: a
    first request that fails in a way the function retries makes the call
    raise [OverflowError] after that one request, instead of retrying or
    returning [None]. *)
Theorem fetch_weather_delay_overflow_raises
    (city : dict) (name lat lon : pyval) (base_url : string)
    (timeout N b : Z) (cw : bool) (w : World) :
  city !! "name" = Some name ->
  city !! "latitude" = Some lat ->
  city !! "longitude" = Some lon ->
  2 <= N ->
  SLEEP_MAX < b ->
  retryable_failure
    (http (n_requests w) (city_request lat lon base_url timeout cw)) = true ->
  exists w',
    fetch_weather http city base_url timeout N b cw w = (Raise OverflowError, w')
    /\ io_events w' = io_events w ++ [EvGet (city_request lat lon base_url timeout cw)]
    /\ n_requests w' = S (n_requests w)
    /\ sleeps w' = sleeps w.
Proof.
  intros Hname Hlat Hlon HN Hb Hfail.
  destruct (fetch_weather_refused_delay city name lat lon base_url timeout N b cw w
              Hname Hlat Hlon HN ltac:(lia) Hfail) as (w' & Hrun & Hrest).
  exists w'. split; [|exact Hrest].
  rewrite Hrun. unfold sleep_refusal.
  replace (SLEEP_MAX <? b) with true by (symmetry; apply Z.ltb_lt; exact Hb).
  rewrite orb_true_r. reflexivity.
Qed.

(** A call of [requests.get] that raises an exception of none of the
    classes the handlers name: the exception leaves [fetch_weather] at the
    first attempt. *)
Lemma fetch_weather_call_raises
    (city : dict) (name lat lon : pyval) (base_url : string)
    (timeout N b : Z) (cw : bool) (w : World) (e : exn) :
  city !! "name" = Some name ->
  city !! "latitude" = Some lat ->
  city !! "longitude" = Some lon ->
  1 <= N ->
  http (n_requests w) (city_request lat lon base_url timeout cw) = inl e ->
  isinstance e CRequestException = false ->
  exists w',
    fetch_weather http city base_url timeout N b cw w = (Raise e, w')
    /\ io_events w' = io_events w ++ [EvGet (city_request lat lon base_url timeout cw)]
    /\ n_requests w' = S (n_requests w)
    /\ sleeps w' = sleeps w.
Proof.
  intros Hname Hlat Hlon HN Hcall Hcls.
  set (req := city_request lat lon base_url timeout cw) in *.
  assert (Hbody : exists w1,
            attempt_body http city base_url (req_params req) timeout N b 1 w = (Raise e, w1)
            /\ io_events w1 = io_events w ++ [EvGet req]).
  { unfold attempt_body, try_except, bind, getitem, requests_get,
      logger_info, logger_warning, logger_error, emit, ret, raise.
    rewrite Hname, n_requests_app.
    cbn [n_requests List.filter is_get length]. rewrite Nat.add_0_r.
    change {| req_url := base_url; req_params := req_params req; req_timeout := timeout |}
      with req.
    rewrite Hcall.
    destruct e as [[]| | | | | | | | |]; cbn in Hcls; try discriminate Hcls.
    all: cbn [dispatch isinstance raise].
    all: eexists; split; [reflexivity|].
    all: rewrite ?io_events_app; cbn [io_events List.filter app];
         rewrite <- ?app_assoc, ?app_nil_r; reflexivity. }
  destruct Hbody as (w1 & H1 & E1).
  exists w1. split; [|split; [exact E1|split]].
  - rewrite (fetch_weather_unfold http city base_url timeout N b cw name lat lon Hname Hlat Hlon).
    fold req. rewrite (py_range_cons 1 (N + 1)) by lia.
    cbn [retry_loop]. unfold bind. rewrite H1. reflexivity.
  - rewrite (n_requests_step _ _ _ E1). cbn. lia.
  - rewrite <- sleeps_io, E1, sleeps_app, sleeps_io. cbn. rewrite app_nil_r. reflexivity.
Qed.

(** X5. Without a [base_url] in the API configuration, [extract_all]
    raises [KeyError("base_url")] at the first city, before any request or
    log line; with no city at all the key is never read, and the call
    returns the empty list after logging its summary line. *)
Theorem extract_all_needs_base_url
    (cities : list dict) (api_config : ApiConfig) (w : World) :
  cfg_base_url api_config = None ->
  (cities <> [] ->
     extract_all http cities api_config w = (Raise (KeyError "base_url"), w))
  /\ (cities = [] ->
      extract_all http cities api_config w =
      (Ret [], w ++ [EvLog (LogRecord INFO "Extraction complete: %d/%d cities succeeded."
                             [VInt 0; VInt 0])])).
Proof.
  intros Hurl. split.
  - destruct cities as [|city rest]; [congruence|]. intros _.
    unfold extract_all, bind. cbn [extract_loop]. rewrite Hurl. reflexivity.
  - intros ->. reflexivity.
Qed.

Section Batch.
Variables (api_config : ApiConfig) (u : string).
Hypothesis Hurl : cfg_base_url api_config = Some u.
Local Abbreviation N := (default 3 (cfg_max_retries api_config)).
Local Abbreviation b := (default 2 (cfg_backoff_factor api_config)).

(** [extract_all] from the calls of [fetch_weather], when none of them
    raises. *)
Lemma extract_all_of_fetch cities w raws w' :
  Forall city_ok cities ->
  fetch_results http cities u api_config w = (raws, w') ->
  length raws = length cities ->
  extract_all http cities api_config w =
  (Ret (successes cities raws),
   w' ++ [EvLog (LogRecord INFO "Extraction complete: %d/%d cities succeeded."
                   [VInt (Z.of_nat (length (successes cities raws)));
                    VInt (Z.of_nat (length cities))])]).
Proof.
  intros Hok Hres Hlen.
  unfold extract_all, bind.
  rewrite (extract_loop_fetch http api_config u Hurl cities [] w raws w' Hok Hres Hlen).
  reflexivity.
Qed.

(** One city answered at the first request. *)
Lemma fetch_weather_first_answer (city : dict) (w : World) (r : Response) (data : pyval) :
  city_ok city ->
  1 <= N ->
  http (n_requests w) (request_of city u api_config) = inr r ->
  (400 <=? status_code r) && (status_code r <? 600) = false ->
  body r = Some data ->
  exists w',
    fetch_weather http city u (default 10 (cfg_timeout_seconds api_config)) N b
      (default true (cfg_current_weather api_config)) w = (Ret data, w')
    /\ io_events w' = io_events w ++ [EvGet (request_of city u api_config)].
Proof.
  intros ([name Hname] & [lat Hlat] & [lon Hlon]) HN Hans Hs Hbody.
  assert (Hreq : request_of city u api_config
                 = city_request lat lon u (default 10 (cfg_timeout_seconds api_config))
                     (default true (cfg_current_weather api_config))).
  { unfold request_of, dict_get. rewrite Hlat, Hlon. reflexivity. }
  rewrite Hreq in *.
  set (req := city_request lat lon u (default 10 (cfg_timeout_seconds api_config))
                (default true (cfg_current_weather api_config))) in *.
  destruct (attempt_body_success http city u (req_params req)
              (default 10 (cfg_timeout_seconds api_config)) N b name Hname 1 w r data
              Hans Hs Hbody) as (w1 & H1 & E1).
  exists w1. split; [|exact E1].
  rewrite (fetch_weather_unfold http city u _ N b _ name lat lon Hname Hlat Hlon).
  fold req. rewrite (py_range_cons 1 (N + 1)) by lia.
  cbn [retry_loop]. unfold bind. rewrite H1. reflexivity.
Qed.

Lemma fetch_results_all_answer (payload : nat -> Request -> pyval) cities : forall w,
  Forall city_ok cities ->
  1 <= N ->
  (forall k req, exists r,
     http k req = inr r
     /\ (400 <=? status_code r) && (status_code r <? 600) = false
     /\ body r = Some (payload k req)) ->
  exists w',
    fetch_results http cities u api_config w
    = (imap (fun i city => payload (n_requests w + i)%nat (request_of city u api_config)) cities,
       w')
    /\ io_events w' =
       io_events w ++ map (fun city => EvGet (request_of city u api_config)) cities.
Proof.
  induction cities as [|city rest IH]; intros w Hok HN Hans.
  - exists w. cbn. rewrite app_nil_r. auto.
  - inversion Hok as [|? ? Hcity Hrest]; subst.
    destruct (Hans (n_requests w) (request_of city u api_config)) as (r & Hr & Hs & Hb).
    destruct (fetch_weather_first_answer city w r _ Hcity HN Hr Hs Hb) as (w1 & Hrun & E1).
    destruct (IH w1 Hrest HN Hans) as (w2 & Hres & E2).
    assert (Hn : n_requests w1 = S (n_requests w)).
    { rewrite (n_requests_step _ _ _ E1). cbn. lia. }
    exists w2. cbn [fetch_results]. rewrite Hrun, Hres. split.
    + cbn [imap]. rewrite Nat.add_0_r. f_equal. f_equal.
      apply imap_ext. intros i c _. cbn. rewrite Hn. f_equal. lia.
    + rewrite E2, E1. cbn [map]. rewrite <- app_assoc. reflexivity.
Qed.

Lemma successes_all_some (f : nat -> dict -> pyval) cities : forall n,
  (forall i city, is_none (f i city) = false) ->
  successes cities (imap (fun i city => f (n + i)%nat city) cities)
  = imap (fun i city => city_pair city (f (n + i)%nat city)) cities.
Proof.
  induction cities as [|c cs IH]; intros n Hf; [reflexivity|].
  cbn [imap]. rewrite successes_cons, Hf. cbn [app]. f_equal.
  specialize (IH (S n) Hf).
  rewrite (imap_ext _ (fun i city => f (S n + i)%nat city)) by (intros; cbn; f_equal; lia).
  rewrite IH. apply imap_ext. intros i city _. cbn. do 2 f_equal. lia.
Qed.

Lemma extract_all_answered_run
    (payload : nat -> Request -> pyval) (cities : list dict) (w : World) :
  Forall city_ok cities ->
  1 <= N ->
  (forall k req, exists r,
     http k req = inr r
     /\ (400 <=? status_code r) && (status_code r <? 600) = false
     /\ body r = Some (payload k req)) ->
  (forall k req, is_none (payload k req) = false) ->
  exists w',
    extract_all http cities api_config w
    = (Ret (imap (fun i city =>
                    city_pair city (payload (n_requests w + i)%nat
                                      (request_of city u api_config))) cities),
       w')
    /\ io_events w' =
       io_events w ++ map (fun city => EvGet (request_of city u api_config)) cities
    /\ n_requests w' = (n_requests w + length cities)%nat
    /\ sleeps w' = sleeps w.
Proof.
  intros Hok HN Hans Hsome.
  destruct (fetch_results_all_answer payload cities w Hok HN Hans) as (w1 & Hres & E1).
  pose proof (extract_all_of_fetch cities w _ w1 Hok Hres ltac:(apply length_imap)) as Hrun.
  rewrite (successes_all_some (fun i city => payload i (request_of city u api_config)))
    in Hrun by (intros; apply Hsome).
  assert (Eio : io_events (w1 ++ [EvLog (LogRecord INFO
                  "Extraction complete: %d/%d cities succeeded."
                  [VInt (Z.of_nat (length (imap (fun i city =>
                      city_pair city (payload (n_requests w + i)%nat
                                        (request_of city u api_config))) cities)));
                   VInt (Z.of_nat (length cities))])])
                = io_events w ++ map (fun city => EvGet (request_of city u api_config)) cities).
  { rewrite io_events_app. cbn [io_events List.filter]. rewrite app_nil_r. exact E1. }
  eexists. split; [exact Hrun|]. split; [exact Eio|]. split.
  - rewrite (n_requests_step _ _ _ Eio). f_equal.
    clear. induction cities as [|c cs IH]; [reflexivity|]. cbn. rewrite <- IH. reflexivity.
  - rewrite <- sleeps_io, Eio, sleeps_app, sleeps_io.
    replace (sleeps (map _ cities)) with (@nil Z); [apply app_nil_r|].
    clear. induction cities as [|c cs IH]; [reflexivity|]. cbn. exact IH.
Qed.

(** X8. When every request is answered with a status outside 400..599
    and a JSON body that is not [null], [extract_all] makes exactly one
    request per city, in the order of the cities, never sleeps, and returns
    one [{"city": name, "raw": payload}] pair per city in that order, each
    with the payload answered to that city's request. *)
Theorem extract_all_every_city_answered
    (payload : nat -> Request -> pyval) (cities : list dict) (w : World) :
  Forall city_ok cities ->
  1 <= N ->
  (forall k req, exists r,
     http k req = inr r
     /\ (400 <=? status_code r) && (status_code r <? 600) = false
     /\ body r = Some (payload k req)) ->
  (forall k req, is_none (payload k req) = false) ->
  exists w',
    extract_all http cities api_config w
    = (Ret (imap (fun i city =>
                    city_pair city (payload (n_requests w + i)%nat
                                      (request_of city u api_config))) cities),
       w')
    /\ io_events w' =
       io_events w ++ map (fun city => EvGet (request_of city u api_config)) cities
    /\ n_requests w' = (n_requests w + length cities)%nat
    /\ sleeps w' = sleeps w.
Proof. apply extract_all_answered_run. Qed.

Section Delays.
Hypothesis Hdelays : delays_ok N b.

Lemma successes_all_none cities : forall n, successes cities (repeat VNone n) = [].
Proof.
  induction cities as [|c cs IH]; intros [|n]; try reflexivity.
  cbn [repeat]. rewrite successes_cons. cbn. apply IH.
Qed.

(** One city while the network is down: [N] requests, then [None]. *)
Lemma fetch_weather_all_fail (city : dict) (w : World) :
  city_ok city ->
  1 <= N ->
  (forall k req, retryable_failure (http k req) = true) ->
  exists w',
    fetch_weather http city u (default 10 (cfg_timeout_seconds api_config)) N b
      (default true (cfg_current_weather api_config)) w = (Ret VNone, w')
    /\ n_requests w' = (n_requests w + Z.to_nat N)%nat
    /\ sleeps w' = sleeps w ++ map (Z.pow b) (py_range 1 N).
Proof.
  intros ([name Hname] & [lat Hlat] & [lon Hlon]) HN Hfail.
  set (req := city_request lat lon u (default 10 (cfg_timeout_seconds api_config))
                (default true (cfg_current_weather api_config))).
  destruct (retry_loop_retryable http city u (req_params req)
              (default 10 (cfg_timeout_seconds api_config)) N b name Hname
              (py_range 1 (N + 1)) w) as (w1 & Hloop & Ev).
  { intros i Hi. apply Hfail. }
  { intros a Ha Hlt. apply py_range_In in Ha. apply Hdelays. lia. }
  eexists. split; [|split].
  - rewrite (fetch_weather_unfold http city u _ N b _ name lat lon Hname Hlat Hlon).
    fold req. rewrite Hloop. reflexivity.
  - rewrite n_requests_app. cbn [n_requests List.filter is_get length].
    rewrite (n_requests_step _ _ _ Ev), n_requests_schedule, py_range_length.
    replace (Z.to_nat (N + 1 - 1)) with (Z.to_nat N) by lia. lia.
  - rewrite sleeps_app. cbn [sleeps flat_map]. rewrite app_nil_r.
    rewrite <- sleeps_io, Ev, sleeps_app, sleeps_io, sleeps_schedule_full. reflexivity.
Qed.

Lemma fetch_results_all_fail cities : forall w,
  Forall city_ok cities ->
  1 <= N ->
  (forall k req, retryable_failure (http k req) = true) ->
  exists w',
    fetch_results http cities u api_config w = (repeat VNone (length cities), w')
    /\ n_requests w' = (n_requests w + length cities * Z.to_nat N)%nat
    /\ length (sleeps w') = (length (sleeps w) + length cities * Z.to_nat (N - 1))%nat.
Proof.
  induction cities as [|city rest IH]; intros w Hok HN Hfail.
  - exists w. cbn. split; [reflexivity|]. split; lia.
  - inversion Hok as [|? ? Hcity Hrest]; subst.
    destruct (fetch_weather_all_fail city w Hcity HN Hfail) as (w1 & Hrun & Hn & Hs).
    destruct (IH w1 Hrest HN Hfail) as (w2 & Hres & Hn2 & Hs2).
    exists w2. cbn [fetch_results length repeat]. rewrite Hrun, Hres.
    split; [reflexivity|]. split; [lia|].
    rewrite Hs2, Hs, length_app, length_map, py_range_length. lia.
Qed.

Lemma extract_all_down_run (cities : list dict) (w : World) :
  Forall city_ok cities ->
  1 <= N ->
  (forall k req, retryable_failure (http k req) = true) ->
  exists w',
    extract_all http cities api_config w = (Ret [], w')
    /\ n_requests w' = (n_requests w + length cities * Z.to_nat N)%nat
    /\ length (sleeps w') = (length (sleeps w) + length cities * Z.to_nat (N - 1))%nat.
Proof.
  intros Hok HN Hfail.
  destruct (fetch_results_all_fail cities w Hok HN Hfail) as (w1 & Hres & Hn & Hs).
  pose proof (extract_all_of_fetch cities w _ w1 Hok Hres ltac:(apply repeat_length)) as Hrun.
  rewrite successes_all_none in Hrun.
  eexists. split; [exact Hrun|].
  rewrite n_requests_app, sleeps_app, length_app. cbn. split; lia.
Qed.

Hypothesis Hlib : forall n req,
  req_timeout req = default 10 (cfg_timeout_seconds api_config) ->
  requests_only (http n req) = true.

Lemma fetch_results_bound cities : forall w raws w',
  Forall city_ok cities ->
  fetch_results http cities u api_config w = (raws, w') ->
  (n_requests w' <= n_requests w + length cities * Z.to_nat N)%nat
  /\ (length (sleeps w') <= length (sleeps w) + length cities * Z.to_nat (N - 1))%nat.
Proof.
  induction cities as [|city rest IH]; intros w raws w' Hok Hres.
  - cbn in Hres. injection Hres as <- <-. cbn. lia.
  - inversion Hok as [|? ? Hcity Hrest]; subst.
    destruct Hcity as ([name Hname] & [lat Hlat] & [lon Hlon]).
    cbn [fetch_results] in Hres.
    destruct (fetch_weather_run_shape city name lat lon u
                (default 10 (cfg_timeout_seconds api_config)) N b
                (default true (cfg_current_weather api_config)) w Hname Hlat Hlon
                Hlib Hdelays)
      as (raw & w1 & k & Hrun & Hk & _ & Hn & Hs).
    rewrite Hrun in Hres.
    destruct (fetch_results http rest u api_config w1) as [raws1 w2] eqn:Hrest1.
    injection Hres as <- <-.
    destruct (IH w1 raws1 w2 Hrest Hrest1) as [IHn IHs].
    assert (Hsl : length (sleeps w1) = (length (sleeps w) + Z.to_nat (k - 1))%nat).
    { rewrite Hs, length_app, length_map, py_range_length. reflexivity. }
    cbn [length]. split; lia.
Qed.

Lemma extract_all_bounded_run (cities : list dict) (w : World) :
  Forall city_ok cities ->
  exists out w',
    extract_all http cities api_config w = (Ret out, w')
    /\ (n_requests w' <= n_requests w + length cities * Z.to_nat N)%nat
    /\ (length (sleeps w') <= length (sleeps w) + length cities * Z.to_nat (N - 1))%nat.
Proof.
  intros Hok.
  destruct (fetch_results_total http api_config u Hlib Hdelays cities w Hok)
    as (raws & w' & Hres & Hlen).
  pose proof (extract_all_of_fetch cities w raws w' Hok Hres Hlen) as Hrun.
  destruct (fetch_results_bound cities w raws w' Hok Hres) as [Hn Hs].
  eexists _, _. split; [exact Hrun|].
  rewrite n_requests_app, sleeps_app, length_app. cbn. split; lia.
Qed.

End Delays.

End Batch.

End ExtractMoreFacts.


(** X7. When every request fails in a way that is retried and the
    back-off delays are durations [time.sleep] accepts, [extract_all]
    returns the empty list, after exactly [max_retries] requests and
    [max_retries - 1] sleeps for each city. *)
Theorem extract_all_network_down
    (http : nat -> Extract.Request -> exn + Extract.Response)
    (api_config : Extract.ApiConfig) (u : string)
    (cities : list dict) (w : Extract.World) :
  Forall Extract.city_ok cities ->
  Extract.cfg_base_url api_config = Some u ->
  1 <= default 3 (Extract.cfg_max_retries api_config) ->
  Extract.delays_ok (default 3 (Extract.cfg_max_retries api_config))
                    (default 2 (Extract.cfg_backoff_factor api_config)) ->
  (forall k req, Extract.retryable_failure (http k req) = true) ->
  exists w',
    Extract.extract_all http cities api_config w = (Ret [], w')
    /\ Extract.n_requests w'
       = (Extract.n_requests w
          + length cities * Z.to_nat (default 3%Z (Extract.cfg_max_retries api_config)))%nat
    /\ length (Extract.sleeps w')
       = (length (Extract.sleeps w)
          + length cities
            * Z.to_nat (default 3 (Extract.cfg_max_retries api_config) - 1)%Z)%nat.
Proof.
  intros Hok Hurl HN Hb Hfail.
  apply (extract_all_down_run http api_config u Hurl Hb cities w Hok HN Hfail).
Qed.



(** * Further properties of transform.py *)

Section TransformMoreFacts.
Import Transform TransformMore.

Variable now_iso : nat -> string.
Variable parse_number : string -> option (Z + Q).

Lemma parse_single_by_shape (record : dict) :
  match block_of record with
  | Some current =>
      forall w, _parse_single now_iso record w
                = (Ret (Some (row_of (city_of record) current (now_iso (clock_reads w)))),
                   tick w)
  | None =>
      if well_shaped record
      then forall w, _parse_single now_iso record w = (Ret None, logged (skip_line record) w)
      else forall w, _parse_single now_iso record w = (Raise AttributeError, w)
  end.
Proof.
  unfold block_of, well_shaped.
  destruct (dict_get record "raw" (VDict ∅)) as [| | | | | |raw] eqn:Hraw;
    try (intros w; apply parse_single_raw_non_mapping; rewrite Hraw; reflexivity).
  destruct (dict_get raw "current_weather" VNone) as [| | | | | |current] eqn:Hcur; intros w.
  - apply (parse_single_skip now_iso record raw w Hraw Hcur).
  - apply (parse_single_non_mapping now_iso record raw _ w Hraw Hcur); reflexivity.
  - apply (parse_single_non_mapping now_iso record raw _ w Hraw Hcur); reflexivity.
  - apply (parse_single_non_mapping now_iso record raw _ w Hraw Hcur); reflexivity.
  - apply (parse_single_non_mapping now_iso record raw _ w Hraw Hcur); reflexivity.
  - apply (parse_single_non_mapping now_iso record raw _ w Hraw Hcur); reflexivity.
  - apply (parse_single_mapping now_iso record raw current w Hraw Hcur).
Qed.

Lemma block_well_shaped record current :
  block_of record = Some current -> well_shaped record = true.
Proof.
  unfold block_of, well_shaped.
  destruct (dict_get record "raw" (VDict ∅)); try discriminate.
  destruct (dict_get d "current_weather" VNone); try discriminate. reflexivity.
Qed.

(** The loop over well-shaped records returns the expected rows. *)
Lemma parse_loop_expected records : forall rows w,
  forallb well_shaped records = true ->
  exists w',
    parse_loop now_iso records rows w
    = (Ret (rows ++ expected_rows now_iso (clock_reads w) records), w')
    /\ clock_reads w'
       = (clock_reads w + length (expected_rows now_iso (clock_reads w) records))%nat.
Proof.
  induction records as [|record rest IH]; intros rows w Hall.
  - exists w. cbn. rewrite app_nil_r, Nat.add_0_r. auto.
  - cbn [forallb] in Hall. apply andb_prop in Hall as [Hrec Hrest].
    pose proof (parse_single_by_shape record) as Hs.
    cbn [parse_loop expected_rows]. unfold bind.
    destruct (block_of record) as [current|].
    + rewrite Hs.
      destruct (IH (rows ++ [row_of (city_of record) current (now_iso (clock_reads w))])
                  (tick w) Hrest) as (w' & Hloop & Hclk).
      exists w'. rewrite Hloop. cbn [tick clock_reads length] in *.
      rewrite <- app_assoc. split; [reflexivity|lia].
    + rewrite Hrec in Hs. rewrite Hs.
      destruct (IH rows (logged (skip_line record) w) Hrest) as (w' & Hloop & Hclk).
      exists w'. rewrite Hloop. cbn [logged clock_reads] in *. split; [reflexivity|exact Hclk].
Qed.

(** The loop raises at the first record it cannot read. *)
Lemma parse_loop_ill_shaped records : forall rows w,
  forallb well_shaped records = false ->
  exists w', parse_loop now_iso records rows w = (Raise AttributeError, w').
Proof.
  induction records as [|record rest IH]; intros rows w Hall; [discriminate|].
  cbn [forallb] in Hall.
  pose proof (parse_single_by_shape record) as Hs.
  cbn [parse_loop]. unfold bind.
  destruct (block_of record) as [current|] eqn:Hblock.
  - rewrite (block_well_shaped _ _ Hblock) in Hall. cbn in Hall.
    rewrite Hs. apply IH. exact Hall.
  - destruct (well_shaped record).
    + cbn in Hall. rewrite Hs. apply IH. exact Hall.
    + rewrite Hs. eauto.
Qed.

Lemma expected_rows_length n records :
  length (expected_rows now_iso n records) = length (with_block records).
Proof.
  revert n. induction records as [|record rest IH]; intros n; [reflexivity|].
  unfold with_block in *. cbn [expected_rows omap list_omap].
  destruct (block_of record); cbn; rewrite ?IH; reflexivity.
Qed.

Lemma expected_rows_column n records (key : string) (f : dict * dict -> pyval) :
  (forall record current stamp,
     dict_get (row_of (city_of record) current stamp) key VNone = f (record, current)) ->
  map (fun row : dict => dict_get row key VNone) (expected_rows now_iso n records)
  = map f (with_block records).
Proof.
  intros Hf. revert n. induction records as [|record rest IH]; intros n; [reflexivity|].
  unfold with_block in *. cbn [expected_rows omap list_omap].
  destruct (block_of record); cbn [fmap option_fmap option_map map]; rewrite ?IH, ?Hf; reflexivity.
Qed.

Local Abbreviation frame_of := (Transform.frame_of parse_number).
Local Abbreviation numeric_column := (Transform.numeric_column parse_number).

Lemma frame_of_shape rows df :
  frame_of rows = Ret df ->
  rows = [] /\ df = pd.DataFrame_columns EXPECTED_COLUMNS
  \/ exists wc day,
       cast_Int64 (numeric_column rows "weathercode") = Ret wc
       /\ cast_Int64 (numeric_column rows "is_day") = Ret day
       /\ df = Transform.typed_frame parse_number rows wc day.
Proof.
  unfold Transform.frame_of. destruct rows as [|r rs].
  - intros [= <-]. left. auto.
  - destruct (cast_Int64 _) as [wc|e] eqn:Hwc; [|discriminate].
    destruct (cast_Int64 (Transform.numeric_column _ _ "is_day")) as [day|e] eqn:Hday;
      [|discriminate].
    intros [= <-]. right. exists wc, day. auto.
Qed.

Lemma frame_of_object_column rows df (name : string) :
  frame_of rows = Ret df ->
  name = "city" \/ name = "timestamp" ->
  pd.get_column df name = Some (pd.SObject (column rows name)).
Proof.
  intros Hf Hname. apply frame_of_shape in Hf as [[-> ->]|(wc & day & _ & _ & ->)];
    destruct Hname as [-> | ->]; reflexivity.
Qed.

(** What [transform] returned tells how the loop went. *)
Lemma transform_returned_rows records w df w' :
  transform now_iso parse_number records w = (Ret df, w') ->
  forallb well_shaped records = true
  /\ frame_of (expected_rows now_iso (clock_reads w) records) = Ret df
  /\ clock_reads w' = (clock_reads w + length (with_block records))%nat.
Proof.
  intros Ht. apply transform_returns in Ht as (rows & w1 & Hloop & Hf & ->).
  destruct (forallb well_shaped records) eqn:Hall.
  - destruct (parse_loop_expected records [] w Hall) as (w2 & Hloop2 & Hclk).
    rewrite Hloop in Hloop2. injection Hloop2 as -> ->.
    split; [reflexivity|]. split; [exact Hf|].
    cbn [logged clock_reads]. rewrite Hclk, expected_rows_length. reflexivity.
  - destruct (parse_loop_ill_shaped records [] w Hall) as (w2 & Hloop2).
    rewrite Hloop in Hloop2. discriminate.
Qed.

(** X9. The three outcomes of [_parse_single] and their effects.  A
    row is returned only for a record whose [current_weather] entry is a
    mapping: it is the row of that sub-block stamped with the reading of the
    clock, the clock is read once and nothing is logged.  [None] is returned
    only when there is no such sub-block: the clock is not read and the one
    line logged is the skip warning.  The only exception raised is
    [AttributeError], on a payload or sub-block without [get], and it leaves
    the state as it was: the [except (KeyError, TypeError)] clause and its
    ERROR line are never reached. *)
Theorem parse_single_effects (record : dict) (w w' : World) (r : result (option dict)) :
  _parse_single now_iso record w = (r, w') ->
  match r with
  | Ret (Some row) =>
      exists current,
        block_of record = Some current
        /\ row = row_of (city_of record) current (now_iso (clock_reads w))
        /\ clock_reads w' = S (clock_reads w)
        /\ log w' = log w
  | Ret None =>
      block_of record = None
      /\ clock_reads w' = clock_reads w
      /\ log w' = log w ++ [skip_line record]
  | Raise e =>
      e = AttributeError /\ well_shaped record = false /\ w' = w
  end.
Proof.
  intros Hrun. pose proof (parse_single_by_shape record) as Hshape.
  destruct (block_of record) as [current|] eqn:Hblock.
  - rewrite Hshape in Hrun. injection Hrun as <- <-.
    exists current. repeat split; reflexivity.
  - destruct (well_shaped record) eqn:Hws; rewrite Hshape in Hrun; injection Hrun as <- <-.
    + repeat split; reflexivity.
    + repeat split; reflexivity.
Qed.

(** X10. A frame [transform] returns has one row per record with a
    [current_weather] mapping, in the order of the input: its [city] and
    [timestamp] columns list the [city] entries (default ["unknown"]) and the
    [time] sub-fields of those records; it never has more rows than there
    were records, and the clock has been read once per row. *)
Theorem transform_rows_follow_input (records : list dict) (w w' : World) (df : pd.DataFrame) :
  transform now_iso parse_number records w = (Ret df, w') ->
  pd.len df = length (with_block records)
  /\ pd.get_column df "city"
     = Some (pd.SObject (map (fun rc : dict * dict => city_of (fst rc)) (with_block records)))
  /\ pd.get_column df "timestamp"
     = Some (pd.SObject (map (fun rc : dict * dict => dict_get (snd rc) "time" VNone)
                           (with_block records)))
  /\ (length (with_block records) <= length records)%nat
  /\ clock_reads w' = (clock_reads w + pd.len df)%nat.
Proof.
  intros Ht. apply transform_returned_rows in Ht as (_ & Hf & Hclk).
  assert (Hlen : pd.len df = length (with_block records)).
  { rewrite (frame_of_len parse_number _ _ Hf). apply expected_rows_length. }
  split; [exact Hlen|]. split; [|split; [|split]].
  - rewrite (frame_of_object_column _ _ "city" Hf) by auto. unfold column.
    rewrite (expected_rows_column _ _ "city" (fun rc => city_of (fst rc))); reflexivity.
  - rewrite (frame_of_object_column _ _ "timestamp" Hf) by auto. unfold column.
    rewrite (expected_rows_column _ _ "timestamp"
               (fun rc => dict_get (snd rc) "time" VNone)); reflexivity.
  - unfold with_block. clear. induction records as [|r rs IH]; [reflexivity|].
    cbn [omap list_omap length]. destruct (block_of r); cbn [fmap option_fmap option_map length]; lia.
  - rewrite Hlen. exact Hclk.
Qed.

Lemma is_integral_inject_Z z : pd.is_integral (inject_Z z) = true.
Proof. unfold pd.is_integral. cbn. rewrite Z.rem_1_r. reflexivity. Qed.

Lemma Q_to_Z_inject_Z z : pd.Q_to_Z (inject_Z z) = z.
Proof. unfold pd.Q_to_Z. cbn. apply Z.quot_1_r. Qed.

Lemma forallb_map_compose {A B} (f : B -> bool) (g : A -> B) (l : list A) :
  forallb f (map g l) = forallb (fun x => f (g x)) l.
Proof. induction l as [|x l IH]; [reflexivity|]. cbn. rewrite IH. reflexivity. Qed.

Lemma forallb_pointwise {A} (f g : A -> bool) (l : list A) :
  (forall x, f x = g x) -> forallb f l = forallb g l.
Proof. intros H. induction l as [|x l IH]; [reflexivity|]. cbn. rewrite H, IH. reflexivity. Qed.

Lemma no_floating_numeric_ok ns :
  existsb pd.is_floating ns = false -> forallb numeric_ok ns = true.
Proof.
  induction ns as [|n ns IH]; [reflexivity|]. cbn [existsb forallb].
  intros H. apply orb_false_elim in H as [Hn Hns].
  rewrite (IH Hns). destruct n; try discriminate; reflexivity.
Qed.

(** The cast of a converted column goes through exactly when none of its
    values is a number that is not an integer. *)
Lemma cast_to_numeric xs :
  cast_Int64 (pd.to_numeric_coerce parse_number (pd.SObject xs))
  = if forallb (code_ok parse_number) xs
    then Ret (pd.SInt64NA
                (map (fun v => numeric_to_Int64 (pd.scalar_to_numeric parse_number v)) xs))
    else Raise TypeError.
Proof.
  unfold pd.to_numeric_coerce, cast_Int64.
  set (ns := map (pd.scalar_to_numeric parse_number) xs).
  assert (Hok : forallb (code_ok parse_number) xs = forallb numeric_ok ns).
  { unfold ns. rewrite forallb_map_compose. reflexivity. }
  rewrite Hok.
  destruct (existsb pd.is_floating ns) eqn:Hfl.
  - cbn [pd.astype_Int64].
    assert (Hall : forallb (fun x : option Q => match x with
                                                | Some q => pd.is_integral q
                                                | None => true
                                                end) (map pd.as_float ns)
                   = forallb numeric_ok ns).
    { rewrite forallb_map_compose. apply forallb_pointwise. intros [z|q|b0|]; cbn;
        rewrite ?is_integral_inject_Z; reflexivity. }
    rewrite Hall. destruct (forallb numeric_ok ns) eqn:Hns; [|reflexivity].
    cbn [ret fst]. do 2 f_equal. unfold ns. rewrite !map_map.
    apply map_ext_in. intros v Hv.
    destruct (pd.scalar_to_numeric parse_number v); cbn;
      rewrite ?Q_to_Z_inject_Z; reflexivity.
  - rewrite (no_floating_numeric_ok ns Hfl).
    assert (Hnofl : forall v, In v xs ->
              pd.is_floating (pd.scalar_to_numeric parse_number v) = false).
    { intros v Hv. destruct (pd.is_floating _) eqn:Hf; [|reflexivity].
      assert (existsb pd.is_floating ns = true); [|congruence].
      apply existsb_exists. eexists. split; [|exact Hf]. unfold ns. apply in_map. exact Hv. }
    destruct (existsb pd.is_integer ns) eqn:Hint.
    + cbn [pd.astype_Int64 ret fst]. do 2 f_equal. unfold ns. rewrite !map_map.
      apply map_ext_in. intros v Hv. specialize (Hnofl v Hv).
      destruct (pd.scalar_to_numeric parse_number v); try discriminate; reflexivity.
    + assert (Hbool : forall v, In v xs ->
                exists b0, pd.scalar_to_numeric parse_number v = pd.NBool b0).
      { intros v Hv. specialize (Hnofl v Hv).
        destruct (pd.scalar_to_numeric parse_number v) as [z|q|b0|] eqn:Hsc;
          try discriminate; [|eauto].
        assert (existsb pd.is_integer ns = true); [|congruence].
        apply existsb_exists. exists (pd.NInt z). split; [|reflexivity].
        unfold ns. rewrite <- Hsc. apply in_map. exact Hv. }
      destruct ns as [|n0 ns0] eqn:Hns.
      * destruct xs; [reflexivity|discriminate].
      * rewrite <- Hns. cbn [pd.astype_Int64 ret fst]. do 2 f_equal.
        unfold ns. rewrite !map_map. apply map_ext_in. intros v Hv.
        destruct (Hbool v Hv) as [b0 ->]. reflexivity.
Qed.

Lemma codes_ok_columns records :
  forallb (codes_ok parse_number) records
  = forallb (code_ok parse_number)
      (map (fun rc : dict * dict => dict_get (snd rc) "weathercode" VNone) (with_block records))
    && forallb (code_ok parse_number)
         (map (fun rc : dict * dict => dict_get (snd rc) "is_day" VNone) (with_block records)).
Proof.
  unfold with_block. induction records as [|r rs IH]; [reflexivity|].
  cbn [forallb omap list_omap]. rewrite IH. unfold codes_ok at 1.
  destruct (block_of r) as [current|]; cbn [fmap option_fmap option_map map forallb snd].
  - destruct (code_ok parse_number (dict_get current "weathercode" VNone));
      destruct (code_ok parse_number (dict_get current "is_day" VNone));
      cbn; rewrite ?andb_false_r; reflexivity.
  - reflexivity.
Qed.

Lemma expected_column_code n records (key : string) :
  key = "weathercode" \/ key = "is_day" ->
  column (expected_rows now_iso n records) key
  = map (fun rc : dict * dict => dict_get (snd rc) key VNone) (with_block records).
Proof.
  intros Hkey. unfold column. apply expected_rows_column.
  intros record current stamp. destruct Hkey as [-> | ->]; reflexivity.
Qed.

(** How a run of [transform] ends, from the shape of the records and the
    values of their two integer fields. *)
Lemma transform_outcome records w :
  (forallb well_shaped records = false ->
     exists w', transform now_iso parse_number records w = (Raise AttributeError, w'))
  /\ (forallb well_shaped records = true ->
      forallb (codes_ok parse_number) records = false ->
      exists w', transform now_iso parse_number records w = (Raise TypeError, w'))
  /\ (forallb well_shaped records = true ->
      forallb (codes_ok parse_number) records = true ->
      exists df w', transform now_iso parse_number records w = (Ret df, w')).
Proof.
  rewrite transform_unfold. split; [|split].
  - intros Hall. destruct (parse_loop_ill_shaped records [] w Hall) as (w' & ->). eauto.
  - intros Hall Hcodes.
    destruct (parse_loop_expected records [] w Hall) as (w' & -> & _). cbn [app].
    rewrite codes_ok_columns in Hcodes.
    unfold Transform.frame_of, Transform.numeric_column.
    destruct (expected_rows now_iso (clock_reads w) records) as [|r rs] eqn:Hrows.
    + exfalso. pose proof (expected_rows_length (clock_reads w) records) as Hlen.
      rewrite Hrows in Hlen. cbn in Hlen.
      destruct (with_block records); [discriminate Hcodes|discriminate Hlen].
    + rewrite <- Hrows, !cast_to_numeric.
      rewrite !expected_column_code by auto.
      destruct (forallb _ (map (fun rc : dict * dict => dict_get (snd rc) "weathercode" VNone) _));
        [|eauto].
      cbn [andb] in Hcodes. rewrite Hcodes. eauto.
  - intros Hall Hcodes.
    destruct (parse_loop_expected records [] w Hall) as (w' & -> & _). cbn [app].
    rewrite codes_ok_columns in Hcodes. apply andb_prop in Hcodes as [Hwc Hday].
    unfold Transform.frame_of, Transform.numeric_column.
    destruct (expected_rows now_iso (clock_reads w) records) as [|r rs] eqn:Hrows; [eauto|].
    rewrite <- Hrows, !cast_to_numeric.
    rewrite !expected_column_code by auto. rewrite Hwc, Hday. eauto.
Qed.

(** X11. The outcome of [transform] is decided by the records alone.
    It raises [AttributeError] when some record has a payload that is not a
    mapping or a [current_weather] entry that is neither [None] nor a
    mapping.  Otherwise, when the five numeric sub-fields of every record
    are absent, [None], booleans or numbers of magnitude at most [2^53], it
    raises [TypeError] when some [weathercode] or [is_day] is a number that
    is not an integer, and returns a frame when none is. *)
Theorem transform_raises_exactly_when (records : list dict) (w : World) :
  (forallb well_shaped records = false ->
     exists w', transform now_iso parse_number records w = (Raise AttributeError, w'))
  /\ (forallb well_shaped records = true ->
      forallb numbers_exact records = true ->
      forallb (codes_ok parse_number) records = false ->
      exists w', transform now_iso parse_number records w = (Raise TypeError, w'))
  /\ (forallb well_shaped records = true ->
      forallb numbers_exact records = true ->
      forallb (codes_ok parse_number) records = true ->
      exists df w', transform now_iso parse_number records w = (Ret df, w')).
Proof.
  destruct (transform_outcome records w) as (Hattr & Htype & Hret).
  split; [exact Hattr|]. split.
  - intros Hall _ Hcodes. apply Htype; assumption.
  - intros Hall _ Hcodes. apply Hret; assumption.
Qed.

Lemma expected_rows_lookup records : forall n i record current,
  with_block records !! i = Some (record, current) ->
  exists stamp,
    expected_rows now_iso n records !! i = Some (row_of (city_of record) current stamp).
Proof.
  unfold with_block. induction records as [|r rs IH]; intros n i record current Hi.
  - destruct i; discriminate.
  - cbn [omap list_omap expected_rows] in *.
    destruct (block_of r) as [c|]; cbn [fmap option_fmap option_map] in Hi.
    + destruct i as [|i].
      * injection Hi as <- <-. eexists. reflexivity.
      * apply (IH (S n) i record current Hi).
    + apply (IH n i record current Hi).
Qed.

Lemma to_numeric_float_at xs i q :
  xs !! i = Some (VFloat q) ->
  series_cell (pd.SNum (pd.to_numeric_coerce parse_number (pd.SObject xs))) i
  = Some (VFloat q).
Proof.
  intros Hi. unfold pd.to_numeric_coerce.
  assert (Hn : map (pd.scalar_to_numeric parse_number) xs !! i = Some (pd.NFloat q)).
  { rewrite lookup_map, Hi. reflexivity. }
  assert (He : existsb pd.is_floating (map (pd.scalar_to_numeric parse_number) xs) = true).
  { apply existsb_exists. exists (pd.NFloat q). split; [|reflexivity].
    apply list_elem_of_In. eapply list_elem_of_lookup_2. exact Hn. }
  rewrite He. cbn [series_cell]. rewrite lookup_map, Hn. reflexivity.
Qed.

Lemma to_numeric_null_value xs i v :
  xs !! i = Some v ->
  pd.scalar_to_numeric parse_number v = pd.NNull ->
  series_cell (pd.SNum (pd.to_numeric_coerce parse_number (pd.SObject xs))) i = Some VNone.
Proof.
  intros Hi Hv. unfold pd.to_numeric_coerce.
  assert (Hn : map (pd.scalar_to_numeric parse_number) xs !! i = Some pd.NNull).
  { rewrite lookup_map, Hi. cbn. rewrite Hv. reflexivity. }
  assert (He : existsb pd.is_floating (map (pd.scalar_to_numeric parse_number) xs) = true).
  { apply existsb_exists. exists pd.NNull. split; [|reflexivity].
    apply list_elem_of_In. eapply list_elem_of_lookup_2. exact Hn. }
  rewrite He. cbn [series_cell]. rewrite lookup_map, Hn. reflexivity.
Qed.

Lemma cast_value_at xs s' i v :
  cast_Int64 (pd.to_numeric_coerce parse_number (pd.SObject xs)) = Ret s' ->
  xs !! i = Some v ->
  series_cell (pd.SNum s') i
  = Some match numeric_to_Int64 (pd.scalar_to_numeric parse_number v) with
         | Some z => VInt z
         | None => VNone
         end.
Proof.
  rewrite cast_to_numeric. destruct (forallb _ xs); [|discriminate].
  intros [= <-] Hi. cbn [series_cell]. rewrite lookup_map, Hi. reflexivity.
Qed.

(** X12. The cells of the frame [transform] returns hold the values
    of the records, when the five numeric sub-fields of every record are
    absent, [None], booleans or numbers of magnitude at most [2^53]: row [i]
    comes from the [i]-th record with a sub-block; [city] and [timestamp]
    are copied, a float sub-field stored in a float column and an integer
    [weathercode] or [is_day] are kept as they are, and a sub-field that is
    absent or [None] is a null in its column. *)
Theorem transform_keeps_values
    (records : list dict) (w w' : World) (df : pd.DataFrame)
    (i : nat) (record current : dict) :
  transform now_iso parse_number records w = (Ret df, w') ->
  forallb numbers_exact records = true ->
  with_block records !! i = Some (record, current) ->
  cell df "city" i = Some (city_of record)
  /\ cell df "timestamp" i = Some (dict_get current "time" VNone)
  /\ (forall src dst q, In (src, dst) FLOAT_FIELDS ->
        dict_get current src VNone = VFloat q -> cell df dst i = Some (VFloat q))
  /\ (forall src dst z, In (src, dst) INT_FIELDS ->
        dict_get current src VNone = VInt z -> cell df dst i = Some (VInt z))
  /\ (forall src dst, In (src, dst) (FLOAT_FIELDS ++ INT_FIELDS) ->
        pd.scalar_to_numeric parse_number (dict_get current src VNone) = pd.NNull ->
        cell df dst i = Some VNone).
Proof.
  intros Ht _ Hi. apply transform_returned_rows in Ht as (_ & Hf & _).
  destruct (expected_rows_lookup records (clock_reads w) i record current Hi) as (stamp & Hrow).
  set (rows := expected_rows now_iso (clock_reads w) records) in *.
  assert (Hcol : forall key, column rows key !! i
                             = Some (dict_get (row_of (city_of record) current stamp) key VNone)).
  { intros key. unfold column. rewrite lookup_map, Hrow. reflexivity. }
  apply frame_of_shape in Hf as [[Hnil _]|(wc & day & Hwc & Hday & ->)].
  { rewrite Hnil in Hrow. discriminate. }
  unfold cell. split; [|split; [|split; [|split]]].
  - cbn. rewrite Hcol. reflexivity.
  - cbn. rewrite Hcol. reflexivity.
  - intros src dst q Hin Hv. unfold FLOAT_FIELDS in Hin. cbn [In] in Hin.
    destruct Hin as [H|[H|[H|[]]]]; injection H as <- <-;
      cbn [pd.get_column String.eqb Ascii.eqb Bool.eqb mbind option_bind typed_frame];
      apply to_numeric_float_at; rewrite Hcol; cbn; rewrite <- Hv; reflexivity.
  - intros src dst z Hin Hv. unfold INT_FIELDS in Hin. cbn [In] in Hin.
    destruct Hin as [H|[H|[]]]; injection H as <- <-;
      cbn [pd.get_column String.eqb Ascii.eqb Bool.eqb mbind option_bind typed_frame].
    + rewrite (cast_value_at _ _ i _ Hwc (Hcol "weathercode")).
      change (dict_get (row_of (city_of record) current stamp) "weathercode" VNone)
        with (dict_get current "weathercode" VNone). rewrite Hv. reflexivity.
    + rewrite (cast_value_at _ _ i _ Hday (Hcol "is_day")).
      change (dict_get (row_of (city_of record) current stamp) "is_day" VNone)
        with (dict_get current "is_day" VNone). rewrite Hv. reflexivity.
  - intros src dst Hin Hv. unfold FLOAT_FIELDS, INT_FIELDS in Hin. cbn [In app] in Hin.
    destruct Hin as [H|[H|[H|[H|[H|[]]]]]]; injection H as <- <-;
      cbn [pd.get_column String.eqb Ascii.eqb Bool.eqb mbind option_bind typed_frame].
    + apply (to_numeric_null_value _ i _ (Hcol "temperature_c")). exact Hv.
    + apply (to_numeric_null_value _ i _ (Hcol "windspeed_kmh")). exact Hv.
    + apply (to_numeric_null_value _ i _ (Hcol "winddirection_deg")). exact Hv.
    + rewrite (cast_value_at _ _ i _ Hwc (Hcol "weathercode")).
      change (dict_get (row_of (city_of record) current stamp) "weathercode" VNone)
        with (dict_get current "weathercode" VNone). rewrite Hv. reflexivity.
    + rewrite (cast_value_at _ _ i _ Hday (Hcol "is_day")).
      change (dict_get (row_of (city_of record) current stamp) "is_day" VNone)
        with (dict_get current "is_day" VNone). rewrite Hv. reflexivity.
Qed.

End TransformMoreFacts.

(** * Further properties of load.py *)

Section LoadMoreFacts.
Import Load LoadMore.

Variable now_stamp : nat -> string.
Variable csv_text : pd.DataFrame -> string.
Variable to_sql_append : pd.DataFrame -> list dict -> exn + list dict.

Lemma mkdir_parents_free (p : Path) (w : World) :
  mkdir_free w p ->
  mkdir_parents p w
  = (Ret tt,
     {| clock_reads := clock_reads w; log := log w;
        dirs := dirs w ∪ list_to_set (ancestors p (length p));
        files := files w; dbs := dbs w |}).
Proof.
  intros Hfree. unfold mkdir_parents.
  assert (Hnone : forall l, (forall q, In q l -> In q (ancestors p (length p))) ->
            existsb (fun q => bool_decide (is_Some (files w !! q))) l = false).
  { intros l Hl. destruct (existsb _ l) eqn:He; [|reflexivity].
    apply existsb_exists in He as (q & Hq & Hfile).
    apply bool_decide_eq_true in Hfile. rewrite (Hfree q (Hl q Hq)) in Hfile.
    destruct Hfile as [x Hx]. discriminate. }
  rewrite (Hnone (firstn 1 _))
    by (intros q Hq; apply list_elem_of_In, (subseteq_take 1), list_elem_of_In, Hq).
  rewrite (Hnone (ancestors p (length p))) by auto.
  reflexivity.
Qed.

Lemma ancestors_self (p : Path) : p <> [] -> In p (ancestors p (length p)).
Proof.
  intros Hp. destruct p as [|x p]; [congruence|].
  cbn [length ancestors]. left. change (x :: firstn (length p) p = x :: p).
  rewrite firstn_all. reflexivity.
Qed.

Lemma mkdir_parents_blocked (p : Path) (w : World) :
  p <> [] ->
  is_Some (files w !! p) ->
  mkdir_parents p w = (Raise FileExistsError, w).
Proof.
  intros Hp Hfile. unfold mkdir_parents.
  assert (Hfirst : firstn 1 (ancestors p (length p)) = [p]).
  { destruct p as [|x p']; [congruence|].
    cbn [length ancestors]. cbn [firstn]. rewrite firstn_all. reflexivity. }
  rewrite Hfirst. cbn [existsb].
  rewrite (bool_decide_eq_true_2 _ Hfile). reflexivity.
Qed.

Lemma ancestors_mono (p q : Path) (n m : nat) :
  (n <= m)%nat -> In q (ancestors p n) -> In q (ancestors p m).
Proof.
  intros Hnm. induction Hnm as [|m Hnm IH]; [auto|].
  intros Hq. cbn [ancestors]. right. apply IH. exact Hq.
Qed.

Lemma parent_length (p : Path) : length (parent p) = pred (length p).
Proof.
  unfold parent. induction p as [|x p IH]; [reflexivity|].
  destruct p as [|y p']; [reflexivity|].
  change (removelast (x :: y :: p')) with (x :: removelast (y :: p')).
  cbn [length] in *. rewrite IH. reflexivity.
Qed.

Lemma ancestors_parent_below (p q : Path) (n : nat) :
  (n <= length (parent p))%nat ->
  In q (ancestors (parent p) n) -> In q (ancestors p n).
Proof.
  induction n as [|n IH]; intros Hn Hq; [exact Hq|].
  cbn [ancestors] in *. destruct Hq as [<-|Hq].
  - left. unfold parent. symmetry. apply firstn_removelast.
    rewrite parent_length in Hn. lia.
  - right. apply IH; [lia|exact Hq].
Qed.

(** The directories above a path are among those [mkdir] walks through. *)
Lemma ancestors_parent (p q : Path) :
  In q (ancestors (parent p) (length (parent p))) -> In q (ancestors p (length p)).
Proof.
  intros Hq.
  apply (ancestors_mono p q (length (parent p)) (length p)).
  - rewrite parent_length. lia.
  - apply ancestors_parent_below; [lia|exact Hq].
Qed.

Lemma mkdir_parents_blocked_above (p q : Path) (w : World) :
  files w !! p = None ->
  In q (ancestors (parent p) (length (parent p))) ->
  is_Some (files w !! q) ->
  mkdir_parents p w = (Raise NotADirectoryError, w).
Proof.
  intros Hself Hq Hfile. unfold mkdir_parents.
  assert (Hp : p <> []).
  { intros ->. cbn in Hq. exact Hq. }
  assert (Hfirst : firstn 1 (ancestors p (length p)) = [p]).
  { destruct p as [|x p']; [congruence|].
    cbn [length ancestors]. cbn [firstn]. rewrite firstn_all. reflexivity. }
  rewrite Hfirst. cbn [existsb]. rewrite Hself.
  rewrite (bool_decide_eq_false_2 (is_Some None)) by (intros [y Hy]; discriminate).
  cbn [orb].
  replace (existsb _ (ancestors p (length p))) with true; [reflexivity|].
  symmetry. apply existsb_exists. exists q. split; [apply ancestors_parent; exact Hq|].
  apply bool_decide_eq_true. exact Hfile.
Qed.

Lemma load_to_csv_run (df : pd.DataFrame) (data_dir : Path) (w : World) :
  pd.empty df = false ->
  mkdir_free w data_dir ->
  exists w',
    load_to_csv now_stamp csv_text df data_dir w
    = (Ret (Some (csv_path data_dir (now_stamp (clock_reads w)))), w')
    /\ files w' = <[csv_path data_dir (now_stamp (clock_reads w)) := csv_text df]> (files w)
    /\ (forall q, q <> csv_path data_dir (now_stamp (clock_reads w)) ->
                  files w' !! q = files w !! q)
    /\ dirs w' = dirs w ∪ list_to_set (ancestors data_dir (length data_dir))
    /\ dbs w' = dbs w
    /\ clock_reads w' = S (clock_reads w)
    /\ log w' = log w ++
         [LogRecord INFO "CSV saved: %s (%d rows)"
            [VStr (path_str (csv_path data_dir (now_stamp (clock_reads w))));
             VInt (Z.of_nat (pd.len df))]].
Proof.
  intros Hne Hfree. unfold load_to_csv. rewrite Hne.
  unfold bind. rewrite (mkdir_parents_free data_dir w Hfree).
  eexists. split; [reflexivity|]. cbn.
  split; [reflexivity|]. split; [|repeat split].
  intros q Hq. apply lookup_insert_ne. intros Heq. apply Hq. symmetry. exact Heq.
Qed.

(** X13. For a frame with rows and a directory that can be created,
    [load_to_csv] returns the path [data_dir / weather_data_<stamp>.csv]
    with the stamp read from the clock at that call, writes the serialized
    frame there and touches no other file and no database; the directory and
    its ancestors exist afterwards, the clock has been read once, and the one
    line logged names the path and the number of rows. *)
Theorem load_to_csv_writes_one_file (df : pd.DataFrame) (data_dir : Path) (w : World) :
  pd.empty df = false ->
  mkdir_free w data_dir ->
  exists w',
    load_to_csv now_stamp csv_text df data_dir w
    = (Ret (Some (csv_path data_dir (now_stamp (clock_reads w)))), w')
    /\ files w' = <[csv_path data_dir (now_stamp (clock_reads w)) := csv_text df]> (files w)
    /\ (forall q, q <> csv_path data_dir (now_stamp (clock_reads w)) ->
                  files w' !! q = files w !! q)
    /\ dirs w' = dirs w ∪ list_to_set (ancestors data_dir (length data_dir))
    /\ dbs w' = dbs w
    /\ clock_reads w' = S (clock_reads w)
    /\ log w' = log w ++
         [LogRecord INFO "CSV saved: %s (%d rows)"
            [VStr (path_str (csv_path data_dir (now_stamp (clock_reads w))));
             VInt (Z.of_nat (pd.len df))]].
Proof. apply load_to_csv_run. Qed.

(** X14. When a regular file stands where [data_dir] should be,
    [load_to_csv] of a frame with rows raises [FileExistsError] from
    [mkdir], before reading the clock, writing or logging anything. *)
Theorem load_to_csv_blocked_by_file (df : pd.DataFrame) (data_dir : Path) (w : World) :
  pd.empty df = false ->
  data_dir <> [] ->
  is_Some (files w !! data_dir) ->
  load_to_csv now_stamp csv_text df data_dir w = (Raise FileExistsError, w).
Proof.
  intros Hne Hp Hfile. unfold load_to_csv. rewrite Hne.
  unfold bind. rewrite (mkdir_parents_blocked data_dir w Hp Hfile). reflexivity.
Qed.

(** X29. When a regular file stands where one of the directories
    above [data_dir] should be, [load_to_csv] of a frame with rows raises
    [NotADirectoryError] from [mkdir], before reading the clock, writing or
    logging anything. *)
Theorem load_to_csv_blocked_above
    (df : pd.DataFrame) (data_dir q : Path) (w : World) :
  pd.empty df = false ->
  files w !! data_dir = None ->
  In q (ancestors (parent data_dir) (length (parent data_dir))) ->
  is_Some (files w !! q) ->
  load_to_csv now_stamp csv_text df data_dir w = (Raise NotADirectoryError, w).
Proof.
  intros Hne Hself Hq Hfile. unfold load_to_csv. rewrite Hne.
  unfold bind. rewrite (mkdir_parents_blocked_above data_dir q w Hself Hq Hfile).
  reflexivity.
Qed.

(** The part of [load_to_sqlite] inside [try], on the three states a
    database can be in: the table is there before the insert, created when
    missing, and holds what the engine answers, or what it held when
    [df.to_sql] raises. *)
Lemma load_to_sqlite_run (df : pd.DataFrame) (db_path : Path) (w : World) :
  pd.empty df = false ->
  mkdir_free w (parent db_path) ->
  exists w',
    load_to_sqlite to_sql_append df db_path w
    = (match to_sql_append df (table_rows w db_path) with
       | inr rows' =>
           Ret (Z.of_nat (length rows') - Z.of_nat (length (table_rows w db_path)))
       | inl e => Raise e
       end, w')
    /\ dbs w' = <[db_path := Some (rows_after (table_rows w db_path)
                                    (to_sql_append df (table_rows w db_path)))]> (dbs w)
    /\ files w' = files w
    /\ dirs w' = dirs w ∪ list_to_set (ancestors (parent db_path) (length (parent db_path)))
    /\ clock_reads w' = clock_reads w
    /\ log w' = log w ++
         match to_sql_append df (table_rows w db_path) with
         | inr rows' =>
             [sqlite_line (Z.of_nat (length rows') - Z.of_nat (length (table_rows w db_path)))
                          (Z.of_nat (length rows'))]
         | inl e => handler_lines e
         end.
Proof.
  intros Hne Hfree. unfold load_to_sqlite. rewrite Hne.
  unfold bind at 1. rewrite (mkdir_parents_free _ w Hfree).
  unfold table_rows, try_except, bind, sqlite3_connect, create_table_if_not_exists,
    select_count, to_sql, get_table, set_table, bind, ret, raise,
    logger_info, logger_error, emit, handler_lines, rows_after.
  destruct (dbs w !! db_path) as [[rows0|]|] eqn:Hdb;
    repeat (cbn -[lookup insert union list_to_set ancestors parent];
            rewrite ?Hdb, ?lookup_insert_eq);
    (destruct (to_sql_append df _) as [e|rows']; [destruct e as [[]| | | | | | | | |]|]);
    repeat (cbn -[lookup insert union list_to_set ancestors parent];
            rewrite ?Hdb, ?lookup_insert_eq);
    eexists; (split; [reflexivity|]);
    cbn -[lookup insert union list_to_set ancestors parent];
    rewrite ?insert_insert_eq, ?app_nil_r;
    repeat split; try reflexivity;
    symmetry; apply insert_id; exact Hdb.
Qed.

Lemma table_rows_insert (w w' : World) (db_path : Path) (rows : list dict) :
  dbs w' = <[db_path := Some rows]> (dbs w) -> table_rows w' db_path = rows.
Proof. intros H. unfold table_rows. rewrite H, lookup_insert_eq. reflexivity. Qed.

(** X15. When the engine accepts the insert, [load_to_sqlite] of a
    frame with rows returns the count of rows after the insert minus the
    count before it, leaves the table holding what the engine answered,
    touches no other database and no file, and logs one INFO line with that
    difference and the new total. *)
Theorem load_to_sqlite_returns_inserted
    (df : pd.DataFrame) (db_path : Path) (w : World) (rows' : list dict) :
  pd.empty df = false ->
  mkdir_free w (parent db_path) ->
  to_sql_append df (table_rows w db_path) = inr rows' ->
  exists w',
    load_to_sqlite to_sql_append df db_path w
    = (Ret (Z.of_nat (length rows') - Z.of_nat (length (table_rows w db_path))), w')
    /\ table_rows w' db_path = rows'
    /\ (forall q, q <> db_path -> dbs w' !! q = dbs w !! q)
    /\ files w' = files w
    /\ log w' = log w ++
         [sqlite_line (Z.of_nat (length rows') - Z.of_nat (length (table_rows w db_path)))
                      (Z.of_nat (length rows'))].
Proof.
  intros Hne Hfree Hsql.
  destruct (load_to_sqlite_run df db_path w Hne Hfree)
    as (w' & Hrun & Hdbs & Hfiles & _ & _ & Hlog).
  rewrite Hsql in *. cbn [rows_after] in Hdbs.
  exists w'. split; [exact Hrun|]. split; [|split; [|split]].
  - apply (table_rows_insert w w' db_path rows' Hdbs).
  - intros q Hq. rewrite Hdbs. apply lookup_insert_ne. intros Heq. apply Hq. symmetry. exact Heq.
  - exact Hfiles.
  - exact Hlog.
Qed.

(** X16. [load_to_sqlite] lets through whatever [df.to_sql] raises:
    the call raises the same exception.  Its handler logs one ERROR line
    when the exception is an [sqlite3.Error] and is not entered for any
    other, such as the [DatabaseError] pandas wraps a refused insert in:
    then nothing is logged.  Either way the database file and the table
    exist by then, the table holds the rows it held before, and no other
    database and no file is touched. *)
Theorem load_to_sqlite_reraises
    (df : pd.DataFrame) (db_path : Path) (w : World) (e : exn) :
  pd.empty df = false ->
  mkdir_free w (parent db_path) ->
  to_sql_append df (table_rows w db_path) = inl e ->
  exists w',
    load_to_sqlite to_sql_append df db_path w = (Raise e, w')
    /\ dbs w' !! db_path = Some (Some (table_rows w db_path))
    /\ (forall q, q <> db_path -> dbs w' !! q = dbs w !! q)
    /\ files w' = files w
    /\ log w' = log w ++ (if isinstance e CSqliteError then [sqlite_error_line] else []).
Proof.
  intros Hne Hfree Hsql.
  destruct (load_to_sqlite_run df db_path w Hne Hfree)
    as (w' & Hrun & Hdbs & Hfiles & _ & _ & Hlog).
  rewrite Hsql in *. cbn [rows_after] in Hdbs.
  exists w'. split; [exact Hrun|]. split; [|split; [|split]].
  - rewrite Hdbs. apply lookup_insert_eq.
  - intros q Hq. rewrite Hdbs. apply lookup_insert_ne. intros Heq. apply Hq. symmetry. exact Heq.
  - exact Hfiles.
  - exact Hlog.
Qed.

(** X17. The table a call of [load_to_sqlite] leaves is the table the
    next call starts from: [CREATE TABLE IF NOT EXISTS] does not empty it.
    When the engine accepts both inserts, the second call counts as rows
    before what the first counted as rows after, the two results add up to
    the growth of the table over both calls, the table holds what the engine
    answered last, and the second call creates no directory and no file. *)
Theorem load_to_sqlite_accumulates
    (df1 df2 : pd.DataFrame) (db_path : Path) (w : World) (rows1 rows2 : list dict) :
  pd.empty df1 = false ->
  pd.empty df2 = false ->
  mkdir_free w (parent db_path) ->
  to_sql_append df1 (table_rows w db_path) = inr rows1 ->
  to_sql_append df2 rows1 = inr rows2 ->
  exists w1 w2 n1 n2,
    load_to_sqlite to_sql_append df1 db_path w = (Ret n1, w1)
    /\ load_to_sqlite to_sql_append df2 db_path w1 = (Ret n2, w2)
    /\ n1 = Z.of_nat (length rows1) - Z.of_nat (length (table_rows w db_path))
    /\ n2 = Z.of_nat (length rows2) - Z.of_nat (length rows1)
    /\ table_rows w2 db_path = rows2
    /\ n1 + n2 = Z.of_nat (length rows2) - Z.of_nat (length (table_rows w db_path))
    /\ dirs w2 = dirs w1
    /\ files w2 = files w.
Proof.
  intros Hne1 Hne2 Hfree Hsql1 Hsql2.
  destruct (load_to_sqlite_run df1 db_path w Hne1 Hfree)
    as (w1 & Hrun1 & Hdbs1 & Hfiles1 & Hdirs1 & _ & _).
  rewrite Hsql1 in *. cbn [rows_after] in Hdbs1.
  pose proof (table_rows_insert w w1 db_path _ Hdbs1) as Ht1.
  assert (Hfree1 : mkdir_free w1 (parent db_path)).
  { intros q Hq. rewrite Hfiles1. apply Hfree. exact Hq. }
  destruct (load_to_sqlite_run df2 db_path w1 Hne2 Hfree1)
    as (w2 & Hrun2 & Hdbs2 & Hfiles2 & Hdirs2 & _ & _).
  rewrite Ht1, Hsql2 in *. cbn [rows_after] in Hdbs2.
  pose proof (table_rows_insert w1 w2 db_path _ Hdbs2) as Ht2.
  eexists w1, w2, _, _. split; [exact Hrun1|]. split; [exact Hrun2|].
  split; [reflexivity|]. split; [reflexivity|]. split; [exact Ht2|].
  split; [lia|]. split.
  - rewrite Hdirs2, Hdirs1. rewrite <- (assoc_L (∪)), (idemp_L (∪)). reflexivity.
  - rewrite Hfiles2, Hfiles1. reflexivity.
Qed.

End LoadMoreFacts.

(** * Properties of utils.py *)

Section UtilsFacts.
Import Utils.

Lemma ancestors_length (p : Load.Path) (n : nat) (q : Load.Path) :
  In q (Load.ancestors p n) -> (length q <= length p)%nat.
Proof.
  induction n as [|n IH]; [intros []|].
  cbn [Load.ancestors]. intros [<-|Hq]; [|apply IH; exact Hq].
  rewrite length_firstn. lia.
Qed.

Lemma mkdir_free_files (d d' : Load.World) (p : Load.Path) :
  (forall q, (length q <= length p)%nat -> Load.files d' !! q = Load.files d !! q) ->
  LoadMore.mkdir_free d p -> LoadMore.mkdir_free d' p.
Proof.
  intros Hsame Hfree q Hq. rewrite Hsame; [apply Hfree; exact Hq|].
  apply (ancestors_length p _ q Hq).
Qed.

Lemma lift_mkdir_free (p : Load.Path) (w : World) :
  LoadMore.mkdir_free (disk w) p ->
  lift disk set_disk (Load.mkdir_parents p) w
  = (XRet tt,
     set_disk {| Load.clock_reads := Load.clock_reads (disk w); Load.log := Load.log (disk w);
                 Load.dirs := Load.dirs (disk w)
                              ∪ list_to_set (Load.ancestors p (length p));
                 Load.files := Load.files (disk w); Load.dbs := Load.dbs (disk w) |} w).
Proof. intros Hfree. unfold lift. rewrite (mkdir_parents_free p (disk w) Hfree). reflexivity. Qed.

(** X18. [ensure_directory] returns the path it was given, with the
    directory and all its ancestors existing afterwards; it removes no
    directory, touches no file and no database, and a second call on the
    result changes nothing. *)
Theorem ensure_directory_creates_once (path : Load.Path) (w : World) :
  LoadMore.mkdir_free (disk w) path ->
  exists w',
    ensure_directory path w = (XRet path, w')
    /\ (forall q, In q (Load.ancestors path (length path)) -> q ∈ Load.dirs (disk w'))
    /\ Load.dirs (disk w) ⊆ Load.dirs (disk w')
    /\ Load.files (disk w') = Load.files (disk w)
    /\ Load.dbs (disk w') = Load.dbs (disk w)
    /\ ensure_directory path w' = (XRet path, w').
Proof.
  intros Hfree. unfold ensure_directory, xbind. rewrite (lift_mkdir_free path w Hfree).
  eexists. split; [reflexivity|]. cbn -[union list_to_set].
  split; [|split; [|split; [|split]]]; try reflexivity.
  - intros q Hq. apply elem_of_union_r, elem_of_list_to_set, list_elem_of_In. exact Hq.
  - apply union_subseteq_l.
  - rewrite lift_mkdir_free by exact Hfree.
    cbn -[union list_to_set]. unfold xret, set_disk. cbn -[union list_to_set].
    do 3 f_equal. rewrite <- (assoc_L (∪)), (idemp_L (∪)). reflexivity.
Qed.

Section SetupLogging.
Variables (log_dir : Load.Path) (log_level max_bytes backup_count : Z).

Local Abbreviation log_file := (UtilsMore.log_file log_dir).
Local Abbreviation file_handler :=
  (UtilsMore.file_handler log_dir log_level max_bytes backup_count).
Local Abbreviation console_handler := (UtilsMore.console_handler log_level).

(** With handlers in place only the directory and the level change. *)
Lemma setup_logging_configured (w : World) :
  LoadMore.mkdir_free (disk w) log_dir ->
  lg_handlers (weather_etl_logger w) <> [] ->
  exists w',
    setup_logging log_dir log_level max_bytes backup_count w
    = (XRet {| lg_level := log_level; lg_handlers := lg_handlers (weather_etl_logger w) |}, w')
    /\ weather_etl_logger w'
       = {| lg_level := log_level; lg_handlers := lg_handlers (weather_etl_logger w) |}
    /\ Load.files (disk w') = Load.files (disk w)
    /\ Load.dbs (disk w') = Load.dbs (disk w)
    /\ Load.dirs (disk w')
       = Load.dirs (disk w) ∪ list_to_set (Load.ancestors log_dir (length log_dir))
    /\ environ_config w' = environ_config w
    /\ Load.clock_reads (disk w') = Load.clock_reads (disk w).
Proof.
  intros Hfree Hh. unfold setup_logging, xbind. rewrite (lift_mkdir_free log_dir w Hfree).
  unfold logger_setLevel, getLogger.
  cbn -[union list_to_set Load.ancestors].
  destruct (lg_handlers (weather_etl_logger w)) as [|h hs]; [congruence|].
  eexists. split; [reflexivity|]. cbn -[union list_to_set Load.ancestors].
  repeat split; reflexivity.
Qed.

(** On a fresh logger the log file is opened and the two handlers are
    added. *)
Lemma setup_logging_fresh (w : World) :
  LoadMore.mkdir_free (disk w) log_dir ->
  lg_handlers (weather_etl_logger w) = [] ->
  log_file ∉ Load.dirs (disk w) ->
  exists w',
    setup_logging log_dir log_level max_bytes backup_count w
    = (XRet {| lg_level := log_level; lg_handlers := [file_handler; console_handler] |}, w')
    /\ weather_etl_logger w'
       = {| lg_level := log_level; lg_handlers := [file_handler; console_handler] |}
    /\ (forall q, q <> log_file -> Load.files (disk w') !! q = Load.files (disk w) !! q)
    /\ is_Some (Load.files (disk w') !! log_file)
    /\ Load.dbs (disk w') = Load.dbs (disk w)
    /\ Load.dirs (disk w')
       = Load.dirs (disk w) ∪ list_to_set (Load.ancestors log_dir (length log_dir))
    /\ environ_config w' = environ_config w
    /\ Load.clock_reads (disk w') = Load.clock_reads (disk w).
Proof.
  intros Hfree Hh Hnodir. unfold setup_logging, xbind.
  rewrite (lift_mkdir_free log_dir w Hfree).
  unfold logger_setLevel, getLogger.
  cbn -[union list_to_set Load.ancestors]. rewrite Hh.
  unfold open_log_file. cbn -[union list_to_set Load.ancestors].
  assert (Hnot : log_file ∉ Load.dirs (disk w)
                            ∪ list_to_set (Load.ancestors log_dir (length log_dir))).
  { intros [Hin|Hin]%elem_of_union; [exact (Hnodir Hin)|].
    apply elem_of_list_to_set, list_elem_of_In, ancestors_length in Hin.
    unfold UtilsMore.log_file in Hin. rewrite length_app in Hin. cbn in Hin. lia. }
  change (log_dir ++ ["weather_etl.log"]) with log_file.
  rewrite (bool_decide_eq_false_2 _ Hnot).
  destruct (Load.files (disk w) !! log_file) as [text|] eqn:Hfile;
    unfold logger_addHandler, getLogger, xret;
    cbn -[union list_to_set Load.ancestors UtilsMore.log_file]; rewrite ?Hh, ?Hfile;
    cbn -[union list_to_set Load.ancestors UtilsMore.log_file]; rewrite ?Hh, ?Hfile;
    (eexists; split; [reflexivity|]);
    cbn -[union list_to_set Load.ancestors UtilsMore.log_file];
    (split; [reflexivity|]); split.
  - reflexivity.
  - rewrite Hfile. repeat split; eauto.
  - intros q Hq. apply lookup_insert_ne. intros Heq. apply Hq. symmetry. exact Heq.
  - rewrite lookup_insert_eq. repeat split; eauto.
Qed.

End SetupLogging.

(** X19. On a logger without handlers, [setup_logging] installs
    exactly two, the rotating file handler on [log_dir / weather_etl.log] and
    the console handler, both at the requested level.  A second call adds no
    handler and opens no file: it only sets the level of the logger, so the
    handlers keep the level, size limit and backup count of the first call. *)
Theorem setup_logging_adds_handlers_once
    (log_dir : Load.Path) (level1 max_bytes1 backup_count1 : Z)
    (level2 max_bytes2 backup_count2 : Z) (w : World) :
  LoadMore.mkdir_free (disk w) log_dir ->
  lg_handlers (weather_etl_logger w) = [] ->
  UtilsMore.log_file log_dir ∉ Load.dirs (disk w) ->
  let handlers :=
    [UtilsMore.file_handler log_dir level1 max_bytes1 backup_count1;
     UtilsMore.console_handler level1] in
  exists w1 w2,
    setup_logging log_dir level1 max_bytes1 backup_count1 w
    = (XRet {| lg_level := level1; lg_handlers := handlers |}, w1)
    /\ setup_logging log_dir level2 max_bytes2 backup_count2 w1
       = (XRet {| lg_level := level2; lg_handlers := handlers |}, w2)
    /\ weather_etl_logger w2 = {| lg_level := level2; lg_handlers := handlers |}
    /\ Load.files (disk w2) = Load.files (disk w1)
    /\ Load.dirs (disk w2) = Load.dirs (disk w1).
Proof.
  intros Hfree Hh Hnodir handlers.
  destruct (setup_logging_fresh log_dir level1 max_bytes1 backup_count1 w Hfree Hh Hnodir)
    as (w1 & Hrun1 & Hlog1 & Hfiles1 & _ & _ & Hdirs1 & _ & _).
  assert (Hfree1 : LoadMore.mkdir_free (disk w1) log_dir).
  { apply (mkdir_free_files (disk w)); [|exact Hfree].
    intros q Hq. apply Hfiles1. intros ->.
    unfold UtilsMore.log_file in Hq. rewrite length_app in Hq. cbn in Hq. lia. }
  destruct (setup_logging_configured log_dir level2 max_bytes2 backup_count2 w1 Hfree1)
    as (w2 & Hrun2 & Hlog2 & Hfiles2 & _ & Hdirs2 & _ & _).
  { rewrite Hlog1. discriminate. }
  rewrite Hlog1 in Hrun2, Hlog2. cbn [lg_handlers] in Hrun2, Hlog2.
  exists w1, w2. split; [exact Hrun1|]. split; [exact Hrun2|]. split; [exact Hlog2|].
  split; [exact Hfiles2|].
  rewrite Hdirs2, Hdirs1. rewrite <- (assoc_L (∪)), (idemp_L (∪)). reflexivity.
Qed.

Section LoadConfig.
Variable Config : Type.
Variable yaml_safe_load : string -> option Config.
Variable default_config_path : Load.Path.

Lemma load_config_run (config_path : option Load.Path) (w : World) :
  let p := UtilsMore.resolved_path default_config_path config_path w in
  snd (load_config Config yaml_safe_load default_config_path config_path w) = w
  /\ (Load.files (disk w) !! p = None -> p ∉ Load.dirs (disk w) ->
      fst (load_config Config yaml_safe_load default_config_path config_path w)
      = XRaise (FileNotFoundError p))
  /\ (forall text, Load.files (disk w) !! p = Some text ->
      fst (load_config Config yaml_safe_load default_config_path config_path w)
      = match yaml_safe_load text with
        | Some config => XRet config
        | None => XRaise YAMLError
        end)
  /\ (forall q, config_path = Some q -> p = q)
  /\ (forall q, config_path = None -> environ_config w = Some q -> p = q)
  /\ (config_path = None -> environ_config w = None -> p = default_config_path).
Proof.
  intros p. unfold load_config. fold (UtilsMore.resolved_path default_config_path config_path w).
  fold p. unfold path_exists.
  split; [|split; [|split; [|split; [|split]]]].
  - destruct (negb _); [reflexivity|].
    destruct (Load.files (disk w) !! p); [|reflexivity].
    destruct (yaml_safe_load s); reflexivity.
  - intros Hfile Hdir. rewrite Hfile.
    rewrite (bool_decide_eq_false_2 (is_Some None)) by (intros [x Hx]; discriminate).
    rewrite (bool_decide_eq_false_2 _ Hdir). reflexivity.
  - intros text Hfile. rewrite Hfile.
    rewrite (bool_decide_eq_true_2 (is_Some (Some text))) by eauto.
    cbn. destruct (yaml_safe_load text); reflexivity.
  - intros q ->. reflexivity.
  - intros q -> Henv. unfold p, UtilsMore.resolved_path. rewrite Henv. reflexivity.
  - intros -> Henv. unfold p, UtilsMore.resolved_path. rewrite Henv. reflexivity.
Qed.

(** X20. [load_config] reads one path and changes nothing: the
    explicit argument when there is one, else the path of the environment
    variable when it is set, else the default path.  With nothing at that
    path it raises [FileNotFoundError] naming it; with a file there it
    returns what the YAML parser gives for its text, or raises the parser's
    error. *)
Theorem load_config_reads_resolved_path (config_path : option Load.Path) (w : World) :
  let p := UtilsMore.resolved_path default_config_path config_path w in
  snd (load_config Config yaml_safe_load default_config_path config_path w) = w
  /\ (Load.files (disk w) !! p = None -> p ∉ Load.dirs (disk w) ->
      fst (load_config Config yaml_safe_load default_config_path config_path w)
      = XRaise (FileNotFoundError p))
  /\ (forall text, Load.files (disk w) !! p = Some text ->
      fst (load_config Config yaml_safe_load default_config_path config_path w)
      = match yaml_safe_load text with
        | Some config => XRet config
        | None => XRaise YAMLError
        end)
  /\ (forall q, config_path = Some q -> p = q)
  /\ (forall q, config_path = None -> environ_config w = Some q -> p = q)
  /\ (config_path = None -> environ_config w = None -> p = default_config_path).
Proof. apply load_config_run. Qed.

(** With handlers or without, [setup_logging] goes through when the log
    directory can be made and the log file opened, and touches no data. *)
Lemma setup_logging_ok (log_dir : Load.Path) (log_level max_bytes backup_count : Z)
    (w : World) :
  LoadMore.mkdir_free (disk w) log_dir ->
  lg_handlers (weather_etl_logger w) <> []
  \/ UtilsMore.log_file log_dir ∉ Load.dirs (disk w) ->
  exists logger w',
    setup_logging log_dir log_level max_bytes backup_count w = (XRet logger, w')
    /\ Load.dbs (disk w') = Load.dbs (disk w)
    /\ (forall q, q <> UtilsMore.log_file log_dir ->
                  Load.files (disk w') !! q = Load.files (disk w) !! q)
    /\ lg_handlers (weather_etl_logger w') <> []
    /\ Load.clock_reads (disk w') = Load.clock_reads (disk w).
Proof.
  intros Hfree Hcase.
  destruct (lg_handlers (weather_etl_logger w)) as [|h hs] eqn:Hh.
  - destruct Hcase as [Hne|Hnodir]; [congruence|].
    destruct (setup_logging_fresh log_dir log_level max_bytes backup_count w Hfree Hh Hnodir)
      as (w' & Hrun & Hlog & Hfiles & _ & Hdbs & _ & _ & Hclk).
    eexists _, w'. split; [exact Hrun|]. split; [exact Hdbs|]. split; [exact Hfiles|].
    split; [|exact Hclk]. rewrite Hlog. discriminate.
  - destruct (setup_logging_configured log_dir log_level max_bytes backup_count w Hfree)
      as (w' & Hrun & Hlog & Hfiles & Hdbs & _ & _ & Hclk).
    { rewrite Hh. discriminate. }
    eexists _, w'. split; [exact Hrun|]. split; [exact Hdbs|].
    split; [intros q _; rewrite Hfiles; reflexivity|].
    split; [|exact Hclk]. rewrite Hlog, Hh. discriminate.
Qed.

End LoadConfig.

End UtilsFacts.

(** * Properties of main.py *)

Section MainFacts.
Import Utils Main MainMore.

Variable http : nat -> Extract.Request -> exn + Extract.Response.
Variable now_iso : nat -> string.
Variable parse_number : string -> option (Z + Q).
Variable now_stamp : nat -> string.
Variable csv_text : pd.DataFrame -> string.
Variable to_sql_append : pd.DataFrame -> list dict -> exn + list dict.
Variable yaml_safe_load : string -> option Config.
Variable default_config_path : Load.Path.

Local Abbreviation run_pipeline :=
  (Main.run_pipeline http now_iso parse_number now_stamp csv_text to_sql_append
     yaml_safe_load default_config_path).
Local Abbreviation starts_with := (MainMore.starts_with yaml_safe_load default_config_path).
Local Abbreviation stages :=
  (MainMore.stages http now_iso parse_number now_stamp csv_text to_sql_append).
Local Abbreviation load_phase := (MainMore.load_phase now_stamp csv_text to_sql_append).

(** The prologue of a run: the configuration is read, the logger set up,
    the opening lines logged; the stages then run on a state whose network,
    normalizer state and data are those of the start. *)
Lemma run_pipeline_prologue (config_path : option Load.Path) (config : Config) (w : World) :
  starts_with config_path config w ->
  exists s1,
    run_pipeline config_path w
    = stages config {| net := net w; norm := norm w; sys := s1;
                       app_log := app_log w ++ opening_lines |}
    /\ Load.dbs (disk s1) = Load.dbs (disk (sys w))
    /\ (forall q, q <> UtilsMore.log_file (log_dir_of config) ->
                  Load.files (disk s1) !! q = Load.files (disk (sys w)) !! q)
    /\ Load.clock_reads (disk s1) = Load.clock_reads (disk (sys w)).
Proof.
  intros ((text & Hfile & Hyaml) & Hfree & Hlog).
  destruct (load_config_run Config yaml_safe_load default_config_path config_path (sys w))
    as (Hstate & _ & Hread & _).
  specialize (Hread text Hfile). rewrite Hyaml in Hread.
  destruct (setup_logging_ok (log_dir_of config) logging_INFO DEFAULT_MAX_BYTES
              DEFAULT_BACKUP_COUNT (sys w) Hfree Hlog)
    as (logger & s1 & Hsetup & Hdbs & Hfiles & _ & Hclk).
  exists s1. split; [|split; [exact Hdbs|split; [exact Hfiles|exact Hclk]]].
  unfold Main.run_pipeline, xbind at 1, on_sys at 1.
  destruct (load_config Config yaml_safe_load default_config_path config_path (sys w))
    as [r s0]. cbn in Hstate, Hread. subst r s0.
  unfold xbind at 1, on_sys at 1. cbn [sys set_sys].
  change (default ["logs"] (log_dir (default no_paths (paths config))))
    with (log_dir_of config).
  rewrite Hsetup.
  unfold xbind at 1. unfold logger_info at 1, emit. cbn [net norm sys app_log set_sys].
  unfold xbind at 1. unfold logger_info at 1, emit. cbn [net norm sys app_log set_sys].
  unfold xbind at 1. unfold logger_info at 1, emit. cbn [net norm sys app_log set_sys].
  unfold opening_lines. rewrite <- !app_assoc. reflexivity.
Qed.

(** X21. With no configuration file at the resolved path,
    [run_pipeline] raises [FileNotFoundError] before anything else happens:
    no logger is set up, no line logged, no request made, nothing written. *)
Theorem run_pipeline_missing_config (config_path : option Load.Path) (w : World) :
  let p := UtilsMore.resolved_path default_config_path config_path (sys w) in
  Load.files (disk (sys w)) !! p = None ->
  p ∉ Load.dirs (disk (sys w)) ->
  run_pipeline config_path w = (XRaise (FileNotFoundError p), w).
Proof.
  intros p Hfile Hdir. unfold Main.run_pipeline, xbind, on_sys.
  destruct (load_config_run Config yaml_safe_load default_config_path
              config_path (sys w)) as (Hstate & Hmissing & _).
  specialize (Hmissing Hfile Hdir).
  destruct (load_config Config yaml_safe_load default_config_path config_path (sys w))
    as [r s'].
  cbn in Hstate, Hmissing. subst r s'. unfold set_sys. destruct w; reflexivity.
Qed.

(** X22. With a configuration that has no cities (the key absent or
    the list empty), a run logs its three opening lines and one ERROR line
    and returns normally: no request is made, the transform stage is not
    entered, and the databases and every file but the log file are as
    before. *)
Theorem run_pipeline_without_cities
    (config_path : option Load.Path) (config : Config) (w : World) :
  starts_with config_path config w ->
  cities_of config = [] ->
  exists w',
    run_pipeline config_path w = (XRet tt, w')
    /\ net w' = net w
    /\ norm w' = norm w
    /\ same_data (UtilsMore.log_file (log_dir_of config)) w w'
    /\ app_log w' = app_log w ++ opening_lines ++
         [LogRecord ERROR "No cities defined in configuration – aborting." []].
Proof.
  intros Hstart Hcities.
  destruct (run_pipeline_prologue config_path config w Hstart)
    as (s1 & Hrun & Hdbs & Hfiles & _).
  rewrite Hrun. unfold MainMore.stages. rewrite Hcities.
  eexists. split; [reflexivity|]. cbn.
  split; [reflexivity|]. split; [reflexivity|]. split.
  - split; [exact Hdbs|exact Hfiles].
  - rewrite <- app_assoc. reflexivity.
Qed.

(** The extract phase inside a run: whatever [extract_all] returns on the
    network of the start is what the run goes on with. *)
Lemma stages_after_extract (config : Config) (w1 : World)
    (raws : list pyval) (n' : Extract.World) :
  cities_of config <> [] ->
  Extract.extract_all http (cities_of config) (api_of config) (net w1) = (Ret raws, n') ->
  stages config w1
  = match raws with
    | [] => logger_warning "No data extracted – pipeline ending early." []
    | _ =>
        _ <-- logger_info "PHASE 2 / 3 — Transform" [];;
        df <-- lift norm set_norm
                 (Transform.transform now_iso parse_number (as_records raws));;
        if pd.empty df then
          logger_warning "Transformation resulted in empty data – skipping load." []
        else load_phase config df
    end {| net := n'; norm := norm w1; sys := sys w1;
           app_log := app_log w1 ++ [LogRecord INFO "PHASE 1 / 3 — Extract" []] |}.
Proof.
  intros Hcities Hex. unfold MainMore.stages.
  destruct (cities_of config) as [|c cs] eqn:Hc; [congruence|].
  unfold xbind at 1. unfold logger_info at 1, emit.
  unfold xbind at 1, lift at 1. cbn [net norm sys app_log set_net].
  rewrite Hex. reflexivity.
Qed.

Lemma extract_all_nil (api_config : Extract.ApiConfig) (w : Extract.World) :
  fst (Extract.extract_all http [] api_config w) = Ret [].
Proof. reflexivity. Qed.

(** X23. When every request fails in a way that is retried and the
    back-off delays are durations [time.sleep] accepts, a run makes
    [max_retries] requests per city, logs the early-ending WARNING after the
    extract phase line and returns normally; the transform stage is not
    entered, and the databases and every file but the log file are as
    before. *)
Theorem run_pipeline_network_down
    (config_path : option Load.Path) (config : Config) (u : string) (w : World) :
  starts_with config_path config w ->
  cities_of config <> [] ->
  Forall Extract.city_ok (cities_of config) ->
  Extract.cfg_base_url (api_of config) = Some u ->
  1 <= default 3 (Extract.cfg_max_retries (api_of config)) ->
  Extract.delays_ok (default 3 (Extract.cfg_max_retries (api_of config)))
                    (default 2 (Extract.cfg_backoff_factor (api_of config))) ->
  (forall k req, Extract.retryable_failure (http k req) = true) ->
  exists w',
    run_pipeline config_path w = (XRet tt, w')
    /\ Extract.n_requests (net w')
       = (Extract.n_requests (net w)
          + length (cities_of config)
            * Z.to_nat (default 3%Z (Extract.cfg_max_retries (api_of config))))%nat
    /\ norm w' = norm w
    /\ same_data (UtilsMore.log_file (log_dir_of config)) w w'
    /\ app_log w' = app_log w ++ opening_lines ++
         [LogRecord INFO "PHASE 1 / 3 — Extract" [];
          LogRecord WARNING "No data extracted – pipeline ending early." []].
Proof.
  intros Hstart Hcities Hok Hurl HN Hb Hdown.
  destruct (run_pipeline_prologue config_path config w Hstart)
    as (s1 & Hrun & Hdbs & Hfiles & _).
  destruct (extract_all_down_run http (api_of config) u Hurl Hb (cities_of config) (net w)
              Hok HN Hdown) as (n' & Hex & Hn & _).
  rewrite Hrun.
  rewrite (stages_after_extract config
             {| net := net w; norm := norm w; sys := s1;
                app_log := app_log w ++ opening_lines |} [] n' Hcities Hex).
  eexists. split; [reflexivity|]. cbn.
  split; [exact Hn|]. split; [reflexivity|]. split.
  - split; [exact Hdbs|exact Hfiles].
  - rewrite <- !app_assoc. reflexivity.
Qed.

(** X24. [run_pipeline] catches nothing: when the extract phase
    returns records on which [transform] raises, the run raises the same
    error, with the requests made and with the databases and every file but
    the log file as before. *)
Theorem run_pipeline_propagates_transform_error
    (config_path : option Load.Path) (config : Config) (w : World)
    (raws : list pyval) (n' : Extract.World) (e : exn) (t' : Transform.World) :
  starts_with config_path config w ->
  Extract.extract_all http (cities_of config) (api_of config) (net w) = (Ret raws, n') ->
  raws <> [] ->
  Transform.transform now_iso parse_number (as_records raws) (norm w) = (Raise e, t') ->
  exists w',
    run_pipeline config_path w = (XRaise (Stage e), w')
    /\ net w' = n'
    /\ norm w' = t'
    /\ same_data (UtilsMore.log_file (log_dir_of config)) w w'.
Proof.
  intros Hstart Hex Hraws Htr.
  assert (Hcities : cities_of config <> []).
  { intros Hnil. rewrite Hnil in Hex.
    pose proof (extract_all_nil (api_of config) (net w)) as H0.
    rewrite Hex in H0. cbn in H0. congruence. }
  destruct (run_pipeline_prologue config_path config w Hstart)
    as (s1 & Hrun & Hdbs & Hfiles & _).
  rewrite Hrun.
  rewrite (stages_after_extract config
             {| net := net w; norm := norm w; sys := s1;
                app_log := app_log w ++ opening_lines |} raws n' Hcities Hex).
  destruct raws as [|r rs]; [congruence|].
  unfold xbind at 1. unfold logger_info at 1, emit.
  unfold xbind at 1, lift at 1. cbn [net norm sys app_log set_norm]. rewrite Htr.
  eexists. split; [reflexivity|]. cbn.
  split; [reflexivity|]. split; [reflexivity|]. split; [exact Hdbs|exact Hfiles].
Qed.

(** The load phase inside a run: the CSV file is written, then the insert
    is attempted, and the run ends as the insert does. *)
Lemma load_phase_run (config : Config) (df : pd.DataFrame) (w1 : World) :
  let d := disk (sys w1) in
  let csv := LoadMore.csv_path (data_dir_of config) (now_stamp (Load.clock_reads d)) in
  let rows0 := LoadMore.table_rows d (db_path_of config) in
  pd.empty df = false ->
  LoadMore.mkdir_free d (data_dir_of config) ->
  LoadMore.mkdir_free d (Load.parent (db_path_of config)) ->
  LoadMore.clear_of csv (Load.parent (db_path_of config)) ->
  exists w',
    load_phase config df w1
    = (match to_sql_append df rows0 with
       | inr _ => XRet tt
       | inl e => XRaise (Stage e)
       end, w')
    /\ Load.files (disk (sys w')) = <[csv := csv_text df]> (Load.files d)
    /\ Load.dbs (disk (sys w'))
       = <[db_path_of config := Some (LoadMore.rows_after rows0 (to_sql_append df rows0))]> (Load.dbs d)
    /\ net w' = net w1
    /\ norm w' = norm w1
    /\ app_log w' = app_log w1 ++ LogRecord INFO "PHASE 3 / 3 — Load" [] ::
         match to_sql_append df rows0 with
         | inr rows' =>
             closing_lines csv (Z.of_nat (length rows') - Z.of_nat (length rows0))
         | inl _ => []
         end.
Proof.
  intros d csv rows0 Hne Hdata Hdb Hclear.
  destruct (load_to_csv_run now_stamp csv_text df (data_dir_of config) d Hne Hdata)
    as (d1 & Hcsv & Hfiles1 & Hother1 & _ & Hdbs1 & _ & _).
  assert (Hdb1 : LoadMore.mkdir_free d1 (Load.parent (db_path_of config))).
  { intros q Hq. rewrite Hother1; [apply Hdb; exact Hq|].
    intros ->. apply Hclear. exact Hq. }
  destruct (load_to_sqlite_run to_sql_append df (db_path_of config) d1 Hne Hdb1)
    as (d2 & Hsql & Hdbs2 & Hfiles2 & _ & _ & _).
  assert (Hrows : LoadMore.table_rows d1 (db_path_of config) = rows0).
  { unfold rows0, LoadMore.table_rows. rewrite Hdbs1. reflexivity. }
  rewrite Hrows in Hsql, Hdbs2.
  unfold MainMore.load_phase.
  unfold xbind at 1. unfold logger_info at 1, emit.
  unfold xbind at 1, lift at 1. cbn [net norm sys app_log disk]. fold d. rewrite Hcsv.
  unfold xbind at 1, lift at 1. cbn [net norm sys app_log disk set_load set_sys set_disk].
  rewrite Hsql.
  destruct (to_sql_append df rows0) as [e|rows'];
    (eexists; split; [reflexivity|]); cbn;
    rewrite Hfiles2, Hfiles1, Hdbs2, Hdbs1; repeat split;
    unfold closing_lines; rewrite <- ?app_assoc; reflexivity.
Qed.

(** A run whose extract and transform phases return: the prologue and the
    two phases leave the load phase the disk of the start but for the log
    file. *)
Lemma run_pipeline_to_load
    (config_path : option Load.Path) (config : Config) (w : World)
    (raws : list pyval) (n' : Extract.World) (df : pd.DataFrame) (t' : Transform.World) :
  starts_with config_path config w ->
  Extract.extract_all http (cities_of config) (api_of config) (net w) = (Ret raws, n') ->
  raws <> [] ->
  Transform.transform now_iso parse_number (as_records raws) (norm w) = (Ret df, t') ->
  pd.empty df = false ->
  exists s1,
    run_pipeline config_path w
    = load_phase config df
        {| net := n'; norm := t'; sys := s1;
           app_log := app_log w ++ opening_lines ++
             [LogRecord INFO "PHASE 1 / 3 — Extract" [];
              LogRecord INFO "PHASE 2 / 3 — Transform" []] |}
    /\ Load.dbs (disk s1) = Load.dbs (disk (sys w))
    /\ (forall q, q <> UtilsMore.log_file (log_dir_of config) ->
                  Load.files (disk s1) !! q = Load.files (disk (sys w)) !! q)
    /\ Load.clock_reads (disk s1) = Load.clock_reads (disk (sys w)).
Proof.
  intros Hstart Hex Hraws Htr Hne.
  assert (Hcities : cities_of config <> []).
  { intros Hnil. rewrite Hnil in Hex.
    pose proof (extract_all_nil (api_of config) (net w)) as H0.
    rewrite Hex in H0. cbn in H0. congruence. }
  destruct (run_pipeline_prologue config_path config w Hstart)
    as (s1 & Hrun & Hdbs & Hfiles & Hclk).
  exists s1. split; [|split; [exact Hdbs|split; [exact Hfiles|exact Hclk]]].
  rewrite Hrun.
  rewrite (stages_after_extract config
             {| net := net w; norm := norm w; sys := s1;
                app_log := app_log w ++ opening_lines |} raws n' Hcities Hex).
  destruct raws as [|r rs]; [congruence|].
  unfold xbind at 1. unfold logger_info at 1, emit.
  unfold xbind at 1, lift at 1. cbn [net norm sys app_log set_norm]. rewrite Htr.
  rewrite Hne. cbn [net norm sys app_log set_norm]. rewrite <- !app_assoc. reflexivity.
Qed.

(** What the load phase of a run does to the disk of the start. *)
Lemma run_pipeline_load_run
    (config_path : option Load.Path) (config : Config) (w : World)
    (raws : list pyval) (n' : Extract.World) (df : pd.DataFrame) (t' : Transform.World) :
  let d := disk (sys w) in
  let log_file := UtilsMore.log_file (log_dir_of config) in
  let csv := LoadMore.csv_path (data_dir_of config) (now_stamp (Load.clock_reads d)) in
  let rows0 := LoadMore.table_rows d (db_path_of config) in
  starts_with config_path config w ->
  Extract.extract_all http (cities_of config) (api_of config) (net w) = (Ret raws, n') ->
  raws <> [] ->
  Transform.transform now_iso parse_number (as_records raws) (norm w) = (Ret df, t') ->
  pd.empty df = false ->
  LoadMore.mkdir_free d (data_dir_of config) ->
  LoadMore.mkdir_free d (Load.parent (db_path_of config)) ->
  LoadMore.clear_of log_file (data_dir_of config) ->
  LoadMore.clear_of log_file (Load.parent (db_path_of config)) ->
  LoadMore.clear_of csv (Load.parent (db_path_of config)) ->
  exists w',
    run_pipeline config_path w
    = (match to_sql_append df rows0 with
       | inr _ => XRet tt
       | inl e => XRaise (Stage e)
       end, w')
    /\ Load.files (disk (sys w')) !! csv = Some (csv_text df)
    /\ LoadMore.table_rows (disk (sys w')) (db_path_of config)
       = LoadMore.rows_after rows0 (to_sql_append df rows0)
    /\ (forall q, q <> db_path_of config ->
          Load.dbs (disk (sys w')) !! q = Load.dbs d !! q)
    /\ (forall q, q <> csv -> q <> log_file ->
          Load.files (disk (sys w')) !! q = Load.files d !! q)
    /\ net w' = n'
    /\ norm w' = t'
    /\ app_log w' = app_log w ++ opening_lines ++
         [LogRecord INFO "PHASE 1 / 3 — Extract" [];
          LogRecord INFO "PHASE 2 / 3 — Transform" [];
          LogRecord INFO "PHASE 3 / 3 — Load" []] ++
         match to_sql_append df rows0 with
         | inr rows' =>
             closing_lines csv (Z.of_nat (length rows') - Z.of_nat (length rows0))
         | inl _ => []
         end.
Proof.
  intros d log_file csv rows0 Hstart Hex Hraws Htr Hne Hdata Hdb Hlog1 Hlog2 Hclear.
  destruct (run_pipeline_to_load config_path config w raws n' df t' Hstart Hex Hraws Htr Hne)
    as (s1 & Hrun & Hdbs & Hfiles & Hclk).
  assert (Hfree : forall p, LoadMore.mkdir_free d p -> LoadMore.clear_of log_file p ->
                            LoadMore.mkdir_free (disk s1) p).
  { intros p Hp Hclr q Hq. rewrite Hfiles; [apply Hp; exact Hq|].
    intros ->. apply Hclr. exact Hq. }
  destruct (load_phase_run config df
              {| net := n'; norm := t'; sys := s1;
                 app_log := app_log w ++ opening_lines ++
                   [LogRecord INFO "PHASE 1 / 3 — Extract" [];
                    LogRecord INFO "PHASE 2 / 3 — Transform" []] |})
    as (w' & Hload & Hf & Hd & Hn & Ht & Hl); cbn [sys net norm app_log];
    [exact Hne|apply Hfree; assumption|apply Hfree; assumption
    |rewrite Hclk; exact Hclear|].
  cbn [sys net norm app_log] in Hload, Hf, Hd, Hn, Ht, Hl.
  rewrite ?Hclk in Hf, Hl.
  assert (Hrows : LoadMore.table_rows (disk s1) (db_path_of config) = rows0).
  { unfold rows0, LoadMore.table_rows. rewrite Hdbs. reflexivity. }
  rewrite Hrows in Hload, Hd, Hl.
  exists w'. rewrite Hrun. split; [exact Hload|].
  split; [rewrite Hf; apply lookup_insert_eq|].
  split; [unfold LoadMore.table_rows; rewrite Hd, lookup_insert_eq; reflexivity|].
  split; [intros q Hq; rewrite Hd, lookup_insert_ne, Hdbs by (intros E; apply Hq; symmetry; exact E); reflexivity|].
  split; [intros q Hq1 Hq2; rewrite Hf, lookup_insert_ne by (intros E; apply Hq1; symmetry; exact E); apply Hfiles; exact Hq2|].
  split; [exact Hn|]. split; [exact Ht|].
  rewrite Hl. rewrite <- !app_assoc. reflexivity.
Qed.

(** X25. A run whose three phases go through.  When the extract
    phase returns records, [transform] returns a frame with rows, the data
    and database directories can be created and the engine accepts the
    insert, the run returns normally, the CSV file named after the clock
    reading holds the serialized frame, the table holds what the engine
    answered, no other database and no other file but the log file changes,
    and the closing line reports that CSV path and the difference of the row
    counts. *)
Theorem run_pipeline_complete_run
    (config_path : option Load.Path) (config : Config) (w : World)
    (raws : list pyval) (n' : Extract.World) (df : pd.DataFrame) (t' : Transform.World)
    (rows' : list dict) :
  let d := disk (sys w) in
  let log_file := UtilsMore.log_file (log_dir_of config) in
  let csv := LoadMore.csv_path (data_dir_of config) (now_stamp (Load.clock_reads d)) in
  let rows0 := LoadMore.table_rows d (db_path_of config) in
  starts_with config_path config w ->
  Extract.extract_all http (cities_of config) (api_of config) (net w) = (Ret raws, n') ->
  raws <> [] ->
  Transform.transform now_iso parse_number (as_records raws) (norm w) = (Ret df, t') ->
  pd.empty df = false ->
  LoadMore.mkdir_free d (data_dir_of config) ->
  LoadMore.mkdir_free d (Load.parent (db_path_of config)) ->
  LoadMore.clear_of log_file (data_dir_of config) ->
  LoadMore.clear_of log_file (Load.parent (db_path_of config)) ->
  LoadMore.clear_of csv (Load.parent (db_path_of config)) ->
  to_sql_append df rows0 = inr rows' ->
  exists w',
    run_pipeline config_path w = (XRet tt, w')
    /\ Load.files (disk (sys w')) !! csv = Some (csv_text df)
    /\ LoadMore.table_rows (disk (sys w')) (db_path_of config) = rows'
    /\ (forall q, q <> db_path_of config ->
          Load.dbs (disk (sys w')) !! q = Load.dbs d !! q)
    /\ (forall q, q <> csv -> q <> log_file ->
          Load.files (disk (sys w')) !! q = Load.files d !! q)
    /\ net w' = n'
    /\ norm w' = t'
    /\ app_log w' = app_log w ++ opening_lines ++
         [LogRecord INFO "PHASE 1 / 3 — Extract" [];
          LogRecord INFO "PHASE 2 / 3 — Transform" [];
          LogRecord INFO "PHASE 3 / 3 — Load" []] ++
         closing_lines csv (Z.of_nat (length rows') - Z.of_nat (length rows0)).
Proof.
  intros d log_file csv rows0 Hstart Hex Hraws Htr Hne Hdata Hdb Hlog1 Hlog2 Hclear Hsql.
  destruct (run_pipeline_load_run config_path config w raws n' df t'
              Hstart Hex Hraws Htr Hne Hdata Hdb Hlog1 Hlog2 Hclear)
    as (w' & Hrun & Hcsv & Hrows & Hdbs & Hfiles & Hn & Ht & Hl).
  fold d rows0 in Hrun, Hrows, Hl. rewrite Hsql in Hrun, Hrows, Hl.
  exists w'. repeat (split; [assumption|]). exact Hl.
Qed.

(** X26. The CSV file is written before the insert is attempted and
    is not removed when it fails: when [df.to_sql] raises, the run raises
    the same exception, the CSV file of that run is on disk, the table holds
    the rows it held before, and the last line of the application log is the
    load phase line, the closing lines never being logged. *)
Theorem run_pipeline_refused_insert
    (config_path : option Load.Path) (config : Config) (w : World)
    (raws : list pyval) (n' : Extract.World) (df : pd.DataFrame) (t' : Transform.World)
    (e : exn) :
  let d := disk (sys w) in
  let log_file := UtilsMore.log_file (log_dir_of config) in
  let csv := LoadMore.csv_path (data_dir_of config) (now_stamp (Load.clock_reads d)) in
  let rows0 := LoadMore.table_rows d (db_path_of config) in
  starts_with config_path config w ->
  Extract.extract_all http (cities_of config) (api_of config) (net w) = (Ret raws, n') ->
  raws <> [] ->
  Transform.transform now_iso parse_number (as_records raws) (norm w) = (Ret df, t') ->
  pd.empty df = false ->
  LoadMore.mkdir_free d (data_dir_of config) ->
  LoadMore.mkdir_free d (Load.parent (db_path_of config)) ->
  LoadMore.clear_of log_file (data_dir_of config) ->
  LoadMore.clear_of log_file (Load.parent (db_path_of config)) ->
  LoadMore.clear_of csv (Load.parent (db_path_of config)) ->
  to_sql_append df rows0 = inl e ->
  exists w',
    run_pipeline config_path w = (XRaise (Stage e), w')
    /\ Load.files (disk (sys w')) !! csv = Some (csv_text df)
    /\ LoadMore.table_rows (disk (sys w')) (db_path_of config) = rows0
    /\ (forall q, q <> db_path_of config ->
          Load.dbs (disk (sys w')) !! q = Load.dbs d !! q)
    /\ app_log w' = app_log w ++ opening_lines ++
         [LogRecord INFO "PHASE 1 / 3 — Extract" [];
          LogRecord INFO "PHASE 2 / 3 — Transform" [];
          LogRecord INFO "PHASE 3 / 3 — Load" []].
Proof.
  intros d log_file csv rows0 Hstart Hex Hraws Htr Hne Hdata Hdb Hlog1 Hlog2 Hclear Hsql.
  destruct (run_pipeline_load_run config_path config w raws n' df t'
              Hstart Hex Hraws Htr Hne Hdata Hdb Hlog1 Hlog2 Hclear)
    as (w' & Hrun & Hcsv & Hrows & Hdbs & _ & _ & _ & Hl).
  fold d rows0 in Hrun, Hrows, Hl. rewrite Hsql in Hrun, Hrows, Hl.
  rewrite app_nil_r in Hl.
  exists w'. repeat (split; [assumption|]). exact Hl.
Qed.

End MainFacts.

(** * The further properties at fixtures *)

Lemma fetch_weather_returns_first_success_witness :
  exists w',
    Extract.fetch_weather FixturesMore.second_answers Fixtures.PARIS
      "https://api.open-meteo.com/v1/forecast" 10 3 2 true []
    = (Ret Fixtures.SAMPLE_RESPONSE, w')
    /\ Extract.n_requests w' = 2%nat
    /\ Extract.sleeps w' = [2].
Proof.
  destruct (fetch_weather_returns_first_success FixturesMore.second_answers Fixtures.PARIS
              (VStr "Paris") (VFloat (488566 # 10000)) (VFloat (23522 # 10000))
              "https://api.open-meteo.com/v1/forecast" 10 3 2 2 true []
              {| Extract.status_code := 200; Extract.body := Some Fixtures.SAMPLE_RESPONSE |}
              Fixtures.SAMPLE_RESPONSE)
    as (w' & Hrun & _ & Hn & Hs).
  - reflexivity.
  - reflexivity.
  - reflexivity.
  - lia.
  - intros a Ha. assert (a = 1) as -> by lia. vm_compute. split; discriminate.
  - intros i req Hi. cbn in Hi. replace i with 0%nat by lia. reflexivity.
  - reflexivity.
  - reflexivity.
  - reflexivity.
  - exists w'. split; [exact Hrun|]. split; [exact Hn|exact Hs].
Defined.


Lemma fetch_weather_missing_key_witness :
  Extract.fetch_weather Fixtures.first_answers FixturesMore.NO_NAME
    "https://api.open-meteo.com/v1/forecast" 10 3 2 true []
  = (Raise (KeyError "name"), []).
Proof.
  apply (fetch_weather_missing_key Fixtures.first_answers FixturesMore.NO_NAME "name").
  reflexivity.
Defined.

Lemma fetch_weather_negative_backoff_raises_witness :
  (exists w',
     Extract.fetch_weather Fixtures.always_timeout Fixtures.PARIS
       "https://api.open-meteo.com/v1/forecast" 10 2 (-1) true [] = (Raise ValueError, w')
     /\ Extract.n_requests w' = 1%nat
     /\ Extract.sleeps w' = [])
  /\ (exists w',
        Extract.fetch_weather Fixtures.always_timeout Fixtures.PARIS
          "https://api.open-meteo.com/v1/forecast" 10 2 (-10000000000) true []
        = (Raise OverflowError, w')
        /\ Extract.n_requests w' = 1%nat
        /\ Extract.sleeps w' = []).
Proof.
  split.
  - destruct (fetch_weather_negative_backoff_raises Fixtures.always_timeout Fixtures.PARIS
                (VStr "Paris") (VFloat (488566 # 10000)) (VFloat (23522 # 10000))
                "https://api.open-meteo.com/v1/forecast" 10 2 (-1) true [])
      as (w' & Hrun & _ & Hn & Hs).
    + reflexivity.
    + reflexivity.
    + reflexivity.
    + lia.
    + lia.
    + reflexivity.
    + exists w'. split; [exact Hrun|]. split; [exact Hn|exact Hs].
  - destruct (fetch_weather_negative_backoff_raises Fixtures.always_timeout Fixtures.PARIS
                (VStr "Paris") (VFloat (488566 # 10000)) (VFloat (23522 # 10000))
                "https://api.open-meteo.com/v1/forecast" 10 2 (-10000000000) true [])
      as (w' & Hrun & _ & Hn & Hs).
    + reflexivity.
    + reflexivity.
    + reflexivity.
    + lia.
    + lia.
    + reflexivity.
    + exists w'. split; [exact Hrun|]. split; [exact Hn|exact Hs].
Defined.

Lemma fetch_weather_delay_overflow_raises_witness :
  exists w',
    Extract.fetch_weather Fixtures.always_timeout Fixtures.PARIS
      "https://api.open-meteo.com/v1/forecast" 10 2 10000000000 true []
    = (Raise OverflowError, w')
    /\ Extract.n_requests w' = 1%nat
    /\ Extract.sleeps w' = [].
Proof.
  destruct (fetch_weather_delay_overflow_raises Fixtures.always_timeout Fixtures.PARIS
              (VStr "Paris") (VFloat (488566 # 10000)) (VFloat (23522 # 10000))
              "https://api.open-meteo.com/v1/forecast" 10 2 10000000000 true [])
    as (w' & Hrun & _ & Hn & Hs).
  - reflexivity.
  - reflexivity.
  - reflexivity.
  - lia.
  - unfold Extract.SLEEP_MAX. lia.
  - reflexivity.
  - exists w'. split; [exact Hrun|]. split; [exact Hn|exact Hs].
Defined.


Lemma extract_all_needs_base_url_witness :
  Extract.extract_all Fixtures.first_answers [Fixtures.PARIS] Main.no_api []
  = (Raise (KeyError "base_url"), []).
Proof.
  destruct (extract_all_needs_base_url Fixtures.first_answers [Fixtures.PARIS]
              Main.no_api []) as [Hraise _].
  - reflexivity.
  - apply Hraise. discriminate.
Defined.


Lemma extract_all_network_down_witness :
  exists w',
    Extract.extract_all Fixtures.always_timeout [Fixtures.PARIS; Fixtures.BAD]
      Fixtures.API_CONFIG [] = (Ret [], w')
    /\ Extract.n_requests w' = 4%nat
    /\ length (Extract.sleeps w') = 2%nat.
Proof.
  destruct (extract_all_network_down Fixtures.always_timeout Fixtures.API_CONFIG
              "https://api.open-meteo.com/v1/forecast" [Fixtures.PARIS; Fixtures.BAD] [])
    as (w' & Hrun & Hn & Hs).
  - repeat constructor; eexists; reflexivity.
  - reflexivity.
  - cbn. lia.
  - intros a Ha. cbn in Ha. assert (a = 1) as -> by lia. vm_compute. split; discriminate.
  - intros k req. reflexivity.
  - exists w'. split; [exact Hrun|]. split; [exact Hn|exact Hs].
Defined.

Lemma extract_all_every_city_answered_witness :
  exists w',
    Extract.extract_all FixturesMore.always_answers [Fixtures.PARIS; Fixtures.BAD]
      Fixtures.API_CONFIG []
    = (Ret [VDict {[ "city" := VStr "Paris"; "raw" := Fixtures.SAMPLE_RESPONSE ]};
            VDict {[ "city" := VStr "Bad"; "raw" := Fixtures.SAMPLE_RESPONSE ]}], w')
    /\ Extract.n_requests w' = 2%nat
    /\ Extract.sleeps w' = [].
Proof.
  destruct (extract_all_every_city_answered FixturesMore.always_answers Fixtures.API_CONFIG
              "https://api.open-meteo.com/v1/forecast" eq_refl
              (fun _ _ => Fixtures.SAMPLE_RESPONSE) [Fixtures.PARIS; Fixtures.BAD] [])
    as (w' & Hrun & _ & Hn & Hs).
  - repeat constructor; eexists; reflexivity.
  - cbn. lia.
  - intros k req. eexists. split; [reflexivity|]. split; reflexivity.
  - intros k req. reflexivity.
  - exists w'. split; [exact Hrun|]. split; [exact Hn|exact Hs].
Defined.

Lemma parse_single_effects_witness :
  Transform._parse_single Fixtures.fixed_clock Fixtures.RECORD_MISSING_CW
    Fixtures.transform_start
  = (Ret None,
     Transform.logged (Transform.skip_line Fixtures.RECORD_MISSING_CW) Fixtures.transform_start)
  /\ TransformMore.block_of Fixtures.RECORD_MISSING_CW = None
  /\ Transform.log
       (Transform.logged (Transform.skip_line Fixtures.RECORD_MISSING_CW)
          Fixtures.transform_start)
     = [Transform.skip_line Fixtures.RECORD_MISSING_CW].
Proof.
  assert (H : Transform._parse_single Fixtures.fixed_clock Fixtures.RECORD_MISSING_CW
                Fixtures.transform_start
              = (Ret None,
                 Transform.logged (Transform.skip_line Fixtures.RECORD_MISSING_CW)
                   Fixtures.transform_start)) by reflexivity.
  split; [exact H|].
  destruct (parse_single_effects Fixtures.fixed_clock _ _ _ _ H) as (Hblock & _ & Hlog).
  split; [exact Hblock|exact Hlog].
Defined.

Lemma transform_rows_follow_input_witness :
  exists df w',
    Transform.transform Fixtures.fixed_clock Fixtures.parse_nothing
      [Fixtures.VALID_RECORD; Fixtures.RECORD_MISSING_CW] Fixtures.transform_start
    = (Ret df, w')
    /\ pd.len df = 1%nat
    /\ pd.get_column df "city" = Some (pd.SObject [VStr "Paris"])
    /\ Transform.clock_reads w' = 1%nat.
Proof.
  destruct (Transform.transform Fixtures.fixed_clock Fixtures.parse_nothing
              [Fixtures.VALID_RECORD; Fixtures.RECORD_MISSING_CW] Fixtures.transform_start)
    as [[df|e] w'] eqn:Htr; [|vm_compute in Htr; discriminate Htr].
  destruct (transform_rows_follow_input Fixtures.fixed_clock Fixtures.parse_nothing
              _ _ _ _ Htr) as (Hlen & Hcity & _ & _ & Hclk).
  exists df, w'. split; [reflexivity|]. split; [exact Hlen|]. split; [exact Hcity|].
  rewrite Hclk, Hlen. reflexivity.
Defined.

Lemma transform_raises_exactly_when_witness :
  (exists w',
     Transform.transform Fixtures.fixed_clock Fixtures.parse_nothing
       [Fixtures.VALID_RECORD; Fixtures.RECORD_NON_MAPPING] Fixtures.transform_start
     = (Raise AttributeError, w'))
  /\ (exists w',
        Transform.transform Fixtures.fixed_clock Fixtures.parse_nothing
          [Fixtures.VALID_RECORD; Fixtures.RECORD_FRACTIONAL_CODE] Fixtures.transform_start
        = (Raise TypeError, w'))
  /\ (exists df w',
        Transform.transform Fixtures.fixed_clock Fixtures.parse_nothing
          [Fixtures.VALID_RECORD; Fixtures.RECORD_MISSING_CW] Fixtures.transform_start
        = (Ret df, w')).
Proof.
  split; [|split].
  - destruct (transform_raises_exactly_when Fixtures.fixed_clock Fixtures.parse_nothing
                [Fixtures.VALID_RECORD; Fixtures.RECORD_NON_MAPPING] Fixtures.transform_start)
      as (Hattr & _ & _).
    apply Hattr. reflexivity.
  - destruct (transform_raises_exactly_when Fixtures.fixed_clock Fixtures.parse_nothing
                [Fixtures.VALID_RECORD; Fixtures.RECORD_FRACTIONAL_CODE]
                Fixtures.transform_start)
      as (_ & Htype & _).
    apply Htype; reflexivity.
  - destruct (transform_raises_exactly_when Fixtures.fixed_clock Fixtures.parse_nothing
                [Fixtures.VALID_RECORD; Fixtures.RECORD_MISSING_CW] Fixtures.transform_start)
      as (_ & _ & Hret).
    apply Hret; reflexivity.
Defined.

Lemma transform_keeps_values_witness :
  exists df w',
    Transform.transform Fixtures.fixed_clock Fixtures.parse_nothing
      [Fixtures.RECORD_MISSING_CW; Fixtures.VALID_RECORD] Fixtures.transform_start
    = (Ret df, w')
    /\ TransformMore.cell df "city" 0 = Some (VStr "Paris")
    /\ TransformMore.cell df "temperature_c" 0 = Some (VFloat (72 # 10))
    /\ TransformMore.cell df "weathercode" 0 = Some (VInt 3).
Proof.
  destruct (Transform.transform Fixtures.fixed_clock Fixtures.parse_nothing
              [Fixtures.RECORD_MISSING_CW; Fixtures.VALID_RECORD] Fixtures.transform_start)
    as [[df|e] w'] eqn:Htr; [|vm_compute in Htr; discriminate Htr].
  destruct (transform_keeps_values Fixtures.fixed_clock Fixtures.parse_nothing
              _ _ _ _ 0%nat Fixtures.VALID_RECORD Fixtures.CURRENT_WEATHER Htr)
    as (Hcity & _ & Hfloat & Hint & _).
  - reflexivity.
  - reflexivity.
  - exists df, w'. split; [reflexivity|]. split; [exact Hcity|]. split.
    + apply (Hfloat "temperature" "temperature_c"); [cbn; tauto|reflexivity].
    + apply (Hint "weathercode" "weathercode"); [cbn; tauto|reflexivity].
Defined.

Lemma load_to_csv_writes_one_file_witness :
  exists w',
    Load.load_to_csv Fixtures.fixed_stamp Fixtures.csv_blank FixturesMore.ONE_ROW ["data"]
      Fixtures.load_start
    = (Ret (Some ["data"; "weather_data_20260218_220100.csv"]), w')
    /\ Load.files w' !! ["data"; "weather_data_20260218_220100.csv"] = Some ""
    /\ Load.clock_reads w' = 1%nat.
Proof.
  destruct (load_to_csv_writes_one_file Fixtures.fixed_stamp Fixtures.csv_blank
              FixturesMore.ONE_ROW ["data"] Fixtures.load_start)
    as (w' & Hrun & Hfiles & _ & _ & _ & Hclk & _).
  - reflexivity.
  - intros q Hq. reflexivity.
  - exists w'. split; [exact Hrun|]. split; [|exact Hclk].
    rewrite Hfiles. reflexivity.
Defined.

Lemma load_to_csv_blocked_by_file_witness :
  Load.load_to_csv Fixtures.fixed_stamp Fixtures.csv_blank FixturesMore.ONE_ROW ["data"]
    FixturesMore.disk_blocked
  = (Raise FileExistsError, FixturesMore.disk_blocked).
Proof.
  apply (load_to_csv_blocked_by_file Fixtures.fixed_stamp Fixtures.csv_blank
           FixturesMore.ONE_ROW ["data"] FixturesMore.disk_blocked).
  - reflexivity.
  - discriminate.
  - exists "not a directory". reflexivity.
Defined.

Lemma load_to_csv_blocked_above_witness :
  Load.load_to_csv Fixtures.fixed_stamp Fixtures.csv_blank FixturesMore.ONE_ROW
    ["data"; "raw"] FixturesMore.disk_blocked
  = (Raise NotADirectoryError, FixturesMore.disk_blocked).
Proof.
  apply (load_to_csv_blocked_above Fixtures.fixed_stamp Fixtures.csv_blank
           FixturesMore.ONE_ROW ["data"; "raw"] ["data"] FixturesMore.disk_blocked).
  - reflexivity.
  - reflexivity.
  - cbn. left. reflexivity.
  - exists "not a directory". reflexivity.
Defined.

Lemma load_to_sqlite_returns_inserted_witness :
  exists w',
    Load.load_to_sqlite FixturesMore.engine_appends FixturesMore.ONE_ROW
      ["data"; "weather.db"] Fixtures.load_start
    = (Ret 1, w')
    /\ LoadMore.table_rows w' ["data"; "weather.db"] = [FixturesMore.PARIS_ROW].
Proof.
  destruct (load_to_sqlite_returns_inserted FixturesMore.engine_appends FixturesMore.ONE_ROW
              ["data"; "weather.db"] Fixtures.load_start [FixturesMore.PARIS_ROW])
    as (w' & Hrun & Hrows & _).
  - reflexivity.
  - intros q Hq. reflexivity.
  - reflexivity.
  - exists w'. split; [exact Hrun|exact Hrows].
Defined.

Lemma load_to_sqlite_reraises_witness :
  (exists w',
     Load.load_to_sqlite FixturesMore.engine_refuses FixturesMore.ONE_ROW
       ["data"; "weather.db"] Fixtures.load_start
     = (Raise DatabaseError, w')
     /\ Load.dbs w' !! ["data"; "weather.db"] = Some (Some [])
     /\ Load.log w' = [])
  /\ (exists w',
        Load.load_to_sqlite FixturesMore.engine_refuses_raw FixturesMore.ONE_ROW
          ["data"; "weather.db"] Fixtures.load_start
        = (Raise SqliteError, w')
        /\ Load.dbs w' !! ["data"; "weather.db"] = Some (Some [])
        /\ Load.log w' = [LoadMore.sqlite_error_line]).
Proof.
  split.
  - destruct (load_to_sqlite_reraises FixturesMore.engine_refuses FixturesMore.ONE_ROW
                ["data"; "weather.db"] Fixtures.load_start DatabaseError)
      as (w' & Hrun & Hdb & _ & _ & Hlog).
    + reflexivity.
    + intros q Hq. reflexivity.
    + reflexivity.
    + exists w'. split; [exact Hrun|]. split; [exact Hdb|exact Hlog].
  - destruct (load_to_sqlite_reraises FixturesMore.engine_refuses_raw FixturesMore.ONE_ROW
                ["data"; "weather.db"] Fixtures.load_start SqliteError)
      as (w' & Hrun & Hdb & _ & _ & Hlog).
    + reflexivity.
    + intros q Hq. reflexivity.
    + reflexivity.
    + exists w'. split; [exact Hrun|]. split; [exact Hdb|exact Hlog].
Defined.

Lemma load_to_sqlite_accumulates_witness :
  exists w1 w2,
    Load.load_to_sqlite FixturesMore.engine_appends FixturesMore.ONE_ROW
      ["data"; "weather.db"] Fixtures.load_start = (Ret 1, w1)
    /\ Load.load_to_sqlite FixturesMore.engine_appends FixturesMore.ONE_ROW
         ["data"; "weather.db"] w1 = (Ret 1, w2)
    /\ LoadMore.table_rows w2 ["data"; "weather.db"]
       = [FixturesMore.PARIS_ROW; FixturesMore.PARIS_ROW].
Proof.
  destruct (load_to_sqlite_accumulates FixturesMore.engine_appends
              FixturesMore.ONE_ROW FixturesMore.ONE_ROW
              ["data"; "weather.db"] Fixtures.load_start
              [FixturesMore.PARIS_ROW] [FixturesMore.PARIS_ROW; FixturesMore.PARIS_ROW])
    as (w1 & w2 & n1 & n2 & Hrun1 & Hrun2 & -> & -> & Hrows & _).
  - reflexivity.
  - reflexivity.
  - intros q Hq. reflexivity.
  - reflexivity.
  - reflexivity.
  - exists w1, w2. split; [exact Hrun1|]. split; [exact Hrun2|exact Hrows].
Defined.

Lemma ensure_directory_creates_once_witness :
  exists w',
    Utils.ensure_directory ["data"; "raw"] FixturesMore.sys_blank
    = (Utils.XRet ["data"; "raw"], w')
    /\ ["data"] ∈ Load.dirs (Utils.disk w')
    /\ ["data"; "raw"] ∈ Load.dirs (Utils.disk w')
    /\ Utils.ensure_directory ["data"; "raw"] w' = (Utils.XRet ["data"; "raw"], w').
Proof.
  destruct (ensure_directory_creates_once ["data"; "raw"] FixturesMore.sys_blank)
    as (w' & Hrun & Hdirs & _ & _ & _ & Hagain).
  - intros q Hq. reflexivity.
  - exists w'. split; [exact Hrun|]. split; [|split; [|exact Hagain]].
    + apply Hdirs. cbn. tauto.
    + apply Hdirs. cbn. tauto.
Defined.

Lemma setup_logging_adds_handlers_once_witness :
  exists w1 w2,
    Utils.setup_logging ["logs"] 20 1024 5 FixturesMore.sys_blank
    = (Utils.XRet {| Utils.lg_level := 20;
                     Utils.lg_handlers :=
                       [UtilsMore.file_handler ["logs"] 20 1024 5;
                        UtilsMore.console_handler 20] |}, w1)
    /\ Utils.setup_logging ["logs"] 10 2048 1 w1
       = (Utils.XRet {| Utils.lg_level := 10;
                        Utils.lg_handlers :=
                          [UtilsMore.file_handler ["logs"] 20 1024 5;
                           UtilsMore.console_handler 20] |}, w2).
Proof.
  destruct (setup_logging_adds_handlers_once ["logs"] 20 1024 5 10 2048 1
              FixturesMore.sys_blank)
    as (w1 & w2 & Hrun1 & Hrun2 & _).
  - intros q Hq. reflexivity.
  - reflexivity.
  - apply not_elem_of_empty.
  - exists w1, w2. split; [exact Hrun1|exact Hrun2].
Defined.

Lemma load_config_reads_resolved_path_witness :
  Utils.load_config Main.Config FixturesMore.yaml_fixture FixturesMore.CONFIG_PATH None
    (FixturesMore.sys_start "paris")
  = (Utils.XRet FixturesMore.CONFIG, FixturesMore.sys_start "paris")
  /\ fst (Utils.load_config Main.Config FixturesMore.yaml_fixture FixturesMore.CONFIG_PATH
            (Some ["elsewhere.yaml"]) (FixturesMore.sys_start "paris"))
     = Utils.XRaise (Utils.FileNotFoundError ["elsewhere.yaml"]).
Proof.
  split.
  - destruct (load_config_reads_resolved_path Main.Config FixturesMore.yaml_fixture
                FixturesMore.CONFIG_PATH None (FixturesMore.sys_start "paris"))
      as (Hstate & _ & Hread & _).
    specialize (Hread "paris" eq_refl).
    destruct (Utils.load_config Main.Config FixturesMore.yaml_fixture
                FixturesMore.CONFIG_PATH None (FixturesMore.sys_start "paris")) as [r s].
    cbn [fst snd] in Hstate, Hread. rewrite Hstate, Hread. reflexivity.
  - destruct (load_config_reads_resolved_path Main.Config FixturesMore.yaml_fixture
                FixturesMore.CONFIG_PATH (Some ["elsewhere.yaml"])
                (FixturesMore.sys_start "paris"))
      as (_ & Hmissing & _).
    apply Hmissing; [reflexivity|apply not_elem_of_empty].
Defined.

(** A directory is free when nothing stands at any of its ancestors. *)
Ltac free_by_cases :=
  let q := fresh "q" in
  let Hq := fresh "Hq" in
  intros q Hq; vm_compute in Hq;
  repeat (destruct Hq as [<-|Hq]; [reflexivity|]); destruct Hq.

(** The fixture states let a run get past its prologue. *)
Lemma main_start_paris :
  MainMore.starts_with FixturesMore.yaml_fixture FixturesMore.CONFIG_PATH None
    FixturesMore.CONFIG (FixturesMore.main_start "paris").
Proof.
  split; [|split].
  - exists "paris". split; reflexivity.
  - free_by_cases.
  - right. apply not_elem_of_empty.
Defined.

Lemma main_start_nowhere :
  MainMore.starts_with FixturesMore.yaml_fixture FixturesMore.CONFIG_PATH None
    FixturesMore.CONFIG_NO_CITIES (FixturesMore.main_start "nowhere").
Proof.
  split; [|split].
  - exists "nowhere". split; reflexivity.
  - free_by_cases.
  - right. apply not_elem_of_empty.
Defined.

Lemma run_pipeline_missing_config_witness :
  Main.run_pipeline Fixtures.first_answers Fixtures.fixed_clock Fixtures.parse_nothing
    Fixtures.fixed_stamp Fixtures.csv_blank FixturesMore.engine_appends
    FixturesMore.yaml_fixture FixturesMore.CONFIG_PATH None FixturesMore.main_blank
  = (Utils.XRaise (Utils.FileNotFoundError FixturesMore.CONFIG_PATH), FixturesMore.main_blank).
Proof.
  apply (run_pipeline_missing_config Fixtures.first_answers Fixtures.fixed_clock
           Fixtures.parse_nothing Fixtures.fixed_stamp Fixtures.csv_blank
           FixturesMore.engine_appends FixturesMore.yaml_fixture FixturesMore.CONFIG_PATH
           None FixturesMore.main_blank).
  - reflexivity.
  - apply not_elem_of_empty.
Defined.

Lemma run_pipeline_without_cities_witness :
  exists w',
    Main.run_pipeline Fixtures.first_answers Fixtures.fixed_clock Fixtures.parse_nothing
      Fixtures.fixed_stamp Fixtures.csv_blank FixturesMore.engine_appends
      FixturesMore.yaml_fixture FixturesMore.CONFIG_PATH None
      (FixturesMore.main_start "nowhere")
    = (Utils.XRet tt, w')
    /\ Main.net w' = []
    /\ Main.app_log w' = MainMore.opening_lines ++
         [LogRecord ERROR "No cities defined in configuration – aborting." []].
Proof.
  destruct (run_pipeline_without_cities Fixtures.first_answers Fixtures.fixed_clock
              Fixtures.parse_nothing Fixtures.fixed_stamp Fixtures.csv_blank
              FixturesMore.engine_appends FixturesMore.yaml_fixture FixturesMore.CONFIG_PATH
              None FixturesMore.CONFIG_NO_CITIES (FixturesMore.main_start "nowhere")
              main_start_nowhere)
    as (w' & Hrun & Hnet & _ & _ & Hlog).
  - reflexivity.
  - exists w'. split; [exact Hrun|]. split; [exact Hnet|exact Hlog].
Defined.

Lemma run_pipeline_network_down_witness :
  exists w',
    Main.run_pipeline Fixtures.always_timeout Fixtures.fixed_clock Fixtures.parse_nothing
      Fixtures.fixed_stamp Fixtures.csv_blank FixturesMore.engine_appends
      FixturesMore.yaml_fixture FixturesMore.CONFIG_PATH None
      (FixturesMore.main_start "paris")
    = (Utils.XRet tt, w')
    /\ Extract.n_requests (Main.net w') = 2%nat
    /\ Main.norm w' = Fixtures.transform_start.
Proof.
  destruct (run_pipeline_network_down Fixtures.always_timeout Fixtures.fixed_clock
              Fixtures.parse_nothing Fixtures.fixed_stamp Fixtures.csv_blank
              FixturesMore.engine_appends FixturesMore.yaml_fixture FixturesMore.CONFIG_PATH
              None FixturesMore.CONFIG "https://api.open-meteo.com/v1/forecast"
              (FixturesMore.main_start "paris") main_start_paris)
    as (w' & Hrun & Hn & Hnorm & _).
  - discriminate.
  - repeat constructor; eexists; reflexivity.
  - reflexivity.
  - cbn. lia.
  - intros a Ha. cbn in Ha. assert (a = 1) as -> by lia. vm_compute. split; discriminate.
  - intros k req. reflexivity.
  - exists w'. split; [exact Hrun|]. split; [exact Hn|exact Hnorm].
Defined.

Lemma run_pipeline_propagates_transform_error_witness :
  exists w',
    Main.run_pipeline FixturesMore.odd_answers Fixtures.fixed_clock Fixtures.parse_nothing
      Fixtures.fixed_stamp Fixtures.csv_blank FixturesMore.engine_appends
      FixturesMore.yaml_fixture FixturesMore.CONFIG_PATH None
      (FixturesMore.main_start "paris")
    = (Utils.XRaise (Utils.Stage AttributeError), w')
    /\ Main.norm w' = Fixtures.transform_start.
Proof.
  remember (Extract.extract_all FixturesMore.odd_answers (MainMore.cities_of FixturesMore.CONFIG)
              (MainMore.api_of FixturesMore.CONFIG)
              (Main.net (FixturesMore.main_start "paris"))) as res eqn:Hres.
  pose proof Hres as Hex. vm_compute in Hex. subst res. symmetry in Hex.
  destruct (run_pipeline_propagates_transform_error FixturesMore.odd_answers
              Fixtures.fixed_clock Fixtures.parse_nothing Fixtures.fixed_stamp
              Fixtures.csv_blank FixturesMore.engine_appends FixturesMore.yaml_fixture
              FixturesMore.CONFIG_PATH None FixturesMore.CONFIG
              (FixturesMore.main_start "paris") _ _ AttributeError Fixtures.transform_start
              main_start_paris Hex)
    as (w' & Hrun & _ & Hnorm & _).
  - discriminate.
  - reflexivity.
  - exists w'. split; [exact Hrun|exact Hnorm].
Defined.

Lemma run_pipeline_complete_run_witness :
  exists w',
    Main.run_pipeline Fixtures.first_answers Fixtures.fixed_clock Fixtures.parse_nothing
      Fixtures.fixed_stamp Fixtures.csv_blank FixturesMore.engine_appends
      FixturesMore.yaml_fixture FixturesMore.CONFIG_PATH None
      (FixturesMore.main_start "paris")
    = (Utils.XRet tt, w')
    /\ Load.files (Utils.disk (Main.sys w')) !! ["data"; "weather_data_20260218_220100.csv"]
       = Some ""
    /\ LoadMore.table_rows (Utils.disk (Main.sys w')) ["data"; "weather.db"]
       = [FixturesMore.PARIS_ROW].
Proof.
  remember (Extract.extract_all Fixtures.first_answers (MainMore.cities_of FixturesMore.CONFIG)
              (MainMore.api_of FixturesMore.CONFIG)
              (Main.net (FixturesMore.main_start "paris"))) as res eqn:Hres.
  pose proof Hres as Hex. vm_compute in Hex. subst res. symmetry in Hex.
  remember (Transform.transform Fixtures.fixed_clock Fixtures.parse_nothing
              (Main.as_records
                 [VDict {[ "city" := VStr "Paris"; "raw" := Fixtures.SAMPLE_RESPONSE ]}])
              (Main.norm (FixturesMore.main_start "paris"))) as out eqn:Hout.
  pose proof Hout as Htr. vm_compute in Htr. subst out. symmetry in Htr.
  destruct (run_pipeline_complete_run Fixtures.first_answers
              Fixtures.fixed_clock Fixtures.parse_nothing Fixtures.fixed_stamp
              Fixtures.csv_blank FixturesMore.engine_appends FixturesMore.yaml_fixture
              FixturesMore.CONFIG_PATH None FixturesMore.CONFIG
              (FixturesMore.main_start "paris") _ _ _ _ [FixturesMore.PARIS_ROW]
              main_start_paris Hex ltac:(discriminate) Htr)
    as (w' & Hrun & Hcsv & Hrows & _).
  - reflexivity.
  - free_by_cases.
  - free_by_cases.
  - intros Hq. vm_compute in Hq. destruct Hq as [Hq|[]]. discriminate Hq.
  - intros Hq. vm_compute in Hq. destruct Hq as [Hq|[]]. discriminate Hq.
  - intros Hq. vm_compute in Hq. destruct Hq as [Hq|[]]. discriminate Hq.
  - reflexivity.
  - exists w'. split; [exact Hrun|]. split; [exact Hcsv|exact Hrows].
Defined.

Lemma run_pipeline_refused_insert_witness :
  exists w',
    Main.run_pipeline Fixtures.first_answers Fixtures.fixed_clock Fixtures.parse_nothing
      Fixtures.fixed_stamp Fixtures.csv_blank FixturesMore.engine_refuses
      FixturesMore.yaml_fixture FixturesMore.CONFIG_PATH None
      (FixturesMore.main_start "paris")
    = (Utils.XRaise (Utils.Stage DatabaseError), w')
    /\ Load.files (Utils.disk (Main.sys w')) !! ["data"; "weather_data_20260218_220100.csv"]
       = Some ""
    /\ LoadMore.table_rows (Utils.disk (Main.sys w')) ["data"; "weather.db"] = [].
Proof.
  remember (Extract.extract_all Fixtures.first_answers (MainMore.cities_of FixturesMore.CONFIG)
              (MainMore.api_of FixturesMore.CONFIG)
              (Main.net (FixturesMore.main_start "paris"))) as res eqn:Hres.
  pose proof Hres as Hex. vm_compute in Hex. subst res. symmetry in Hex.
  remember (Transform.transform Fixtures.fixed_clock Fixtures.parse_nothing
              (Main.as_records
                 [VDict {[ "city" := VStr "Paris"; "raw" := Fixtures.SAMPLE_RESPONSE ]}])
              (Main.norm (FixturesMore.main_start "paris"))) as out eqn:Hout.
  pose proof Hout as Htr. vm_compute in Htr. subst out. symmetry in Htr.
  destruct (run_pipeline_refused_insert Fixtures.first_answers
              Fixtures.fixed_clock Fixtures.parse_nothing Fixtures.fixed_stamp
              Fixtures.csv_blank FixturesMore.engine_refuses FixturesMore.yaml_fixture
              FixturesMore.CONFIG_PATH None FixturesMore.CONFIG
              (FixturesMore.main_start "paris") _ _ _ _ DatabaseError
              main_start_paris Hex ltac:(discriminate) Htr)
    as (w' & Hrun & Hcsv & Hrows & _).
  - reflexivity.
  - free_by_cases.
  - free_by_cases.
  - intros Hq. vm_compute in Hq. destruct Hq as [Hq|[]]. discriminate Hq.
  - intros Hq. vm_compute in Hq. destruct Hq as [Hq|[]]. discriminate Hq.
  - intros Hq. vm_compute in Hq. destruct Hq as [Hq|[]]. discriminate Hq.
  - reflexivity.
  - exists w'. split; [exact Hrun|]. split; [exact Hcsv|exact Hrows].
Defined.
